(** * The media indexer of photoprism: [Index.MediaFile] and its helpers

    A shallow embedding of [internal/photoprism/index_mediafile.go]: the
    reconciliation of one media file with the catalog of photos, files and
    labels, followed by the properties of the indexer that the natural-language
    specification states.

    Conventions of the embedding.
    - Go's [int], [uint] and [int64] are [Z]; the one subtraction of the code
      that can leave the range of [int] is written with its wrap-around.
    - Floating-point values are only copied and compared for equality by the
      indexer; a [float64] is modelled by its IEEE-754 bit pattern.
    - A [time.Time] is modelled by its calendar fields in UTC.
    - The local variables [photo] and [file] are threaded explicitly; the
      catalog ([ind.db]) and the event bus are the two components of the
      state. Log output is not modelled.
    - The result of every call that leaves the repository's sources (file
      system, TensorFlow, geocoder, random ids, database failures) is read
      from the receiver or from the media file descriptor.
    - A table of the catalog is the list of its rows, or a map from its
      primary key; a row that is soft-deleted has [DeletedAt] set, and only a
      query that is not [Unscoped] leaves such rows out.
    - A nil pointer dereference is not modelled: the place of a photo that
      has a place id is taken to be loaded with it. *)

From Stdlib Require Import ZArith String List Bool Lia.
From stdpp Require Import base decidable option list gmap strings pretty.

Local Open Scope string_scope.
Local Open Scope list_scope.
Local Open Scope Z_scope.

(** ** Go primitives *)

Definition error := string.

(** Two's complement wrap-around of a 64-bit [int]. *)
Definition int_wrap (z : Z) : Z := (z + 2 ^ 63) mod 2 ^ 64 - 2 ^ 63.

Definition int_sub (a b : Z) : Z := int_wrap (a - b).

(** Go's [/] on integers truncates toward zero. *)
Definition int_div (a b : Z) : Z := Z.quot a b.

(** [len(s)] of a string is its number of bytes. *)
Definition len (s : string) : Z := Z.of_nat (String.length s).

(** A [float64], by its bit pattern. *)
Definition float64 := Z.

(** The bit pattern of [1.0]. *)
Definition float_one : float64 := 4607182418800017408.

(** [fmt.Sprintf("%s / %s", a, b)] and [fmt.Sprintf("%s / %s / %s", a, b, c)]. *)
Definition sprintf2 (a b : string) : string := (a ++ " / " ++ b)%string.
Definition sprintf3 (a b c : string) : string :=
  (a ++ " / " ++ b ++ " / " ++ c)%string.

(** [strings.Contains]. *)
Fixpoint strings_Contains (s sub : string) : bool :=
  String.prefix sub s ||
  match s with
  | EmptyString => false
  | String _ s' => strings_Contains s' sub
  end.

(** [strings.Join]. *)
Definition strings_Join (l : list string) (sep : string) : string :=
  String.concat sep l.

(** ** [time.Time] *)

Module time.

Record Time := mkTime {
  year : Z; month : Z; day : Z;
  hour : Z; minute : Z; second : Z; nanosecond : Z
}.

#[global] Instance Time_eq_dec : EqDecision Time.
Proof. solve_decision. Defined.

(** The zero value: January 1, year 1, 00:00:00 UTC. *)
Definition zero : Time := mkTime 1 1 1 0 0 0 0.

Definition IsZero (t : Time) : bool := bool_decide (t = zero).
Definition Year (t : Time) : Z := year t.
Definition Month (t : Time) : Z := month t.
Definition Hour (t : Time) : Z := hour t.

(** A number that is not negative, zero-padded to four digits. *)
Definition pad4 (n : Z) : string :=
  if n <? 10 then String.append "000" (pretty n)
  else if n <? 100 then String.append "00" (pretty n)
  else if n <? 1000 then String.append "0" (pretty n)
  else pretty n.

(** [t.Format("2006")]: the year, zero-padded to four digits. *)
Definition Format2006 (t : Time) : string :=
  if year t <? 0 then String.append "-" (pad4 (- year t)) else pad4 (year t).

End time.

(** ** Package [classify] *)

Module classify.

Record Label := mkLabel {
  Name : string;
  Source : string;
  Uncertainty : Z;
  Priority : Z;
  Categories : list string
}.

Definition Labels := list Label.

(** Modelled from the spec: [Labels.Less], the order of [sort.Sort(labels)],
    is missing from the sources; labels are ordered by priority, highest
    first, then by uncertainty, lowest first. *)
Definition Less (a b : Label) : bool :=
  if Priority a =? Priority b then Uncertainty a <? Uncertainty b
  else Priority b <? Priority a.

Fixpoint insert (x : Label) (l : Labels) : Labels :=
  match l with
  | [] => [x]
  | y :: l' => if Less y x then y :: insert x l' else x :: y :: l'
  end.

(** Modelled from the spec: [sort.Sort(labels)], with ties kept in input
    order. *)
Definition Sort (l : Labels) : Labels := foldr insert [] l.

(** Modelled from the spec: [classify.LocationLabel] is missing from the
    sources; the synthetic label carries the given name, uncertainty and
    priority and the source "location". *)
Definition LocationLabel (name : string) (uncertainty priority : Z) : Label :=
  mkLabel name "location" uncertainty priority [].

End classify.

(** ** Package [meta] *)

Module meta.

(** [meta.Data], as read from Exif or from an XMP sidecar. *)
Record Data := mkData {
  UniqueID : string;
  TakenAt : time.Time;
  TakenAtLocal : time.Time;
  TimeZone : string;
  Title : string;
  Subject : string;
  Keywords : string;
  Comment : string;
  Artist : string;
  Description : string;
  Copyright : string;
  CameraOwner : string;
  CameraSerial : string;
  Lat : float64;
  Lng : float64;
  Altitude : Z
}.

End meta.

(** ** Package [entity] *)

Module entity.

Module Description.

(** [entity.Description], the six text fields of a photo. *)
Record t := mk {
  PhotoDescription : string;
  PhotoKeywords : string;
  PhotoNotes : string;
  PhotoSubject : string;
  PhotoArtist : string;
  PhotoCopyright : string
}.

(** The zero value of the struct. *)
Definition zero : t :=
  {| PhotoDescription := ""; PhotoKeywords := ""; PhotoNotes := "";
     PhotoSubject := ""; PhotoArtist := ""; PhotoCopyright := "" |}.

(** Assignment to one field. *)
Definition set_PhotoDescription (v : string) (d : t) : t :=
  {| PhotoDescription := v; PhotoKeywords := PhotoKeywords d; PhotoNotes :=
     PhotoNotes d; PhotoSubject := PhotoSubject d; PhotoArtist := PhotoArtist
     d; PhotoCopyright := PhotoCopyright d |}.
Definition set_PhotoKeywords (v : string) (d : t) : t :=
  {| PhotoDescription := PhotoDescription d; PhotoKeywords := v; PhotoNotes :=
     PhotoNotes d; PhotoSubject := PhotoSubject d; PhotoArtist := PhotoArtist
     d; PhotoCopyright := PhotoCopyright d |}.
Definition set_PhotoNotes (v : string) (d : t) : t :=
  {| PhotoDescription := PhotoDescription d; PhotoKeywords := PhotoKeywords d;
     PhotoNotes := v; PhotoSubject := PhotoSubject d; PhotoArtist :=
     PhotoArtist d; PhotoCopyright := PhotoCopyright d |}.
Definition set_PhotoSubject (v : string) (d : t) : t :=
  {| PhotoDescription := PhotoDescription d; PhotoKeywords := PhotoKeywords d;
     PhotoNotes := PhotoNotes d; PhotoSubject := v; PhotoArtist := PhotoArtist
     d; PhotoCopyright := PhotoCopyright d |}.
Definition set_PhotoArtist (v : string) (d : t) : t :=
  {| PhotoDescription := PhotoDescription d; PhotoKeywords := PhotoKeywords d;
     PhotoNotes := PhotoNotes d; PhotoSubject := PhotoSubject d; PhotoArtist
     := v; PhotoCopyright := PhotoCopyright d |}.
Definition set_PhotoCopyright (v : string) (d : t) : t :=
  {| PhotoDescription := PhotoDescription d; PhotoKeywords := PhotoKeywords d;
     PhotoNotes := PhotoNotes d; PhotoSubject := PhotoSubject d; PhotoArtist
     := PhotoArtist d; PhotoCopyright := v |}.

(** Modelled from the spec: the [No...()] predicates of [entity.Description]
    are missing from the sources; each one holds when its field is empty. *)
Definition NoDescription (d : t) : bool := bool_decide (PhotoDescription d = "").
Definition NoKeywords (d : t) : bool := bool_decide (PhotoKeywords d = "").
Definition NoNotes (d : t) : bool := bool_decide (PhotoNotes d = "").
Definition NoSubject (d : t) : bool := bool_decide (PhotoSubject d = "").
Definition NoArtist (d : t) : bool := bool_decide (PhotoArtist d = "").
Definition NoCopyright (d : t) : bool := bool_decide (PhotoCopyright d = "").

End Description.

Module Camera.

(** [entity.Camera], interned by model and make. *)
Record t := mk {
  ID : Z;
  CameraModel : string;
  CameraMake : string
}.

(** The zero value of the struct. *)
Definition zero : t :=
  {| ID := 0; CameraModel := ""; CameraMake := "" |}.

End Camera.

Module Lens.

(** [entity.Lens], interned by model and make. *)
Record t := mk {
  ID : Z;
  LensModel : string;
  LensMake : string
}.

(** The zero value of the struct. *)
Definition zero : t :=
  {| ID := 0; LensModel := ""; LensMake := "" |}.

End Lens.

Module Country.

(** [entity.Country]; [New] is set on the struct when the row was just
    created. *)
Record t := mk {
  ID : string;
  CountryName : string;
  New : bool
}.

(** The zero value of the struct. *)
Definition zero : t :=
  {| ID := ""; CountryName := ""; New := false |}.

(** Assignment to one field. *)
Definition set_New (v : bool) (c : t) : t :=
  {| ID := ID c; CountryName := CountryName c; New := v |}.

End Country.

Module Place.

(** [entity.Place]; [New] is set on the struct when the row was just
    created. *)
Record t := mk {
  ID : string;
  LocLabel : string;
  LocCountry : string;
  New : bool
}.

(** The zero value of the struct. *)
Definition zero : t :=
  {| ID := ""; LocLabel := ""; LocCountry := ""; New := false |}.

(** Assignment to one field. *)
Definition set_New (v : bool) (p : t) : t :=
  {| ID := ID p; LocLabel := LocLabel p; LocCountry := LocCountry p; New := v
     |}.

(** Modelled from the spec: [entity.UnknownPlace] is missing from the sources;
    it is the well-known place with id "zz". *)
Definition UnknownPlace : t :=
  {| ID := "zz"; LocLabel := "Unknown"; LocCountry := "zz"; New := false |}.

End Place.

Module Location.

(** [entity.Location], with the results of its accessor methods once it is
    resolved. *)
Record t := mk {
  ID : string;
  PlaceID : string;
  Place : Place.t;
  LocName : string;
  LocCity : string;
  LocCategory : string;
  LocCountryCode : string;
  LocCountryName : string;
  LocKeywords : list string
}.

(** The zero value of the struct. *)
Definition zero : t :=
  {| ID := ""; PlaceID := ""; Place := Place.zero; LocName := ""; LocCity :=
     ""; LocCategory := ""; LocCountryCode := ""; LocCountryName := "";
     LocKeywords := [] |}.


End Location.

Module Label.

(** [entity.Label]; [New] is set on the struct when the row was just created. *)
Record t := mk {
  ID : Z;
  LabelUUID : string;
  LabelSlug : string;
  LabelName : string;
  LabelPriority : Z;
  LabelFavorite : bool;
  New : bool
}.

(** The zero value of the struct. *)
Definition zero : t :=
  {| ID := 0; LabelUUID := ""; LabelSlug := ""; LabelName := ""; LabelPriority
     := 0; LabelFavorite := false; New := false |}.

(** Assignment to one field. *)
Definition set_LabelPriority (v : Z) (l : t) : t :=
  {| ID := ID l; LabelUUID := LabelUUID l; LabelSlug := LabelSlug l; LabelName
     := LabelName l; LabelPriority := v; LabelFavorite := LabelFavorite l; New
     := New l |}.
Definition set_New (v : bool) (l : t) : t :=
  {| ID := ID l; LabelUUID := LabelUUID l; LabelSlug := LabelSlug l; LabelName
     := LabelName l; LabelPriority := LabelPriority l; LabelFavorite :=
     LabelFavorite l; New := v |}.

End Label.

Module PhotoLabel.

(** [entity.PhotoLabel], the edge between a photo and a label. *)
Record t := mk {
  PhotoID : Z;
  LabelID : Z;
  LabelUncertainty : Z;
  LabelSource : string
}.

(** The zero value of the struct. *)
Definition zero : t :=
  {| PhotoID := 0; LabelID := 0; LabelUncertainty := 0; LabelSource := "" |}.

(** Assignment to one field. *)
Definition set_LabelUncertainty (v : Z) (e : t) : t :=
  {| PhotoID := PhotoID e; LabelID := LabelID e; LabelUncertainty := v;
     LabelSource := LabelSource e |}.
Definition set_LabelSource (v : string) (e : t) : t :=
  {| PhotoID := PhotoID e; LabelID := LabelID e; LabelUncertainty :=
     LabelUncertainty e; LabelSource := v |}.

End PhotoLabel.

Module Photo.

(** [entity.Photo]. The description and the associations are kept with the
    struct. *)
Record t := mk {
  ID : Z;
  PhotoUUID : string;
  PhotoPath : string;
  PhotoName : string;
  PhotoTitle : string;
  PhotoFavorite : bool;
  PhotoNSFW : bool;
  PhotoLat : float64;
  PhotoLng : float64;
  PhotoAltitude : Z;
  TakenAt : time.Time;
  TakenAtLocal : time.Time;
  TimeZone : string;
  PhotoYear : Z;
  PhotoMonth : Z;
  PhotoCountry : string;
  PhotoFocalLength : Z;
  PhotoFNumber : float64;
  PhotoIso : Z;
  PhotoExposure : string;
  CameraSerial : string;
  Camera : option Camera.t;
  Lens : option Lens.t;
  Location : option Location.t;
  LocationID : string;
  LocationEstimated : bool;
  Place : option Place.t;
  PlaceID : string;
  Description : Description.t;
  ModifiedTitle : bool;
  ModifiedDate : bool;
  ModifiedLocation : bool;
  ModifiedCamera : bool;
  DeletedAt : option time.Time
}.

(** The zero value of the struct. *)
Definition zero : t :=
  {| ID := 0; PhotoUUID := ""; PhotoPath := ""; PhotoName := ""; PhotoTitle :=
     ""; PhotoFavorite := false; PhotoNSFW := false; PhotoLat := 0; PhotoLng
     := 0; PhotoAltitude := 0; TakenAt := time.zero; TakenAtLocal :=
     time.zero; TimeZone := ""; PhotoYear := 0; PhotoMonth := 0; PhotoCountry
     := ""; PhotoFocalLength := 0; PhotoFNumber := 0; PhotoIso := 0;
     PhotoExposure := ""; CameraSerial := ""; Camera := None; Lens := None;
     Location := None; LocationID := ""; LocationEstimated := false; Place :=
     None; PlaceID := ""; Description := Description.zero; ModifiedTitle :=
     false; ModifiedDate := false; ModifiedLocation := false; ModifiedCamera
     := false; DeletedAt := None |}.

(** Assignment to one field. *)
Definition set_ID (v : Z) (p : t) : t :=
  {| ID := v; PhotoUUID := PhotoUUID p; PhotoPath := PhotoPath p; PhotoName :=
     PhotoName p; PhotoTitle := PhotoTitle p; PhotoFavorite := PhotoFavorite
     p; PhotoNSFW := PhotoNSFW p; PhotoLat := PhotoLat p; PhotoLng := PhotoLng
     p; PhotoAltitude := PhotoAltitude p; TakenAt := TakenAt p; TakenAtLocal
     := TakenAtLocal p; TimeZone := TimeZone p; PhotoYear := PhotoYear p;
     PhotoMonth := PhotoMonth p; PhotoCountry := PhotoCountry p;
     PhotoFocalLength := PhotoFocalLength p; PhotoFNumber := PhotoFNumber p;
     PhotoIso := PhotoIso p; PhotoExposure := PhotoExposure p; CameraSerial :=
     CameraSerial p; Camera := Camera p; Lens := Lens p; Location := Location
     p; LocationID := LocationID p; LocationEstimated := LocationEstimated p;
     Place := Place p; PlaceID := PlaceID p; Description := Description p;
     ModifiedTitle := ModifiedTitle p; ModifiedDate := ModifiedDate p;
     ModifiedLocation := ModifiedLocation p; ModifiedCamera := ModifiedCamera
     p; DeletedAt := DeletedAt p |}.
Definition set_PhotoUUID (v : string) (p : t) : t :=
  {| ID := ID p; PhotoUUID := v; PhotoPath := PhotoPath p; PhotoName :=
     PhotoName p; PhotoTitle := PhotoTitle p; PhotoFavorite := PhotoFavorite
     p; PhotoNSFW := PhotoNSFW p; PhotoLat := PhotoLat p; PhotoLng := PhotoLng
     p; PhotoAltitude := PhotoAltitude p; TakenAt := TakenAt p; TakenAtLocal
     := TakenAtLocal p; TimeZone := TimeZone p; PhotoYear := PhotoYear p;
     PhotoMonth := PhotoMonth p; PhotoCountry := PhotoCountry p;
     PhotoFocalLength := PhotoFocalLength p; PhotoFNumber := PhotoFNumber p;
     PhotoIso := PhotoIso p; PhotoExposure := PhotoExposure p; CameraSerial :=
     CameraSerial p; Camera := Camera p; Lens := Lens p; Location := Location
     p; LocationID := LocationID p; LocationEstimated := LocationEstimated p;
     Place := Place p; PlaceID := PlaceID p; Description := Description p;
     ModifiedTitle := ModifiedTitle p; ModifiedDate := ModifiedDate p;
     ModifiedLocation := ModifiedLocation p; ModifiedCamera := ModifiedCamera
     p; DeletedAt := DeletedAt p |}.
Definition set_PhotoPath (v : string) (p : t) : t :=
  {| ID := ID p; PhotoUUID := PhotoUUID p; PhotoPath := v; PhotoName :=
     PhotoName p; PhotoTitle := PhotoTitle p; PhotoFavorite := PhotoFavorite
     p; PhotoNSFW := PhotoNSFW p; PhotoLat := PhotoLat p; PhotoLng := PhotoLng
     p; PhotoAltitude := PhotoAltitude p; TakenAt := TakenAt p; TakenAtLocal
     := TakenAtLocal p; TimeZone := TimeZone p; PhotoYear := PhotoYear p;
     PhotoMonth := PhotoMonth p; PhotoCountry := PhotoCountry p;
     PhotoFocalLength := PhotoFocalLength p; PhotoFNumber := PhotoFNumber p;
     PhotoIso := PhotoIso p; PhotoExposure := PhotoExposure p; CameraSerial :=
     CameraSerial p; Camera := Camera p; Lens := Lens p; Location := Location
     p; LocationID := LocationID p; LocationEstimated := LocationEstimated p;
     Place := Place p; PlaceID := PlaceID p; Description := Description p;
     ModifiedTitle := ModifiedTitle p; ModifiedDate := ModifiedDate p;
     ModifiedLocation := ModifiedLocation p; ModifiedCamera := ModifiedCamera
     p; DeletedAt := DeletedAt p |}.
Definition set_PhotoName (v : string) (p : t) : t :=
  {| ID := ID p; PhotoUUID := PhotoUUID p; PhotoPath := PhotoPath p; PhotoName
     := v; PhotoTitle := PhotoTitle p; PhotoFavorite := PhotoFavorite p;
     PhotoNSFW := PhotoNSFW p; PhotoLat := PhotoLat p; PhotoLng := PhotoLng p;
     PhotoAltitude := PhotoAltitude p; TakenAt := TakenAt p; TakenAtLocal :=
     TakenAtLocal p; TimeZone := TimeZone p; PhotoYear := PhotoYear p;
     PhotoMonth := PhotoMonth p; PhotoCountry := PhotoCountry p;
     PhotoFocalLength := PhotoFocalLength p; PhotoFNumber := PhotoFNumber p;
     PhotoIso := PhotoIso p; PhotoExposure := PhotoExposure p; CameraSerial :=
     CameraSerial p; Camera := Camera p; Lens := Lens p; Location := Location
     p; LocationID := LocationID p; LocationEstimated := LocationEstimated p;
     Place := Place p; PlaceID := PlaceID p; Description := Description p;
     ModifiedTitle := ModifiedTitle p; ModifiedDate := ModifiedDate p;
     ModifiedLocation := ModifiedLocation p; ModifiedCamera := ModifiedCamera
     p; DeletedAt := DeletedAt p |}.
Definition set_PhotoTitle (v : string) (p : t) : t :=
  {| ID := ID p; PhotoUUID := PhotoUUID p; PhotoPath := PhotoPath p; PhotoName
     := PhotoName p; PhotoTitle := v; PhotoFavorite := PhotoFavorite p;
     PhotoNSFW := PhotoNSFW p; PhotoLat := PhotoLat p; PhotoLng := PhotoLng p;
     PhotoAltitude := PhotoAltitude p; TakenAt := TakenAt p; TakenAtLocal :=
     TakenAtLocal p; TimeZone := TimeZone p; PhotoYear := PhotoYear p;
     PhotoMonth := PhotoMonth p; PhotoCountry := PhotoCountry p;
     PhotoFocalLength := PhotoFocalLength p; PhotoFNumber := PhotoFNumber p;
     PhotoIso := PhotoIso p; PhotoExposure := PhotoExposure p; CameraSerial :=
     CameraSerial p; Camera := Camera p; Lens := Lens p; Location := Location
     p; LocationID := LocationID p; LocationEstimated := LocationEstimated p;
     Place := Place p; PlaceID := PlaceID p; Description := Description p;
     ModifiedTitle := ModifiedTitle p; ModifiedDate := ModifiedDate p;
     ModifiedLocation := ModifiedLocation p; ModifiedCamera := ModifiedCamera
     p; DeletedAt := DeletedAt p |}.
Definition set_PhotoFavorite (v : bool) (p : t) : t :=
  {| ID := ID p; PhotoUUID := PhotoUUID p; PhotoPath := PhotoPath p; PhotoName
     := PhotoName p; PhotoTitle := PhotoTitle p; PhotoFavorite := v; PhotoNSFW
     := PhotoNSFW p; PhotoLat := PhotoLat p; PhotoLng := PhotoLng p;
     PhotoAltitude := PhotoAltitude p; TakenAt := TakenAt p; TakenAtLocal :=
     TakenAtLocal p; TimeZone := TimeZone p; PhotoYear := PhotoYear p;
     PhotoMonth := PhotoMonth p; PhotoCountry := PhotoCountry p;
     PhotoFocalLength := PhotoFocalLength p; PhotoFNumber := PhotoFNumber p;
     PhotoIso := PhotoIso p; PhotoExposure := PhotoExposure p; CameraSerial :=
     CameraSerial p; Camera := Camera p; Lens := Lens p; Location := Location
     p; LocationID := LocationID p; LocationEstimated := LocationEstimated p;
     Place := Place p; PlaceID := PlaceID p; Description := Description p;
     ModifiedTitle := ModifiedTitle p; ModifiedDate := ModifiedDate p;
     ModifiedLocation := ModifiedLocation p; ModifiedCamera := ModifiedCamera
     p; DeletedAt := DeletedAt p |}.
Definition set_PhotoNSFW (v : bool) (p : t) : t :=
  {| ID := ID p; PhotoUUID := PhotoUUID p; PhotoPath := PhotoPath p; PhotoName
     := PhotoName p; PhotoTitle := PhotoTitle p; PhotoFavorite :=
     PhotoFavorite p; PhotoNSFW := v; PhotoLat := PhotoLat p; PhotoLng :=
     PhotoLng p; PhotoAltitude := PhotoAltitude p; TakenAt := TakenAt p;
     TakenAtLocal := TakenAtLocal p; TimeZone := TimeZone p; PhotoYear :=
     PhotoYear p; PhotoMonth := PhotoMonth p; PhotoCountry := PhotoCountry p;
     PhotoFocalLength := PhotoFocalLength p; PhotoFNumber := PhotoFNumber p;
     PhotoIso := PhotoIso p; PhotoExposure := PhotoExposure p; CameraSerial :=
     CameraSerial p; Camera := Camera p; Lens := Lens p; Location := Location
     p; LocationID := LocationID p; LocationEstimated := LocationEstimated p;
     Place := Place p; PlaceID := PlaceID p; Description := Description p;
     ModifiedTitle := ModifiedTitle p; ModifiedDate := ModifiedDate p;
     ModifiedLocation := ModifiedLocation p; ModifiedCamera := ModifiedCamera
     p; DeletedAt := DeletedAt p |}.
Definition set_PhotoLat (v : float64) (p : t) : t :=
  {| ID := ID p; PhotoUUID := PhotoUUID p; PhotoPath := PhotoPath p; PhotoName
     := PhotoName p; PhotoTitle := PhotoTitle p; PhotoFavorite :=
     PhotoFavorite p; PhotoNSFW := PhotoNSFW p; PhotoLat := v; PhotoLng :=
     PhotoLng p; PhotoAltitude := PhotoAltitude p; TakenAt := TakenAt p;
     TakenAtLocal := TakenAtLocal p; TimeZone := TimeZone p; PhotoYear :=
     PhotoYear p; PhotoMonth := PhotoMonth p; PhotoCountry := PhotoCountry p;
     PhotoFocalLength := PhotoFocalLength p; PhotoFNumber := PhotoFNumber p;
     PhotoIso := PhotoIso p; PhotoExposure := PhotoExposure p; CameraSerial :=
     CameraSerial p; Camera := Camera p; Lens := Lens p; Location := Location
     p; LocationID := LocationID p; LocationEstimated := LocationEstimated p;
     Place := Place p; PlaceID := PlaceID p; Description := Description p;
     ModifiedTitle := ModifiedTitle p; ModifiedDate := ModifiedDate p;
     ModifiedLocation := ModifiedLocation p; ModifiedCamera := ModifiedCamera
     p; DeletedAt := DeletedAt p |}.
Definition set_PhotoLng (v : float64) (p : t) : t :=
  {| ID := ID p; PhotoUUID := PhotoUUID p; PhotoPath := PhotoPath p; PhotoName
     := PhotoName p; PhotoTitle := PhotoTitle p; PhotoFavorite :=
     PhotoFavorite p; PhotoNSFW := PhotoNSFW p; PhotoLat := PhotoLat p;
     PhotoLng := v; PhotoAltitude := PhotoAltitude p; TakenAt := TakenAt p;
     TakenAtLocal := TakenAtLocal p; TimeZone := TimeZone p; PhotoYear :=
     PhotoYear p; PhotoMonth := PhotoMonth p; PhotoCountry := PhotoCountry p;
     PhotoFocalLength := PhotoFocalLength p; PhotoFNumber := PhotoFNumber p;
     PhotoIso := PhotoIso p; PhotoExposure := PhotoExposure p; CameraSerial :=
     CameraSerial p; Camera := Camera p; Lens := Lens p; Location := Location
     p; LocationID := LocationID p; LocationEstimated := LocationEstimated p;
     Place := Place p; PlaceID := PlaceID p; Description := Description p;
     ModifiedTitle := ModifiedTitle p; ModifiedDate := ModifiedDate p;
     ModifiedLocation := ModifiedLocation p; ModifiedCamera := ModifiedCamera
     p; DeletedAt := DeletedAt p |}.
Definition set_PhotoAltitude (v : Z) (p : t) : t :=
  {| ID := ID p; PhotoUUID := PhotoUUID p; PhotoPath := PhotoPath p; PhotoName
     := PhotoName p; PhotoTitle := PhotoTitle p; PhotoFavorite :=
     PhotoFavorite p; PhotoNSFW := PhotoNSFW p; PhotoLat := PhotoLat p;
     PhotoLng := PhotoLng p; PhotoAltitude := v; TakenAt := TakenAt p;
     TakenAtLocal := TakenAtLocal p; TimeZone := TimeZone p; PhotoYear :=
     PhotoYear p; PhotoMonth := PhotoMonth p; PhotoCountry := PhotoCountry p;
     PhotoFocalLength := PhotoFocalLength p; PhotoFNumber := PhotoFNumber p;
     PhotoIso := PhotoIso p; PhotoExposure := PhotoExposure p; CameraSerial :=
     CameraSerial p; Camera := Camera p; Lens := Lens p; Location := Location
     p; LocationID := LocationID p; LocationEstimated := LocationEstimated p;
     Place := Place p; PlaceID := PlaceID p; Description := Description p;
     ModifiedTitle := ModifiedTitle p; ModifiedDate := ModifiedDate p;
     ModifiedLocation := ModifiedLocation p; ModifiedCamera := ModifiedCamera
     p; DeletedAt := DeletedAt p |}.
Definition set_TakenAt (v : time.Time) (p : t) : t :=
  {| ID := ID p; PhotoUUID := PhotoUUID p; PhotoPath := PhotoPath p; PhotoName
     := PhotoName p; PhotoTitle := PhotoTitle p; PhotoFavorite :=
     PhotoFavorite p; PhotoNSFW := PhotoNSFW p; PhotoLat := PhotoLat p;
     PhotoLng := PhotoLng p; PhotoAltitude := PhotoAltitude p; TakenAt := v;
     TakenAtLocal := TakenAtLocal p; TimeZone := TimeZone p; PhotoYear :=
     PhotoYear p; PhotoMonth := PhotoMonth p; PhotoCountry := PhotoCountry p;
     PhotoFocalLength := PhotoFocalLength p; PhotoFNumber := PhotoFNumber p;
     PhotoIso := PhotoIso p; PhotoExposure := PhotoExposure p; CameraSerial :=
     CameraSerial p; Camera := Camera p; Lens := Lens p; Location := Location
     p; LocationID := LocationID p; LocationEstimated := LocationEstimated p;
     Place := Place p; PlaceID := PlaceID p; Description := Description p;
     ModifiedTitle := ModifiedTitle p; ModifiedDate := ModifiedDate p;
     ModifiedLocation := ModifiedLocation p; ModifiedCamera := ModifiedCamera
     p; DeletedAt := DeletedAt p |}.
Definition set_TakenAtLocal (v : time.Time) (p : t) : t :=
  {| ID := ID p; PhotoUUID := PhotoUUID p; PhotoPath := PhotoPath p; PhotoName
     := PhotoName p; PhotoTitle := PhotoTitle p; PhotoFavorite :=
     PhotoFavorite p; PhotoNSFW := PhotoNSFW p; PhotoLat := PhotoLat p;
     PhotoLng := PhotoLng p; PhotoAltitude := PhotoAltitude p; TakenAt :=
     TakenAt p; TakenAtLocal := v; TimeZone := TimeZone p; PhotoYear :=
     PhotoYear p; PhotoMonth := PhotoMonth p; PhotoCountry := PhotoCountry p;
     PhotoFocalLength := PhotoFocalLength p; PhotoFNumber := PhotoFNumber p;
     PhotoIso := PhotoIso p; PhotoExposure := PhotoExposure p; CameraSerial :=
     CameraSerial p; Camera := Camera p; Lens := Lens p; Location := Location
     p; LocationID := LocationID p; LocationEstimated := LocationEstimated p;
     Place := Place p; PlaceID := PlaceID p; Description := Description p;
     ModifiedTitle := ModifiedTitle p; ModifiedDate := ModifiedDate p;
     ModifiedLocation := ModifiedLocation p; ModifiedCamera := ModifiedCamera
     p; DeletedAt := DeletedAt p |}.
Definition set_TimeZone (v : string) (p : t) : t :=
  {| ID := ID p; PhotoUUID := PhotoUUID p; PhotoPath := PhotoPath p; PhotoName
     := PhotoName p; PhotoTitle := PhotoTitle p; PhotoFavorite :=
     PhotoFavorite p; PhotoNSFW := PhotoNSFW p; PhotoLat := PhotoLat p;
     PhotoLng := PhotoLng p; PhotoAltitude := PhotoAltitude p; TakenAt :=
     TakenAt p; TakenAtLocal := TakenAtLocal p; TimeZone := v; PhotoYear :=
     PhotoYear p; PhotoMonth := PhotoMonth p; PhotoCountry := PhotoCountry p;
     PhotoFocalLength := PhotoFocalLength p; PhotoFNumber := PhotoFNumber p;
     PhotoIso := PhotoIso p; PhotoExposure := PhotoExposure p; CameraSerial :=
     CameraSerial p; Camera := Camera p; Lens := Lens p; Location := Location
     p; LocationID := LocationID p; LocationEstimated := LocationEstimated p;
     Place := Place p; PlaceID := PlaceID p; Description := Description p;
     ModifiedTitle := ModifiedTitle p; ModifiedDate := ModifiedDate p;
     ModifiedLocation := ModifiedLocation p; ModifiedCamera := ModifiedCamera
     p; DeletedAt := DeletedAt p |}.
Definition set_PhotoYear (v : Z) (p : t) : t :=
  {| ID := ID p; PhotoUUID := PhotoUUID p; PhotoPath := PhotoPath p; PhotoName
     := PhotoName p; PhotoTitle := PhotoTitle p; PhotoFavorite :=
     PhotoFavorite p; PhotoNSFW := PhotoNSFW p; PhotoLat := PhotoLat p;
     PhotoLng := PhotoLng p; PhotoAltitude := PhotoAltitude p; TakenAt :=
     TakenAt p; TakenAtLocal := TakenAtLocal p; TimeZone := TimeZone p;
     PhotoYear := v; PhotoMonth := PhotoMonth p; PhotoCountry := PhotoCountry
     p; PhotoFocalLength := PhotoFocalLength p; PhotoFNumber := PhotoFNumber
     p; PhotoIso := PhotoIso p; PhotoExposure := PhotoExposure p; CameraSerial
     := CameraSerial p; Camera := Camera p; Lens := Lens p; Location :=
     Location p; LocationID := LocationID p; LocationEstimated :=
     LocationEstimated p; Place := Place p; PlaceID := PlaceID p; Description
     := Description p; ModifiedTitle := ModifiedTitle p; ModifiedDate :=
     ModifiedDate p; ModifiedLocation := ModifiedLocation p; ModifiedCamera :=
     ModifiedCamera p; DeletedAt := DeletedAt p |}.
Definition set_PhotoMonth (v : Z) (p : t) : t :=
  {| ID := ID p; PhotoUUID := PhotoUUID p; PhotoPath := PhotoPath p; PhotoName
     := PhotoName p; PhotoTitle := PhotoTitle p; PhotoFavorite :=
     PhotoFavorite p; PhotoNSFW := PhotoNSFW p; PhotoLat := PhotoLat p;
     PhotoLng := PhotoLng p; PhotoAltitude := PhotoAltitude p; TakenAt :=
     TakenAt p; TakenAtLocal := TakenAtLocal p; TimeZone := TimeZone p;
     PhotoYear := PhotoYear p; PhotoMonth := v; PhotoCountry := PhotoCountry
     p; PhotoFocalLength := PhotoFocalLength p; PhotoFNumber := PhotoFNumber
     p; PhotoIso := PhotoIso p; PhotoExposure := PhotoExposure p; CameraSerial
     := CameraSerial p; Camera := Camera p; Lens := Lens p; Location :=
     Location p; LocationID := LocationID p; LocationEstimated :=
     LocationEstimated p; Place := Place p; PlaceID := PlaceID p; Description
     := Description p; ModifiedTitle := ModifiedTitle p; ModifiedDate :=
     ModifiedDate p; ModifiedLocation := ModifiedLocation p; ModifiedCamera :=
     ModifiedCamera p; DeletedAt := DeletedAt p |}.
Definition set_PhotoCountry (v : string) (p : t) : t :=
  {| ID := ID p; PhotoUUID := PhotoUUID p; PhotoPath := PhotoPath p; PhotoName
     := PhotoName p; PhotoTitle := PhotoTitle p; PhotoFavorite :=
     PhotoFavorite p; PhotoNSFW := PhotoNSFW p; PhotoLat := PhotoLat p;
     PhotoLng := PhotoLng p; PhotoAltitude := PhotoAltitude p; TakenAt :=
     TakenAt p; TakenAtLocal := TakenAtLocal p; TimeZone := TimeZone p;
     PhotoYear := PhotoYear p; PhotoMonth := PhotoMonth p; PhotoCountry := v;
     PhotoFocalLength := PhotoFocalLength p; PhotoFNumber := PhotoFNumber p;
     PhotoIso := PhotoIso p; PhotoExposure := PhotoExposure p; CameraSerial :=
     CameraSerial p; Camera := Camera p; Lens := Lens p; Location := Location
     p; LocationID := LocationID p; LocationEstimated := LocationEstimated p;
     Place := Place p; PlaceID := PlaceID p; Description := Description p;
     ModifiedTitle := ModifiedTitle p; ModifiedDate := ModifiedDate p;
     ModifiedLocation := ModifiedLocation p; ModifiedCamera := ModifiedCamera
     p; DeletedAt := DeletedAt p |}.
Definition set_PhotoFocalLength (v : Z) (p : t) : t :=
  {| ID := ID p; PhotoUUID := PhotoUUID p; PhotoPath := PhotoPath p; PhotoName
     := PhotoName p; PhotoTitle := PhotoTitle p; PhotoFavorite :=
     PhotoFavorite p; PhotoNSFW := PhotoNSFW p; PhotoLat := PhotoLat p;
     PhotoLng := PhotoLng p; PhotoAltitude := PhotoAltitude p; TakenAt :=
     TakenAt p; TakenAtLocal := TakenAtLocal p; TimeZone := TimeZone p;
     PhotoYear := PhotoYear p; PhotoMonth := PhotoMonth p; PhotoCountry :=
     PhotoCountry p; PhotoFocalLength := v; PhotoFNumber := PhotoFNumber p;
     PhotoIso := PhotoIso p; PhotoExposure := PhotoExposure p; CameraSerial :=
     CameraSerial p; Camera := Camera p; Lens := Lens p; Location := Location
     p; LocationID := LocationID p; LocationEstimated := LocationEstimated p;
     Place := Place p; PlaceID := PlaceID p; Description := Description p;
     ModifiedTitle := ModifiedTitle p; ModifiedDate := ModifiedDate p;
     ModifiedLocation := ModifiedLocation p; ModifiedCamera := ModifiedCamera
     p; DeletedAt := DeletedAt p |}.
Definition set_PhotoFNumber (v : float64) (p : t) : t :=
  {| ID := ID p; PhotoUUID := PhotoUUID p; PhotoPath := PhotoPath p; PhotoName
     := PhotoName p; PhotoTitle := PhotoTitle p; PhotoFavorite :=
     PhotoFavorite p; PhotoNSFW := PhotoNSFW p; PhotoLat := PhotoLat p;
     PhotoLng := PhotoLng p; PhotoAltitude := PhotoAltitude p; TakenAt :=
     TakenAt p; TakenAtLocal := TakenAtLocal p; TimeZone := TimeZone p;
     PhotoYear := PhotoYear p; PhotoMonth := PhotoMonth p; PhotoCountry :=
     PhotoCountry p; PhotoFocalLength := PhotoFocalLength p; PhotoFNumber :=
     v; PhotoIso := PhotoIso p; PhotoExposure := PhotoExposure p; CameraSerial
     := CameraSerial p; Camera := Camera p; Lens := Lens p; Location :=
     Location p; LocationID := LocationID p; LocationEstimated :=
     LocationEstimated p; Place := Place p; PlaceID := PlaceID p; Description
     := Description p; ModifiedTitle := ModifiedTitle p; ModifiedDate :=
     ModifiedDate p; ModifiedLocation := ModifiedLocation p; ModifiedCamera :=
     ModifiedCamera p; DeletedAt := DeletedAt p |}.
Definition set_PhotoIso (v : Z) (p : t) : t :=
  {| ID := ID p; PhotoUUID := PhotoUUID p; PhotoPath := PhotoPath p; PhotoName
     := PhotoName p; PhotoTitle := PhotoTitle p; PhotoFavorite :=
     PhotoFavorite p; PhotoNSFW := PhotoNSFW p; PhotoLat := PhotoLat p;
     PhotoLng := PhotoLng p; PhotoAltitude := PhotoAltitude p; TakenAt :=
     TakenAt p; TakenAtLocal := TakenAtLocal p; TimeZone := TimeZone p;
     PhotoYear := PhotoYear p; PhotoMonth := PhotoMonth p; PhotoCountry :=
     PhotoCountry p; PhotoFocalLength := PhotoFocalLength p; PhotoFNumber :=
     PhotoFNumber p; PhotoIso := v; PhotoExposure := PhotoExposure p;
     CameraSerial := CameraSerial p; Camera := Camera p; Lens := Lens p;
     Location := Location p; LocationID := LocationID p; LocationEstimated :=
     LocationEstimated p; Place := Place p; PlaceID := PlaceID p; Description
     := Description p; ModifiedTitle := ModifiedTitle p; ModifiedDate :=
     ModifiedDate p; ModifiedLocation := ModifiedLocation p; ModifiedCamera :=
     ModifiedCamera p; DeletedAt := DeletedAt p |}.
Definition set_PhotoExposure (v : string) (p : t) : t :=
  {| ID := ID p; PhotoUUID := PhotoUUID p; PhotoPath := PhotoPath p; PhotoName
     := PhotoName p; PhotoTitle := PhotoTitle p; PhotoFavorite :=
     PhotoFavorite p; PhotoNSFW := PhotoNSFW p; PhotoLat := PhotoLat p;
     PhotoLng := PhotoLng p; PhotoAltitude := PhotoAltitude p; TakenAt :=
     TakenAt p; TakenAtLocal := TakenAtLocal p; TimeZone := TimeZone p;
     PhotoYear := PhotoYear p; PhotoMonth := PhotoMonth p; PhotoCountry :=
     PhotoCountry p; PhotoFocalLength := PhotoFocalLength p; PhotoFNumber :=
     PhotoFNumber p; PhotoIso := PhotoIso p; PhotoExposure := v; CameraSerial
     := CameraSerial p; Camera := Camera p; Lens := Lens p; Location :=
     Location p; LocationID := LocationID p; LocationEstimated :=
     LocationEstimated p; Place := Place p; PlaceID := PlaceID p; Description
     := Description p; ModifiedTitle := ModifiedTitle p; ModifiedDate :=
     ModifiedDate p; ModifiedLocation := ModifiedLocation p; ModifiedCamera :=
     ModifiedCamera p; DeletedAt := DeletedAt p |}.
Definition set_CameraSerial (v : string) (p : t) : t :=
  {| ID := ID p; PhotoUUID := PhotoUUID p; PhotoPath := PhotoPath p; PhotoName
     := PhotoName p; PhotoTitle := PhotoTitle p; PhotoFavorite :=
     PhotoFavorite p; PhotoNSFW := PhotoNSFW p; PhotoLat := PhotoLat p;
     PhotoLng := PhotoLng p; PhotoAltitude := PhotoAltitude p; TakenAt :=
     TakenAt p; TakenAtLocal := TakenAtLocal p; TimeZone := TimeZone p;
     PhotoYear := PhotoYear p; PhotoMonth := PhotoMonth p; PhotoCountry :=
     PhotoCountry p; PhotoFocalLength := PhotoFocalLength p; PhotoFNumber :=
     PhotoFNumber p; PhotoIso := PhotoIso p; PhotoExposure := PhotoExposure p;
     CameraSerial := v; Camera := Camera p; Lens := Lens p; Location :=
     Location p; LocationID := LocationID p; LocationEstimated :=
     LocationEstimated p; Place := Place p; PlaceID := PlaceID p; Description
     := Description p; ModifiedTitle := ModifiedTitle p; ModifiedDate :=
     ModifiedDate p; ModifiedLocation := ModifiedLocation p; ModifiedCamera :=
     ModifiedCamera p; DeletedAt := DeletedAt p |}.
Definition set_Camera (v : option Camera.t) (p : t) : t :=
  {| ID := ID p; PhotoUUID := PhotoUUID p; PhotoPath := PhotoPath p; PhotoName
     := PhotoName p; PhotoTitle := PhotoTitle p; PhotoFavorite :=
     PhotoFavorite p; PhotoNSFW := PhotoNSFW p; PhotoLat := PhotoLat p;
     PhotoLng := PhotoLng p; PhotoAltitude := PhotoAltitude p; TakenAt :=
     TakenAt p; TakenAtLocal := TakenAtLocal p; TimeZone := TimeZone p;
     PhotoYear := PhotoYear p; PhotoMonth := PhotoMonth p; PhotoCountry :=
     PhotoCountry p; PhotoFocalLength := PhotoFocalLength p; PhotoFNumber :=
     PhotoFNumber p; PhotoIso := PhotoIso p; PhotoExposure := PhotoExposure p;
     CameraSerial := CameraSerial p; Camera := v; Lens := Lens p; Location :=
     Location p; LocationID := LocationID p; LocationEstimated :=
     LocationEstimated p; Place := Place p; PlaceID := PlaceID p; Description
     := Description p; ModifiedTitle := ModifiedTitle p; ModifiedDate :=
     ModifiedDate p; ModifiedLocation := ModifiedLocation p; ModifiedCamera :=
     ModifiedCamera p; DeletedAt := DeletedAt p |}.
Definition set_Lens (v : option Lens.t) (p : t) : t :=
  {| ID := ID p; PhotoUUID := PhotoUUID p; PhotoPath := PhotoPath p; PhotoName
     := PhotoName p; PhotoTitle := PhotoTitle p; PhotoFavorite :=
     PhotoFavorite p; PhotoNSFW := PhotoNSFW p; PhotoLat := PhotoLat p;
     PhotoLng := PhotoLng p; PhotoAltitude := PhotoAltitude p; TakenAt :=
     TakenAt p; TakenAtLocal := TakenAtLocal p; TimeZone := TimeZone p;
     PhotoYear := PhotoYear p; PhotoMonth := PhotoMonth p; PhotoCountry :=
     PhotoCountry p; PhotoFocalLength := PhotoFocalLength p; PhotoFNumber :=
     PhotoFNumber p; PhotoIso := PhotoIso p; PhotoExposure := PhotoExposure p;
     CameraSerial := CameraSerial p; Camera := Camera p; Lens := v; Location
     := Location p; LocationID := LocationID p; LocationEstimated :=
     LocationEstimated p; Place := Place p; PlaceID := PlaceID p; Description
     := Description p; ModifiedTitle := ModifiedTitle p; ModifiedDate :=
     ModifiedDate p; ModifiedLocation := ModifiedLocation p; ModifiedCamera :=
     ModifiedCamera p; DeletedAt := DeletedAt p |}.
Definition set_Location (v : option Location.t) (p : t) : t :=
  {| ID := ID p; PhotoUUID := PhotoUUID p; PhotoPath := PhotoPath p; PhotoName
     := PhotoName p; PhotoTitle := PhotoTitle p; PhotoFavorite :=
     PhotoFavorite p; PhotoNSFW := PhotoNSFW p; PhotoLat := PhotoLat p;
     PhotoLng := PhotoLng p; PhotoAltitude := PhotoAltitude p; TakenAt :=
     TakenAt p; TakenAtLocal := TakenAtLocal p; TimeZone := TimeZone p;
     PhotoYear := PhotoYear p; PhotoMonth := PhotoMonth p; PhotoCountry :=
     PhotoCountry p; PhotoFocalLength := PhotoFocalLength p; PhotoFNumber :=
     PhotoFNumber p; PhotoIso := PhotoIso p; PhotoExposure := PhotoExposure p;
     CameraSerial := CameraSerial p; Camera := Camera p; Lens := Lens p;
     Location := v; LocationID := LocationID p; LocationEstimated :=
     LocationEstimated p; Place := Place p; PlaceID := PlaceID p; Description
     := Description p; ModifiedTitle := ModifiedTitle p; ModifiedDate :=
     ModifiedDate p; ModifiedLocation := ModifiedLocation p; ModifiedCamera :=
     ModifiedCamera p; DeletedAt := DeletedAt p |}.
Definition set_LocationID (v : string) (p : t) : t :=
  {| ID := ID p; PhotoUUID := PhotoUUID p; PhotoPath := PhotoPath p; PhotoName
     := PhotoName p; PhotoTitle := PhotoTitle p; PhotoFavorite :=
     PhotoFavorite p; PhotoNSFW := PhotoNSFW p; PhotoLat := PhotoLat p;
     PhotoLng := PhotoLng p; PhotoAltitude := PhotoAltitude p; TakenAt :=
     TakenAt p; TakenAtLocal := TakenAtLocal p; TimeZone := TimeZone p;
     PhotoYear := PhotoYear p; PhotoMonth := PhotoMonth p; PhotoCountry :=
     PhotoCountry p; PhotoFocalLength := PhotoFocalLength p; PhotoFNumber :=
     PhotoFNumber p; PhotoIso := PhotoIso p; PhotoExposure := PhotoExposure p;
     CameraSerial := CameraSerial p; Camera := Camera p; Lens := Lens p;
     Location := Location p; LocationID := v; LocationEstimated :=
     LocationEstimated p; Place := Place p; PlaceID := PlaceID p; Description
     := Description p; ModifiedTitle := ModifiedTitle p; ModifiedDate :=
     ModifiedDate p; ModifiedLocation := ModifiedLocation p; ModifiedCamera :=
     ModifiedCamera p; DeletedAt := DeletedAt p |}.
Definition set_LocationEstimated (v : bool) (p : t) : t :=
  {| ID := ID p; PhotoUUID := PhotoUUID p; PhotoPath := PhotoPath p; PhotoName
     := PhotoName p; PhotoTitle := PhotoTitle p; PhotoFavorite :=
     PhotoFavorite p; PhotoNSFW := PhotoNSFW p; PhotoLat := PhotoLat p;
     PhotoLng := PhotoLng p; PhotoAltitude := PhotoAltitude p; TakenAt :=
     TakenAt p; TakenAtLocal := TakenAtLocal p; TimeZone := TimeZone p;
     PhotoYear := PhotoYear p; PhotoMonth := PhotoMonth p; PhotoCountry :=
     PhotoCountry p; PhotoFocalLength := PhotoFocalLength p; PhotoFNumber :=
     PhotoFNumber p; PhotoIso := PhotoIso p; PhotoExposure := PhotoExposure p;
     CameraSerial := CameraSerial p; Camera := Camera p; Lens := Lens p;
     Location := Location p; LocationID := LocationID p; LocationEstimated :=
     v; Place := Place p; PlaceID := PlaceID p; Description := Description p;
     ModifiedTitle := ModifiedTitle p; ModifiedDate := ModifiedDate p;
     ModifiedLocation := ModifiedLocation p; ModifiedCamera := ModifiedCamera
     p; DeletedAt := DeletedAt p |}.
Definition set_Place (v : option Place.t) (p : t) : t :=
  {| ID := ID p; PhotoUUID := PhotoUUID p; PhotoPath := PhotoPath p; PhotoName
     := PhotoName p; PhotoTitle := PhotoTitle p; PhotoFavorite :=
     PhotoFavorite p; PhotoNSFW := PhotoNSFW p; PhotoLat := PhotoLat p;
     PhotoLng := PhotoLng p; PhotoAltitude := PhotoAltitude p; TakenAt :=
     TakenAt p; TakenAtLocal := TakenAtLocal p; TimeZone := TimeZone p;
     PhotoYear := PhotoYear p; PhotoMonth := PhotoMonth p; PhotoCountry :=
     PhotoCountry p; PhotoFocalLength := PhotoFocalLength p; PhotoFNumber :=
     PhotoFNumber p; PhotoIso := PhotoIso p; PhotoExposure := PhotoExposure p;
     CameraSerial := CameraSerial p; Camera := Camera p; Lens := Lens p;
     Location := Location p; LocationID := LocationID p; LocationEstimated :=
     LocationEstimated p; Place := v; PlaceID := PlaceID p; Description :=
     Description p; ModifiedTitle := ModifiedTitle p; ModifiedDate :=
     ModifiedDate p; ModifiedLocation := ModifiedLocation p; ModifiedCamera :=
     ModifiedCamera p; DeletedAt := DeletedAt p |}.
Definition set_PlaceID (v : string) (p : t) : t :=
  {| ID := ID p; PhotoUUID := PhotoUUID p; PhotoPath := PhotoPath p; PhotoName
     := PhotoName p; PhotoTitle := PhotoTitle p; PhotoFavorite :=
     PhotoFavorite p; PhotoNSFW := PhotoNSFW p; PhotoLat := PhotoLat p;
     PhotoLng := PhotoLng p; PhotoAltitude := PhotoAltitude p; TakenAt :=
     TakenAt p; TakenAtLocal := TakenAtLocal p; TimeZone := TimeZone p;
     PhotoYear := PhotoYear p; PhotoMonth := PhotoMonth p; PhotoCountry :=
     PhotoCountry p; PhotoFocalLength := PhotoFocalLength p; PhotoFNumber :=
     PhotoFNumber p; PhotoIso := PhotoIso p; PhotoExposure := PhotoExposure p;
     CameraSerial := CameraSerial p; Camera := Camera p; Lens := Lens p;
     Location := Location p; LocationID := LocationID p; LocationEstimated :=
     LocationEstimated p; Place := Place p; PlaceID := v; Description :=
     Description p; ModifiedTitle := ModifiedTitle p; ModifiedDate :=
     ModifiedDate p; ModifiedLocation := ModifiedLocation p; ModifiedCamera :=
     ModifiedCamera p; DeletedAt := DeletedAt p |}.
Definition set_Description (v : Description.t) (p : t) : t :=
  {| ID := ID p; PhotoUUID := PhotoUUID p; PhotoPath := PhotoPath p; PhotoName
     := PhotoName p; PhotoTitle := PhotoTitle p; PhotoFavorite :=
     PhotoFavorite p; PhotoNSFW := PhotoNSFW p; PhotoLat := PhotoLat p;
     PhotoLng := PhotoLng p; PhotoAltitude := PhotoAltitude p; TakenAt :=
     TakenAt p; TakenAtLocal := TakenAtLocal p; TimeZone := TimeZone p;
     PhotoYear := PhotoYear p; PhotoMonth := PhotoMonth p; PhotoCountry :=
     PhotoCountry p; PhotoFocalLength := PhotoFocalLength p; PhotoFNumber :=
     PhotoFNumber p; PhotoIso := PhotoIso p; PhotoExposure := PhotoExposure p;
     CameraSerial := CameraSerial p; Camera := Camera p; Lens := Lens p;
     Location := Location p; LocationID := LocationID p; LocationEstimated :=
     LocationEstimated p; Place := Place p; PlaceID := PlaceID p; Description
     := v; ModifiedTitle := ModifiedTitle p; ModifiedDate := ModifiedDate p;
     ModifiedLocation := ModifiedLocation p; ModifiedCamera := ModifiedCamera
     p; DeletedAt := DeletedAt p |}.

(** Modelled from the spec: the [No...()] predicates of [entity.Photo] are
    missing from the sources; each one holds when its field is empty. *)
Definition NoTitle (p : t) : bool := bool_decide (PhotoTitle p = "").
Definition NoCameraSerial (p : t) : bool := bool_decide (CameraSerial p = "").
Definition NoLocation (p : t) : bool := bool_decide (LocationID p = "").

(** Modelled from the spec: [HasPlace] is missing from the sources; a photo
    has a place when its place id is set. *)
Definition HasPlace (p : t) : bool := negb (bool_decide (PlaceID p = "")).

End Photo.

Module File.

(** [entity.File]. *)
Record t := mk {
  ID : Z;
  FileUUID : string;
  PhotoID : Z;
  PhotoUUID : string;
  FileName : string;
  OriginalName : string;
  FileHash : string;
  FileSize : Z;
  FileModified : time.Time;
  FileType : string;
  FileMime : string;
  FileOrientation : Z;
  FilePrimary : bool;
  FileSidecar : bool;
  FileVideo : bool;
  FileMissing : bool;
  FileMainColor : string;
  FileColors : string;
  FileLuminance : string;
  FileDiff : Z;
  FileChroma : Z;
  FileWidth : Z;
  FileHeight : Z;
  FileAspectRatio : float64;
  FilePortrait : bool;
  CreatedIn : Z;
  UpdatedIn : Z;
  DeletedAt : option time.Time
}.

(** The zero value of the struct. *)
Definition zero : t :=
  {| ID := 0; FileUUID := ""; PhotoID := 0; PhotoUUID := ""; FileName := "";
     OriginalName := ""; FileHash := ""; FileSize := 0; FileModified :=
     time.zero; FileType := ""; FileMime := ""; FileOrientation := 0;
     FilePrimary := false; FileSidecar := false; FileVideo := false;
     FileMissing := false; FileMainColor := ""; FileColors := "";
     FileLuminance := ""; FileDiff := 0; FileChroma := 0; FileWidth := 0;
     FileHeight := 0; FileAspectRatio := 0; FilePortrait := false; CreatedIn
     := 0; UpdatedIn := 0; DeletedAt := None |}.

(** Assignment to one field. *)
Definition set_ID (v : Z) (f : t) : t :=
  {| ID := v; FileUUID := FileUUID f; PhotoID := PhotoID f; PhotoUUID :=
     PhotoUUID f; FileName := FileName f; OriginalName := OriginalName f;
     FileHash := FileHash f; FileSize := FileSize f; FileModified :=
     FileModified f; FileType := FileType f; FileMime := FileMime f;
     FileOrientation := FileOrientation f; FilePrimary := FilePrimary f;
     FileSidecar := FileSidecar f; FileVideo := FileVideo f; FileMissing :=
     FileMissing f; FileMainColor := FileMainColor f; FileColors := FileColors
     f; FileLuminance := FileLuminance f; FileDiff := FileDiff f; FileChroma
     := FileChroma f; FileWidth := FileWidth f; FileHeight := FileHeight f;
     FileAspectRatio := FileAspectRatio f; FilePortrait := FilePortrait f;
     CreatedIn := CreatedIn f; UpdatedIn := UpdatedIn f; DeletedAt :=
     DeletedAt f |}.
Definition set_FileUUID (v : string) (f : t) : t :=
  {| ID := ID f; FileUUID := v; PhotoID := PhotoID f; PhotoUUID := PhotoUUID
     f; FileName := FileName f; OriginalName := OriginalName f; FileHash :=
     FileHash f; FileSize := FileSize f; FileModified := FileModified f;
     FileType := FileType f; FileMime := FileMime f; FileOrientation :=
     FileOrientation f; FilePrimary := FilePrimary f; FileSidecar :=
     FileSidecar f; FileVideo := FileVideo f; FileMissing := FileMissing f;
     FileMainColor := FileMainColor f; FileColors := FileColors f;
     FileLuminance := FileLuminance f; FileDiff := FileDiff f; FileChroma :=
     FileChroma f; FileWidth := FileWidth f; FileHeight := FileHeight f;
     FileAspectRatio := FileAspectRatio f; FilePortrait := FilePortrait f;
     CreatedIn := CreatedIn f; UpdatedIn := UpdatedIn f; DeletedAt :=
     DeletedAt f |}.
Definition set_PhotoID (v : Z) (f : t) : t :=
  {| ID := ID f; FileUUID := FileUUID f; PhotoID := v; PhotoUUID := PhotoUUID
     f; FileName := FileName f; OriginalName := OriginalName f; FileHash :=
     FileHash f; FileSize := FileSize f; FileModified := FileModified f;
     FileType := FileType f; FileMime := FileMime f; FileOrientation :=
     FileOrientation f; FilePrimary := FilePrimary f; FileSidecar :=
     FileSidecar f; FileVideo := FileVideo f; FileMissing := FileMissing f;
     FileMainColor := FileMainColor f; FileColors := FileColors f;
     FileLuminance := FileLuminance f; FileDiff := FileDiff f; FileChroma :=
     FileChroma f; FileWidth := FileWidth f; FileHeight := FileHeight f;
     FileAspectRatio := FileAspectRatio f; FilePortrait := FilePortrait f;
     CreatedIn := CreatedIn f; UpdatedIn := UpdatedIn f; DeletedAt :=
     DeletedAt f |}.
Definition set_PhotoUUID (v : string) (f : t) : t :=
  {| ID := ID f; FileUUID := FileUUID f; PhotoID := PhotoID f; PhotoUUID := v;
     FileName := FileName f; OriginalName := OriginalName f; FileHash :=
     FileHash f; FileSize := FileSize f; FileModified := FileModified f;
     FileType := FileType f; FileMime := FileMime f; FileOrientation :=
     FileOrientation f; FilePrimary := FilePrimary f; FileSidecar :=
     FileSidecar f; FileVideo := FileVideo f; FileMissing := FileMissing f;
     FileMainColor := FileMainColor f; FileColors := FileColors f;
     FileLuminance := FileLuminance f; FileDiff := FileDiff f; FileChroma :=
     FileChroma f; FileWidth := FileWidth f; FileHeight := FileHeight f;
     FileAspectRatio := FileAspectRatio f; FilePortrait := FilePortrait f;
     CreatedIn := CreatedIn f; UpdatedIn := UpdatedIn f; DeletedAt :=
     DeletedAt f |}.
Definition set_FileName (v : string) (f : t) : t :=
  {| ID := ID f; FileUUID := FileUUID f; PhotoID := PhotoID f; PhotoUUID :=
     PhotoUUID f; FileName := v; OriginalName := OriginalName f; FileHash :=
     FileHash f; FileSize := FileSize f; FileModified := FileModified f;
     FileType := FileType f; FileMime := FileMime f; FileOrientation :=
     FileOrientation f; FilePrimary := FilePrimary f; FileSidecar :=
     FileSidecar f; FileVideo := FileVideo f; FileMissing := FileMissing f;
     FileMainColor := FileMainColor f; FileColors := FileColors f;
     FileLuminance := FileLuminance f; FileDiff := FileDiff f; FileChroma :=
     FileChroma f; FileWidth := FileWidth f; FileHeight := FileHeight f;
     FileAspectRatio := FileAspectRatio f; FilePortrait := FilePortrait f;
     CreatedIn := CreatedIn f; UpdatedIn := UpdatedIn f; DeletedAt :=
     DeletedAt f |}.
Definition set_OriginalName (v : string) (f : t) : t :=
  {| ID := ID f; FileUUID := FileUUID f; PhotoID := PhotoID f; PhotoUUID :=
     PhotoUUID f; FileName := FileName f; OriginalName := v; FileHash :=
     FileHash f; FileSize := FileSize f; FileModified := FileModified f;
     FileType := FileType f; FileMime := FileMime f; FileOrientation :=
     FileOrientation f; FilePrimary := FilePrimary f; FileSidecar :=
     FileSidecar f; FileVideo := FileVideo f; FileMissing := FileMissing f;
     FileMainColor := FileMainColor f; FileColors := FileColors f;
     FileLuminance := FileLuminance f; FileDiff := FileDiff f; FileChroma :=
     FileChroma f; FileWidth := FileWidth f; FileHeight := FileHeight f;
     FileAspectRatio := FileAspectRatio f; FilePortrait := FilePortrait f;
     CreatedIn := CreatedIn f; UpdatedIn := UpdatedIn f; DeletedAt :=
     DeletedAt f |}.
Definition set_FileHash (v : string) (f : t) : t :=
  {| ID := ID f; FileUUID := FileUUID f; PhotoID := PhotoID f; PhotoUUID :=
     PhotoUUID f; FileName := FileName f; OriginalName := OriginalName f;
     FileHash := v; FileSize := FileSize f; FileModified := FileModified f;
     FileType := FileType f; FileMime := FileMime f; FileOrientation :=
     FileOrientation f; FilePrimary := FilePrimary f; FileSidecar :=
     FileSidecar f; FileVideo := FileVideo f; FileMissing := FileMissing f;
     FileMainColor := FileMainColor f; FileColors := FileColors f;
     FileLuminance := FileLuminance f; FileDiff := FileDiff f; FileChroma :=
     FileChroma f; FileWidth := FileWidth f; FileHeight := FileHeight f;
     FileAspectRatio := FileAspectRatio f; FilePortrait := FilePortrait f;
     CreatedIn := CreatedIn f; UpdatedIn := UpdatedIn f; DeletedAt :=
     DeletedAt f |}.
Definition set_FileSize (v : Z) (f : t) : t :=
  {| ID := ID f; FileUUID := FileUUID f; PhotoID := PhotoID f; PhotoUUID :=
     PhotoUUID f; FileName := FileName f; OriginalName := OriginalName f;
     FileHash := FileHash f; FileSize := v; FileModified := FileModified f;
     FileType := FileType f; FileMime := FileMime f; FileOrientation :=
     FileOrientation f; FilePrimary := FilePrimary f; FileSidecar :=
     FileSidecar f; FileVideo := FileVideo f; FileMissing := FileMissing f;
     FileMainColor := FileMainColor f; FileColors := FileColors f;
     FileLuminance := FileLuminance f; FileDiff := FileDiff f; FileChroma :=
     FileChroma f; FileWidth := FileWidth f; FileHeight := FileHeight f;
     FileAspectRatio := FileAspectRatio f; FilePortrait := FilePortrait f;
     CreatedIn := CreatedIn f; UpdatedIn := UpdatedIn f; DeletedAt :=
     DeletedAt f |}.
Definition set_FileModified (v : time.Time) (f : t) : t :=
  {| ID := ID f; FileUUID := FileUUID f; PhotoID := PhotoID f; PhotoUUID :=
     PhotoUUID f; FileName := FileName f; OriginalName := OriginalName f;
     FileHash := FileHash f; FileSize := FileSize f; FileModified := v;
     FileType := FileType f; FileMime := FileMime f; FileOrientation :=
     FileOrientation f; FilePrimary := FilePrimary f; FileSidecar :=
     FileSidecar f; FileVideo := FileVideo f; FileMissing := FileMissing f;
     FileMainColor := FileMainColor f; FileColors := FileColors f;
     FileLuminance := FileLuminance f; FileDiff := FileDiff f; FileChroma :=
     FileChroma f; FileWidth := FileWidth f; FileHeight := FileHeight f;
     FileAspectRatio := FileAspectRatio f; FilePortrait := FilePortrait f;
     CreatedIn := CreatedIn f; UpdatedIn := UpdatedIn f; DeletedAt :=
     DeletedAt f |}.
Definition set_FileType (v : string) (f : t) : t :=
  {| ID := ID f; FileUUID := FileUUID f; PhotoID := PhotoID f; PhotoUUID :=
     PhotoUUID f; FileName := FileName f; OriginalName := OriginalName f;
     FileHash := FileHash f; FileSize := FileSize f; FileModified :=
     FileModified f; FileType := v; FileMime := FileMime f; FileOrientation :=
     FileOrientation f; FilePrimary := FilePrimary f; FileSidecar :=
     FileSidecar f; FileVideo := FileVideo f; FileMissing := FileMissing f;
     FileMainColor := FileMainColor f; FileColors := FileColors f;
     FileLuminance := FileLuminance f; FileDiff := FileDiff f; FileChroma :=
     FileChroma f; FileWidth := FileWidth f; FileHeight := FileHeight f;
     FileAspectRatio := FileAspectRatio f; FilePortrait := FilePortrait f;
     CreatedIn := CreatedIn f; UpdatedIn := UpdatedIn f; DeletedAt :=
     DeletedAt f |}.
Definition set_FileMime (v : string) (f : t) : t :=
  {| ID := ID f; FileUUID := FileUUID f; PhotoID := PhotoID f; PhotoUUID :=
     PhotoUUID f; FileName := FileName f; OriginalName := OriginalName f;
     FileHash := FileHash f; FileSize := FileSize f; FileModified :=
     FileModified f; FileType := FileType f; FileMime := v; FileOrientation :=
     FileOrientation f; FilePrimary := FilePrimary f; FileSidecar :=
     FileSidecar f; FileVideo := FileVideo f; FileMissing := FileMissing f;
     FileMainColor := FileMainColor f; FileColors := FileColors f;
     FileLuminance := FileLuminance f; FileDiff := FileDiff f; FileChroma :=
     FileChroma f; FileWidth := FileWidth f; FileHeight := FileHeight f;
     FileAspectRatio := FileAspectRatio f; FilePortrait := FilePortrait f;
     CreatedIn := CreatedIn f; UpdatedIn := UpdatedIn f; DeletedAt :=
     DeletedAt f |}.
Definition set_FileOrientation (v : Z) (f : t) : t :=
  {| ID := ID f; FileUUID := FileUUID f; PhotoID := PhotoID f; PhotoUUID :=
     PhotoUUID f; FileName := FileName f; OriginalName := OriginalName f;
     FileHash := FileHash f; FileSize := FileSize f; FileModified :=
     FileModified f; FileType := FileType f; FileMime := FileMime f;
     FileOrientation := v; FilePrimary := FilePrimary f; FileSidecar :=
     FileSidecar f; FileVideo := FileVideo f; FileMissing := FileMissing f;
     FileMainColor := FileMainColor f; FileColors := FileColors f;
     FileLuminance := FileLuminance f; FileDiff := FileDiff f; FileChroma :=
     FileChroma f; FileWidth := FileWidth f; FileHeight := FileHeight f;
     FileAspectRatio := FileAspectRatio f; FilePortrait := FilePortrait f;
     CreatedIn := CreatedIn f; UpdatedIn := UpdatedIn f; DeletedAt :=
     DeletedAt f |}.
Definition set_FilePrimary (v : bool) (f : t) : t :=
  {| ID := ID f; FileUUID := FileUUID f; PhotoID := PhotoID f; PhotoUUID :=
     PhotoUUID f; FileName := FileName f; OriginalName := OriginalName f;
     FileHash := FileHash f; FileSize := FileSize f; FileModified :=
     FileModified f; FileType := FileType f; FileMime := FileMime f;
     FileOrientation := FileOrientation f; FilePrimary := v; FileSidecar :=
     FileSidecar f; FileVideo := FileVideo f; FileMissing := FileMissing f;
     FileMainColor := FileMainColor f; FileColors := FileColors f;
     FileLuminance := FileLuminance f; FileDiff := FileDiff f; FileChroma :=
     FileChroma f; FileWidth := FileWidth f; FileHeight := FileHeight f;
     FileAspectRatio := FileAspectRatio f; FilePortrait := FilePortrait f;
     CreatedIn := CreatedIn f; UpdatedIn := UpdatedIn f; DeletedAt :=
     DeletedAt f |}.
Definition set_FileSidecar (v : bool) (f : t) : t :=
  {| ID := ID f; FileUUID := FileUUID f; PhotoID := PhotoID f; PhotoUUID :=
     PhotoUUID f; FileName := FileName f; OriginalName := OriginalName f;
     FileHash := FileHash f; FileSize := FileSize f; FileModified :=
     FileModified f; FileType := FileType f; FileMime := FileMime f;
     FileOrientation := FileOrientation f; FilePrimary := FilePrimary f;
     FileSidecar := v; FileVideo := FileVideo f; FileMissing := FileMissing f;
     FileMainColor := FileMainColor f; FileColors := FileColors f;
     FileLuminance := FileLuminance f; FileDiff := FileDiff f; FileChroma :=
     FileChroma f; FileWidth := FileWidth f; FileHeight := FileHeight f;
     FileAspectRatio := FileAspectRatio f; FilePortrait := FilePortrait f;
     CreatedIn := CreatedIn f; UpdatedIn := UpdatedIn f; DeletedAt :=
     DeletedAt f |}.
Definition set_FileVideo (v : bool) (f : t) : t :=
  {| ID := ID f; FileUUID := FileUUID f; PhotoID := PhotoID f; PhotoUUID :=
     PhotoUUID f; FileName := FileName f; OriginalName := OriginalName f;
     FileHash := FileHash f; FileSize := FileSize f; FileModified :=
     FileModified f; FileType := FileType f; FileMime := FileMime f;
     FileOrientation := FileOrientation f; FilePrimary := FilePrimary f;
     FileSidecar := FileSidecar f; FileVideo := v; FileMissing := FileMissing
     f; FileMainColor := FileMainColor f; FileColors := FileColors f;
     FileLuminance := FileLuminance f; FileDiff := FileDiff f; FileChroma :=
     FileChroma f; FileWidth := FileWidth f; FileHeight := FileHeight f;
     FileAspectRatio := FileAspectRatio f; FilePortrait := FilePortrait f;
     CreatedIn := CreatedIn f; UpdatedIn := UpdatedIn f; DeletedAt :=
     DeletedAt f |}.
Definition set_FileMissing (v : bool) (f : t) : t :=
  {| ID := ID f; FileUUID := FileUUID f; PhotoID := PhotoID f; PhotoUUID :=
     PhotoUUID f; FileName := FileName f; OriginalName := OriginalName f;
     FileHash := FileHash f; FileSize := FileSize f; FileModified :=
     FileModified f; FileType := FileType f; FileMime := FileMime f;
     FileOrientation := FileOrientation f; FilePrimary := FilePrimary f;
     FileSidecar := FileSidecar f; FileVideo := FileVideo f; FileMissing := v;
     FileMainColor := FileMainColor f; FileColors := FileColors f;
     FileLuminance := FileLuminance f; FileDiff := FileDiff f; FileChroma :=
     FileChroma f; FileWidth := FileWidth f; FileHeight := FileHeight f;
     FileAspectRatio := FileAspectRatio f; FilePortrait := FilePortrait f;
     CreatedIn := CreatedIn f; UpdatedIn := UpdatedIn f; DeletedAt :=
     DeletedAt f |}.
Definition set_FileMainColor (v : string) (f : t) : t :=
  {| ID := ID f; FileUUID := FileUUID f; PhotoID := PhotoID f; PhotoUUID :=
     PhotoUUID f; FileName := FileName f; OriginalName := OriginalName f;
     FileHash := FileHash f; FileSize := FileSize f; FileModified :=
     FileModified f; FileType := FileType f; FileMime := FileMime f;
     FileOrientation := FileOrientation f; FilePrimary := FilePrimary f;
     FileSidecar := FileSidecar f; FileVideo := FileVideo f; FileMissing :=
     FileMissing f; FileMainColor := v; FileColors := FileColors f;
     FileLuminance := FileLuminance f; FileDiff := FileDiff f; FileChroma :=
     FileChroma f; FileWidth := FileWidth f; FileHeight := FileHeight f;
     FileAspectRatio := FileAspectRatio f; FilePortrait := FilePortrait f;
     CreatedIn := CreatedIn f; UpdatedIn := UpdatedIn f; DeletedAt :=
     DeletedAt f |}.
Definition set_FileColors (v : string) (f : t) : t :=
  {| ID := ID f; FileUUID := FileUUID f; PhotoID := PhotoID f; PhotoUUID :=
     PhotoUUID f; FileName := FileName f; OriginalName := OriginalName f;
     FileHash := FileHash f; FileSize := FileSize f; FileModified :=
     FileModified f; FileType := FileType f; FileMime := FileMime f;
     FileOrientation := FileOrientation f; FilePrimary := FilePrimary f;
     FileSidecar := FileSidecar f; FileVideo := FileVideo f; FileMissing :=
     FileMissing f; FileMainColor := FileMainColor f; FileColors := v;
     FileLuminance := FileLuminance f; FileDiff := FileDiff f; FileChroma :=
     FileChroma f; FileWidth := FileWidth f; FileHeight := FileHeight f;
     FileAspectRatio := FileAspectRatio f; FilePortrait := FilePortrait f;
     CreatedIn := CreatedIn f; UpdatedIn := UpdatedIn f; DeletedAt :=
     DeletedAt f |}.
Definition set_FileLuminance (v : string) (f : t) : t :=
  {| ID := ID f; FileUUID := FileUUID f; PhotoID := PhotoID f; PhotoUUID :=
     PhotoUUID f; FileName := FileName f; OriginalName := OriginalName f;
     FileHash := FileHash f; FileSize := FileSize f; FileModified :=
     FileModified f; FileType := FileType f; FileMime := FileMime f;
     FileOrientation := FileOrientation f; FilePrimary := FilePrimary f;
     FileSidecar := FileSidecar f; FileVideo := FileVideo f; FileMissing :=
     FileMissing f; FileMainColor := FileMainColor f; FileColors := FileColors
     f; FileLuminance := v; FileDiff := FileDiff f; FileChroma := FileChroma
     f; FileWidth := FileWidth f; FileHeight := FileHeight f; FileAspectRatio
     := FileAspectRatio f; FilePortrait := FilePortrait f; CreatedIn :=
     CreatedIn f; UpdatedIn := UpdatedIn f; DeletedAt := DeletedAt f |}.
Definition set_FileDiff (v : Z) (f : t) : t :=
  {| ID := ID f; FileUUID := FileUUID f; PhotoID := PhotoID f; PhotoUUID :=
     PhotoUUID f; FileName := FileName f; OriginalName := OriginalName f;
     FileHash := FileHash f; FileSize := FileSize f; FileModified :=
     FileModified f; FileType := FileType f; FileMime := FileMime f;
     FileOrientation := FileOrientation f; FilePrimary := FilePrimary f;
     FileSidecar := FileSidecar f; FileVideo := FileVideo f; FileMissing :=
     FileMissing f; FileMainColor := FileMainColor f; FileColors := FileColors
     f; FileLuminance := FileLuminance f; FileDiff := v; FileChroma :=
     FileChroma f; FileWidth := FileWidth f; FileHeight := FileHeight f;
     FileAspectRatio := FileAspectRatio f; FilePortrait := FilePortrait f;
     CreatedIn := CreatedIn f; UpdatedIn := UpdatedIn f; DeletedAt :=
     DeletedAt f |}.
Definition set_FileChroma (v : Z) (f : t) : t :=
  {| ID := ID f; FileUUID := FileUUID f; PhotoID := PhotoID f; PhotoUUID :=
     PhotoUUID f; FileName := FileName f; OriginalName := OriginalName f;
     FileHash := FileHash f; FileSize := FileSize f; FileModified :=
     FileModified f; FileType := FileType f; FileMime := FileMime f;
     FileOrientation := FileOrientation f; FilePrimary := FilePrimary f;
     FileSidecar := FileSidecar f; FileVideo := FileVideo f; FileMissing :=
     FileMissing f; FileMainColor := FileMainColor f; FileColors := FileColors
     f; FileLuminance := FileLuminance f; FileDiff := FileDiff f; FileChroma
     := v; FileWidth := FileWidth f; FileHeight := FileHeight f;
     FileAspectRatio := FileAspectRatio f; FilePortrait := FilePortrait f;
     CreatedIn := CreatedIn f; UpdatedIn := UpdatedIn f; DeletedAt :=
     DeletedAt f |}.
Definition set_FileWidth (v : Z) (f : t) : t :=
  {| ID := ID f; FileUUID := FileUUID f; PhotoID := PhotoID f; PhotoUUID :=
     PhotoUUID f; FileName := FileName f; OriginalName := OriginalName f;
     FileHash := FileHash f; FileSize := FileSize f; FileModified :=
     FileModified f; FileType := FileType f; FileMime := FileMime f;
     FileOrientation := FileOrientation f; FilePrimary := FilePrimary f;
     FileSidecar := FileSidecar f; FileVideo := FileVideo f; FileMissing :=
     FileMissing f; FileMainColor := FileMainColor f; FileColors := FileColors
     f; FileLuminance := FileLuminance f; FileDiff := FileDiff f; FileChroma
     := FileChroma f; FileWidth := v; FileHeight := FileHeight f;
     FileAspectRatio := FileAspectRatio f; FilePortrait := FilePortrait f;
     CreatedIn := CreatedIn f; UpdatedIn := UpdatedIn f; DeletedAt :=
     DeletedAt f |}.
Definition set_FileHeight (v : Z) (f : t) : t :=
  {| ID := ID f; FileUUID := FileUUID f; PhotoID := PhotoID f; PhotoUUID :=
     PhotoUUID f; FileName := FileName f; OriginalName := OriginalName f;
     FileHash := FileHash f; FileSize := FileSize f; FileModified :=
     FileModified f; FileType := FileType f; FileMime := FileMime f;
     FileOrientation := FileOrientation f; FilePrimary := FilePrimary f;
     FileSidecar := FileSidecar f; FileVideo := FileVideo f; FileMissing :=
     FileMissing f; FileMainColor := FileMainColor f; FileColors := FileColors
     f; FileLuminance := FileLuminance f; FileDiff := FileDiff f; FileChroma
     := FileChroma f; FileWidth := FileWidth f; FileHeight := v;
     FileAspectRatio := FileAspectRatio f; FilePortrait := FilePortrait f;
     CreatedIn := CreatedIn f; UpdatedIn := UpdatedIn f; DeletedAt :=
     DeletedAt f |}.
Definition set_FileAspectRatio (v : float64) (f : t) : t :=
  {| ID := ID f; FileUUID := FileUUID f; PhotoID := PhotoID f; PhotoUUID :=
     PhotoUUID f; FileName := FileName f; OriginalName := OriginalName f;
     FileHash := FileHash f; FileSize := FileSize f; FileModified :=
     FileModified f; FileType := FileType f; FileMime := FileMime f;
     FileOrientation := FileOrientation f; FilePrimary := FilePrimary f;
     FileSidecar := FileSidecar f; FileVideo := FileVideo f; FileMissing :=
     FileMissing f; FileMainColor := FileMainColor f; FileColors := FileColors
     f; FileLuminance := FileLuminance f; FileDiff := FileDiff f; FileChroma
     := FileChroma f; FileWidth := FileWidth f; FileHeight := FileHeight f;
     FileAspectRatio := v; FilePortrait := FilePortrait f; CreatedIn :=
     CreatedIn f; UpdatedIn := UpdatedIn f; DeletedAt := DeletedAt f |}.
Definition set_FilePortrait (v : bool) (f : t) : t :=
  {| ID := ID f; FileUUID := FileUUID f; PhotoID := PhotoID f; PhotoUUID :=
     PhotoUUID f; FileName := FileName f; OriginalName := OriginalName f;
     FileHash := FileHash f; FileSize := FileSize f; FileModified :=
     FileModified f; FileType := FileType f; FileMime := FileMime f;
     FileOrientation := FileOrientation f; FilePrimary := FilePrimary f;
     FileSidecar := FileSidecar f; FileVideo := FileVideo f; FileMissing :=
     FileMissing f; FileMainColor := FileMainColor f; FileColors := FileColors
     f; FileLuminance := FileLuminance f; FileDiff := FileDiff f; FileChroma
     := FileChroma f; FileWidth := FileWidth f; FileHeight := FileHeight f;
     FileAspectRatio := FileAspectRatio f; FilePortrait := v; CreatedIn :=
     CreatedIn f; UpdatedIn := UpdatedIn f; DeletedAt := DeletedAt f |}.
Definition set_CreatedIn (v : Z) (f : t) : t :=
  {| ID := ID f; FileUUID := FileUUID f; PhotoID := PhotoID f; PhotoUUID :=
     PhotoUUID f; FileName := FileName f; OriginalName := OriginalName f;
     FileHash := FileHash f; FileSize := FileSize f; FileModified :=
     FileModified f; FileType := FileType f; FileMime := FileMime f;
     FileOrientation := FileOrientation f; FilePrimary := FilePrimary f;
     FileSidecar := FileSidecar f; FileVideo := FileVideo f; FileMissing :=
     FileMissing f; FileMainColor := FileMainColor f; FileColors := FileColors
     f; FileLuminance := FileLuminance f; FileDiff := FileDiff f; FileChroma
     := FileChroma f; FileWidth := FileWidth f; FileHeight := FileHeight f;
     FileAspectRatio := FileAspectRatio f; FilePortrait := FilePortrait f;
     CreatedIn := v; UpdatedIn := UpdatedIn f; DeletedAt := DeletedAt f |}.
Definition set_UpdatedIn (v : Z) (f : t) : t :=
  {| ID := ID f; FileUUID := FileUUID f; PhotoID := PhotoID f; PhotoUUID :=
     PhotoUUID f; FileName := FileName f; OriginalName := OriginalName f;
     FileHash := FileHash f; FileSize := FileSize f; FileModified :=
     FileModified f; FileType := FileType f; FileMime := FileMime f;
     FileOrientation := FileOrientation f; FilePrimary := FilePrimary f;
     FileSidecar := FileSidecar f; FileVideo := FileVideo f; FileMissing :=
     FileMissing f; FileMainColor := FileMainColor f; FileColors := FileColors
     f; FileLuminance := FileLuminance f; FileDiff := FileDiff f; FileChroma
     := FileChroma f; FileWidth := FileWidth f; FileHeight := FileHeight f;
     FileAspectRatio := FileAspectRatio f; FilePortrait := FilePortrait f;
     CreatedIn := CreatedIn f; UpdatedIn := v; DeletedAt := DeletedAt f |}.

(** Modelled from the spec: [File.Changed] is missing from the sources; a file
    changed when its size or its modification time differs from the stored
    one. *)
Definition Changed (f : t) (fileSize : Z) (fileModified : time.Time) : bool :=
  negb (bool_decide (FileSize f = fileSize)) ||
  negb (bool_decide (FileModified f = fileModified)).

End File.

End entity.

(** ** Package [event] *)

Module event.

(** A value of an [event.Data] payload. *)
Inductive Value :=
  | VString (s : string)
  | VInt (n : Z)
  | VPhotos (l : list entity.Photo.t)
  | VLabels (l : list entity.Label.t).

Definition Data := list (string * Value).

Record Message := mkMessage { Name : string; Fields : Data }.

(** The event bus: the messages published so far, oldest first. *)
Definition Hub := list Message.

Definition Publish (name : string) (data : Data) (hub : Hub) : Hub :=
  hub ++ [mkMessage name data].

(** Modelled from the spec: [event.EntitiesCreated] is missing from the
    sources; it publishes the entities under the topic "<name>.created". *)
Definition EntitiesCreated (name : string) (entities : Value) (hub : Hub) : Hub :=
  Publish (String.append name ".created") [("entities", entities)] hub.

(** The value stored under a key of a payload. *)
Definition field (key : string) (d : Data) : option Value :=
  snd <$> find (fun kv => bool_decide (fst kv = key)) d.

End event.

(** ** The media file descriptor *)

(** The result of [MediaFile.Colors]: the values the indexer reads from it. *)
Module colors.

Record Perception := mkPerception {
  MainColorName : string;
  ColorsHex : string;
  LuminanceHex : string;
  LuminanceDiff : Z;
  ChromaValue : Z
}.

End colors.

Module MediaFile.

(** A media file, by the results of its accessor methods. A method that can
    fail returns its value together with the error, as in Go. *)
Record t := mk {
  Base : string;
  RelativePath : string -> string;
  RelativeName : string -> string;
  FileName : string;
  Hash : string;
  Stat : Z * time.Time;
  MetaData : meta.Data * option error;
  HasTimeAndPlace : bool;
  DateCreated : time.Time;
  IsSidecar : bool;
  IsJpeg : bool;
  IsXMP : bool;
  IsVideo : bool;
  FileType : string;
  MimeType : string;
  Orientation : Z;
  Width : Z;
  Height : Z;
  AspectRatio : float64;
  Thumbnail : string -> string -> string * option error;
  Colors : string -> colors.Perception * option error;
  CameraModel : string;
  CameraMake : string;
  LensModel : string;
  LensMake : string;
  FocalLength : Z;
  FNumber : float64;
  Iso : Z;
  Exposure : string;
  Location : entity.Location.t * option error
}.

End MediaFile.

(** ** Index options and results *)

(** Modelled from the spec: [IndexOptions] is missing from the sources; the
    nine switches are booleans. The code reads [SkipUnchanged] through a
    method and the others as fields. *)
Record IndexOptions := mkIndexOptions {
  SkipUnchanged : bool;
  UpdateExif : bool;
  UpdateCamera : bool;
  UpdateColors : bool;
  UpdateSize : bool;
  UpdateKeywords : bool;
  UpdateLabels : bool;
  UpdateTitle : bool;
  UpdateLocation : bool
}.

Definition IndexStatus := string.

Definition IndexUpdated : IndexStatus := "updated".
Definition IndexAdded : IndexStatus := "added".
Definition IndexSkipped : IndexStatus := "skipped".
Definition IndexFailed : IndexStatus := "failed".

Module IndexResult.

Record t := mk {
  Status : IndexStatus;
  Error : option error;
  FileID : Z;
  FileUUID : string;
  PhotoID : Z;
  PhotoUUID : string
}.

Definition zero : t :=
  {| Status := ""; Error := None; FileID := 0; FileUUID := ""; PhotoID := 0;
     PhotoUUID := "" |}.

Definition set_Status (v : IndexStatus) (r : t) : t :=
  {| Status := v; Error := Error r; FileID := FileID r; FileUUID := FileUUID r;
     PhotoID := PhotoID r; PhotoUUID := PhotoUUID r |}.
Definition set_Error (v : option error) (r : t) : t :=
  {| Status := Status r; Error := v; FileID := FileID r; FileUUID := FileUUID r;
     PhotoID := PhotoID r; PhotoUUID := PhotoUUID r |}.
Definition set_FileID (v : Z) (r : t) : t :=
  {| Status := Status r; Error := Error r; FileID := v; FileUUID := FileUUID r;
     PhotoID := PhotoID r; PhotoUUID := PhotoUUID r |}.
Definition set_FileUUID (v : string) (r : t) : t :=
  {| Status := Status r; Error := Error r; FileID := FileID r; FileUUID := v;
     PhotoID := PhotoID r; PhotoUUID := PhotoUUID r |}.
Definition set_PhotoID (v : Z) (r : t) : t :=
  {| Status := Status r; Error := Error r; FileID := FileID r;
     FileUUID := FileUUID r; PhotoID := v; PhotoUUID := PhotoUUID r |}.
Definition set_PhotoUUID (v : string) (r : t) : t :=
  {| Status := Status r; Error := Error r; FileID := FileID r;
     FileUUID := FileUUID r; PhotoID := PhotoID r; PhotoUUID := v |}.

Definition String (r : t) : string := Status r.

Definition Success (r : t) : bool :=
  bool_decide (Error r = None) && (0 <? FileID r).

End IndexResult.

(** ** Functions of other packages *)

(** The pure helpers of the packages [txt], [classify], [entity], [slug] and
    [filepath] that the indexer calls and whose sources are not part of the
    indexer. Nothing is assumed about them: every property below holds for
    all of them. [DateDiff] is SQL's [DATEDIFF]; [KeywordIndex] is the content
    of the keyword tables, which only [Photo.IndexKeywords] touches. *)
Class Packages := {
  txt_Title : string -> string;
  txt_Keywords : string -> list string;
  txt_UniqueWords : list string -> list string;
  NonCanonical : string -> bool;
  filepath_Base : string -> string;
  slug_Make : string -> string;
  Labels_Keywords : classify.Labels -> list string;
  Labels_Title : classify.Labels -> string -> string;
  Location_NoCity : entity.Location.t -> bool;
  Location_LongCity : entity.Location.t -> bool;
  Location_CityContains : entity.Location.t -> string -> bool;
  DateDiff : time.Time -> time.Time -> Z;
  KeywordIndex : Type;
  Photo_IndexKeywords : entity.Photo.t -> KeywordIndex -> KeywordIndex
}.

(** ** The catalog *)

Module db.

(** The write operations of the indexer that report an error. *)
Inductive Write :=
  | SavePhoto | CreatePhoto | SaveFile | CreateFile
  | SaveLabel | SavePhotoLabel | AppendCategory.

Section Catalog.
Context `{Packages}.

(** The tables. Rows of [files], [photos], [labels], [cameras] and [lenses]
    are kept in the order of their primary key; [photos_labels] maps the
    primary key (photo id, label id) of an edge to its uncertainty and source;
    the category edges are a set of (label id, category id). *)
Record t := mk {
  files : list entity.File.t;
  photos : list entity.Photo.t;
  labels : list entity.Label.t;
  photos_labels : gmap (Z * Z) (Z * string);
  categories : gset (Z * Z);
  cameras : list entity.Camera.t;
  lenses : list entity.Lens.t;
  countries : gmap string entity.Country.t;
  places : gmap string entity.Place.t;
  files_sync : gmap string Z;
  keywords : KeywordIndex
}.

Definition set_files (v : list entity.File.t) (s : t) : t :=
  {| files := v; photos := photos s; labels := labels s;
     photos_labels := photos_labels s; categories := categories s;
     cameras := cameras s; lenses := lenses s; countries := countries s;
     places := places s; files_sync := files_sync s; keywords := keywords s |}.
Definition set_photos (v : list entity.Photo.t) (s : t) : t :=
  {| files := files s; photos := v; labels := labels s;
     photos_labels := photos_labels s; categories := categories s;
     cameras := cameras s; lenses := lenses s; countries := countries s;
     places := places s; files_sync := files_sync s; keywords := keywords s |}.
Definition set_labels (v : list entity.Label.t) (s : t) : t :=
  {| files := files s; photos := photos s; labels := v;
     photos_labels := photos_labels s; categories := categories s;
     cameras := cameras s; lenses := lenses s; countries := countries s;
     places := places s; files_sync := files_sync s; keywords := keywords s |}.
Definition set_photos_labels (v : gmap (Z * Z) (Z * string)) (s : t) : t :=
  {| files := files s; photos := photos s; labels := labels s;
     photos_labels := v; categories := categories s;
     cameras := cameras s; lenses := lenses s; countries := countries s;
     places := places s; files_sync := files_sync s; keywords := keywords s |}.
Definition set_categories (v : gset (Z * Z)) (s : t) : t :=
  {| files := files s; photos := photos s; labels := labels s;
     photos_labels := photos_labels s; categories := v;
     cameras := cameras s; lenses := lenses s; countries := countries s;
     places := places s; files_sync := files_sync s; keywords := keywords s |}.
Definition set_cameras (v : list entity.Camera.t) (s : t) : t :=
  {| files := files s; photos := photos s; labels := labels s;
     photos_labels := photos_labels s; categories := categories s;
     cameras := v; lenses := lenses s; countries := countries s;
     places := places s; files_sync := files_sync s; keywords := keywords s |}.
Definition set_lenses (v : list entity.Lens.t) (s : t) : t :=
  {| files := files s; photos := photos s; labels := labels s;
     photos_labels := photos_labels s; categories := categories s;
     cameras := cameras s; lenses := v; countries := countries s;
     places := places s; files_sync := files_sync s; keywords := keywords s |}.
Definition set_countries (v : gmap string entity.Country.t) (s : t) : t :=
  {| files := files s; photos := photos s; labels := labels s;
     photos_labels := photos_labels s; categories := categories s;
     cameras := cameras s; lenses := lenses s; countries := v;
     places := places s; files_sync := files_sync s; keywords := keywords s |}.
Definition set_places (v : gmap string entity.Place.t) (s : t) : t :=
  {| files := files s; photos := photos s; labels := labels s;
     photos_labels := photos_labels s; categories := categories s;
     cameras := cameras s; lenses := lenses s; countries := countries s;
     places := v; files_sync := files_sync s; keywords := keywords s |}.
Definition set_files_sync (v : gmap string Z) (s : t) : t :=
  {| files := files s; photos := photos s; labels := labels s;
     photos_labels := photos_labels s; categories := categories s;
     cameras := cameras s; lenses := lenses s; countries := countries s;
     places := places s; files_sync := v; keywords := keywords s |}.
Definition set_keywords (v : KeywordIndex) (s : t) : t :=
  {| files := files s; photos := photos s; labels := labels s;
     photos_labels := photos_labels s; categories := categories s;
     cameras := cameras s; lenses := lenses s; countries := countries s;
     places := places s; files_sync := files_sync s; keywords := v |}.

End Catalog.

(** [First(&row, cond)]: the first row, in primary key order, that satisfies
    the condition; [None] stands for the "record not found" error, which
    leaves the destination struct as it was. *)
Definition First {A : Type} (cond : A -> bool) (rows : list A) : option A :=
  find cond rows.

(** The next value of an auto-increment primary key. *)
Definition next_id (ids : list Z) : Z := 1 + foldr Z.max 0 ids.

(** Modelled from the spec: [Save] is an upsert by primary key. *)
Definition SavePhotoRow (p : entity.Photo.t) (rows : list entity.Photo.t)
  : list entity.Photo.t :=
  if existsb (fun r => entity.Photo.ID r =? entity.Photo.ID p) rows
  then map (fun r => if entity.Photo.ID r =? entity.Photo.ID p then p else r) rows
  else rows ++ [p].

Definition SaveFileRow (f : entity.File.t) (rows : list entity.File.t)
  : list entity.File.t :=
  if existsb (fun r => entity.File.ID r =? entity.File.ID f) rows
  then map (fun r => if entity.File.ID r =? entity.File.ID f then f else r) rows
  else rows ++ [f].

Definition SaveLabelRow (l : entity.Label.t) (rows : list entity.Label.t)
  : list entity.Label.t :=
  if existsb (fun r => entity.Label.ID r =? entity.Label.ID l) rows
  then map (fun r => if entity.Label.ID r =? entity.Label.ID l then l else r) rows
  else rows ++ [l].

(** Modelled from the spec: [Create] inserts the struct under the next free
    id; the [BeforeCreate] hooks of the entities, missing from the sources,
    give a row that has no UUID yet a new one. The struct is updated with
    both. *)
Definition CreatePhotoRow (uuid : string) (p : entity.Photo.t)
    (rows : list entity.Photo.t) : entity.Photo.t * list entity.Photo.t :=
  let p := entity.Photo.set_ID (next_id (map entity.Photo.ID rows)) p in
  let p := if bool_decide (entity.Photo.PhotoUUID p = "")
           then entity.Photo.set_PhotoUUID uuid p else p in
  (p, rows ++ [p]).

Definition CreateFileRow (uuid : string) (f : entity.File.t)
    (rows : list entity.File.t) : entity.File.t * list entity.File.t :=
  let f := entity.File.set_ID (next_id (map entity.File.ID rows)) f in
  let f := if bool_decide (entity.File.FileUUID f = "")
           then entity.File.set_FileUUID uuid f else f in
  (f, rows ++ [f]).

End db.

(** ** The indexer *)

Module Index.

(** The receiver [ind]: the configuration, and the answers of the collaborators
    of the indexer during the call (classifier, NSFW detector, XMP reader,
    geocoder, errors reported by the database, random ids, clock). *)
Record t := mk {
  originalsPath : string;
  thumbnailsPath : string;
  TensorFlowDisabled : bool;
  DetectNSFW : bool;
  GeoCodingApi : string;
  tensorFlow_File : string -> classify.Labels * option error;
  nsfwDetector_File : string -> bool * option error;
  meta_XMP : string -> meta.Data * option error;
  Location_Find : gmap string entity.Place.t -> entity.Location.t -> string ->
                  entity.Location.t * option error;
  db_Error : db.Write -> option error;
  rnd_PhotoUUID : string;
  rnd_FileUUID : string;
  rnd_LabelUUID : string;
  time_Since : Z;
  SetDownloadFileID_Error : option error
}.

Section Methods.
Context `{Packages}.

(** The mutable state: the catalog behind [ind.db] and the event bus. *)
Record State := mkState { catalog : db.t; events : event.Hub }.

Definition with_catalog (f : db.t -> db.t) (st : State) : State :=
  mkState (f (catalog st)) (events st).

Definition publish (name : string) (data : event.Data) (st : State) : State :=
  mkState (catalog st) (event.Publish name data (events st)).

Definition entitiesCreated (name : string) (v : event.Value) (st : State) : State :=
  mkState (catalog st) (event.EntitiesCreated name v (events st)).

(** *** First-or-create of the dimension tables *)

(** Modelled from the spec: [NewCamera(model, make).FirstOrCreate(db)] is
    missing from the sources; cameras are interned by model and make. *)
Definition Camera_FirstOrCreate (model make : string) (s : db.t)
  : entity.Camera.t * db.t :=
  match db.First (fun r => bool_decide (entity.Camera.CameraModel r = model) &&
                           bool_decide (entity.Camera.CameraMake r = make))
                 (db.cameras s) with
  | Some c => (c, s)
  | None =>
      let c := entity.Camera.mk (db.next_id (map entity.Camera.ID (db.cameras s)))
                                model make in
      (c, db.set_cameras (db.cameras s ++ [c]) s)
  end.

(** Modelled from the spec: [NewLens(model, make).FirstOrCreate(db)] is
    missing from the sources; lenses are interned by model and make. *)
Definition Lens_FirstOrCreate (model make : string) (s : db.t)
  : entity.Lens.t * db.t :=
  match db.First (fun r => bool_decide (entity.Lens.LensModel r = model) &&
                           bool_decide (entity.Lens.LensMake r = make))
                 (db.lenses s) with
  | Some l => (l, s)
  | None =>
      let l := entity.Lens.mk (db.next_id (map entity.Lens.ID (db.lenses s)))
                              model make in
      (l, db.set_lenses (db.lenses s ++ [l]) s)
  end.

(** Modelled from the spec: [NewCountry(code, name).FirstOrCreate(db)] is
    missing from the sources; countries are interned by country code. *)
Definition Country_FirstOrCreate (code name : string) (s : db.t)
  : entity.Country.t * db.t :=
  match db.countries s !! code with
  | Some c => (c, s)
  | None =>
      let c := entity.Country.mk code name false in
      (entity.Country.set_New true c,
       db.set_countries (<[code := c]> (db.countries s)) s)
  end.

(** Modelled from the spec: [NewLabel(name, priority).FirstOrCreate(db)] is
    missing from the sources; labels are interned by slug, and a label that
    was just created has [New] set on the struct. *)
Definition Label_FirstOrCreate (ind : t) (name : string) (priority : Z) (s : db.t)
  : entity.Label.t * db.t :=
  match db.First (fun r => bool_decide (entity.Label.LabelSlug r = slug_Make name))
                 (db.labels s) with
  | Some l => (l, s)
  | None =>
      let l := entity.Label.mk (db.next_id (map entity.Label.ID (db.labels s)))
                 (rnd_LabelUUID ind) (slug_Make name) name priority false false in
      (entity.Label.set_New true l, db.set_labels (db.labels s ++ [l]) s)
  end.

(** Modelled from the spec: [NewPhotoLabel(photoId, labelId, uncertainty,
    source).FirstOrCreate(db)] is missing from the sources; the edge is looked
    up by photo id and label id, and created with the given values when there
    is none. *)
Definition PhotoLabel_FirstOrCreate (photoId labelId uncertainty : Z)
    (source : string) (s : db.t) : entity.PhotoLabel.t * db.t :=
  match db.photos_labels s !! (photoId, labelId) with
  | Some (u, src) => (entity.PhotoLabel.mk photoId labelId u src, s)
  | None =>
      (entity.PhotoLabel.mk photoId labelId uncertainty source,
       db.set_photos_labels
         (<[(photoId, labelId) := (uncertainty, source)]> (db.photos_labels s)) s)
  end.

(** [Save(&plm)]: the row of the edge is updated under its primary key. *)
Definition PhotoLabel_Save (plm : entity.PhotoLabel.t) (s : db.t) : db.t :=
  db.set_photos_labels
    (<[(entity.PhotoLabel.PhotoID plm, entity.PhotoLabel.LabelID plm) :=
         (entity.PhotoLabel.LabelUncertainty plm, entity.PhotoLabel.LabelSource plm)]>
       (db.photos_labels s)) s.

(** *** [isNSFW] *)

Definition isNSFW (ind : t) (jpeg : MediaFile.t) : bool :=
  if negb (DetectNSFW ind) then false
  else
    let '(filename, err) := MediaFile.Thumbnail jpeg (thumbnailsPath ind) "fit_720" in
    match err with
    | Some _ => false
    | None =>
        let '(nsfw, err) := nsfwDetector_File ind filename in
        match err with
        | Some _ => false
        | None => if nsfw then true else false
        end
    end.

(** *** [classifyImage] *)

(** The thumbnails that are classified. *)
Definition thumbs (jpeg : MediaFile.t) : list string :=
  if bool_decide (MediaFile.AspectRatio jpeg = float_one) then ["tile_224"]
  else ["tile_224"; "left_224"; "right_224"].

(** The first loop: the labels of all thumbnails that could be rendered and
    classified, concatenated. *)
Definition imageLabels (ind : t) (jpeg : MediaFile.t) : classify.Labels :=
  fold_left
    (fun labels thumb =>
       let '(filename, err) := MediaFile.Thumbnail jpeg (thumbnailsPath ind) thumb in
       match err with
       | Some _ => labels
       | None =>
           let '(imageLabels, err) := tensorFlow_File ind filename in
           match err with
           | Some _ => labels
           | None => labels ++ imageLabels
           end
       end)
    (thumbs jpeg) [].

(** The confidence [100 - label.Uncertainty] of a label. *)
Definition confidence_of (label : classify.Label) : Z :=
  int_sub 100 (classify.Uncertainty label).

(** The second loop, with the loop variable [confidence]; the labels that are
    appended to [results], in order. *)
Fixpoint retain (confidence : Z) (labels : classify.Labels) : classify.Labels :=
  match labels with
  | [] => []
  | label :: labels' =>
      let confidence :=
        if confidence =? 0 then confidence_of label else confidence in
      if int_div confidence 3 <? confidence_of label
      then label :: retain confidence labels'
      else retain confidence labels'
  end.

Definition classifyImage (ind : t) (jpeg : MediaFile.t) : classify.Labels :=
  retain 0 (classify.Sort (imageLabels ind jpeg)).

(** *** [addLabels] *)

(** The loop over [label.Categories]. *)
Definition addCategories (ind : t) (lm : entity.Label.t) (cats : list string)
    (s : db.t) : db.t :=
  fold_left
    (fun s category =>
       let '(sn, s) := Label_FirstOrCreate ind (txt_Title category) (-3) s in
       match db_Error ind db.AppendCategory with
       | Some _ => s
       | None =>
           db.set_categories
             ({[ (entity.Label.ID lm, entity.Label.ID sn) ]} ∪ db.categories s) s
       end)
    cats s.

(** Lines 495-513: the label is interned, announced when it is new, and its
    priority is updated. *)
Definition internLabel (ind : t) (label : classify.Label) (st : State)
  : entity.Label.t * State :=
  let '(lm, s) :=
    Label_FirstOrCreate ind (txt_Title (classify.Name label))
                        (classify.Priority label) (catalog st) in
  let st := mkState s (events st) in
  let st :=
    if entity.Label.New lm then
      let st := entitiesCreated "labels" (event.VLabels [lm]) st in
      if 0 <=? classify.Priority label
      then publish "count.labels" [("count", event.VInt 1)] st
      else st
    else st in
  if negb (entity.Label.LabelPriority lm =? classify.Priority label) then
    let lm := entity.Label.set_LabelPriority (classify.Priority label) lm in
    match db_Error ind db.SaveLabel with
    | Some _ => (lm, st)
    | None =>
        (lm, with_catalog (fun s => db.set_labels (db.SaveLabelRow lm (db.labels s)) s) st)
    end
  else (lm, st).

(** Lines 515-531: the edge between the photo and the label, and the
    categories of the label. *)
Definition linkLabel (ind : t) (photoId : Z) (label : classify.Label)
    (lm : entity.Label.t) (s : db.t) : db.t :=
  let '(plm, s) :=
    PhotoLabel_FirstOrCreate photoId (entity.Label.ID lm)
      (classify.Uncertainty label) (classify.Source label) s in
  let s := addCategories ind lm (classify.Categories label) s in
  if classify.Uncertainty label <? entity.PhotoLabel.LabelUncertainty plm then
    let plm := entity.PhotoLabel.set_LabelUncertainty (classify.Uncertainty label) plm in
    let plm := entity.PhotoLabel.set_LabelSource (classify.Source label) plm in
    match db_Error ind db.SavePhotoLabel with
    | Some _ => s
    | None => PhotoLabel_Save plm s
    end
  else s.

(** One iteration of the loop of [addLabels]. *)
Definition addLabel (ind : t) (photoId : Z) (label : classify.Label) (st : State)
  : State :=
  let '(lm, st) := internLabel ind label st in
  mkState (linkLabel ind photoId label lm (catalog st)) (events st).

Definition addLabels (ind : t) (photoId : Z) (labels : classify.Labels) (st : State)
  : State :=
  fold_left (fun st label => addLabel ind photoId label st) labels st.

(** *** [indexLocation] *)

(** Modelled from the spec: [Location.Find] is missing from the sources; the
    resolved location is the geocoder's answer, and a place that is new is
    persisted. *)
Definition persistPlace (location : entity.Location.t) (s : db.t) : db.t :=
  let place := entity.Location.Place location in
  if entity.Place.New place
  then db.set_places (<[entity.Place.ID place := entity.Place.set_New false place]>
                        (db.places s)) s
  else s.

(** The title that [indexLocation] derives from the location and the labels;
    [None] when no rule applies and the title is left as it is. *)
Definition locationTitle (location : entity.Location.t) (labels : classify.Labels)
    (photo : entity.Photo.t) : option string :=
  let year := time.Format2006 (entity.Photo.TakenAt photo) in
  let Name := entity.Location.LocName location in
  let City := entity.Location.LocCity location in
  let CountryName := entity.Location.LocCountryName location in
  let title := Labels_Title labels Name in
  if negb (bool_decide (title = "")) then
    if Location_NoCity location || Location_LongCity location
       || Location_CityContains location title
    then Some (sprintf3 (txt_Title title) CountryName year)
    else Some (sprintf3 (txt_Title title) City year)
  else if negb (bool_decide (Name = "")) && negb (bool_decide (City = "")) then
    if 45 <? len Name then Some (txt_Title Name)
    else if (20 <? len Name) || (16 <? len City) || strings_Contains Name City
    then Some (sprintf2 Name year)
    else Some (sprintf3 Name City year)
  else if negb (bool_decide (City = "")) && negb (bool_decide (CountryName = "")) then
    if 20 <? len City then Some (sprintf2 City year)
    else Some (sprintf3 City CountryName year)
  else None.

Definition indexLocation (ind : t) (mediaFile : MediaFile.t) (photo : entity.Photo.t)
    (labels : classify.Labels) (fileChanged : bool) (o : IndexOptions) (st : State)
  : list string * classify.Labels * entity.Photo.t * State :=
  let '(location, err) := MediaFile.Location mediaFile in
  let '(location, err) :=
    match err with
    | None => Location_Find ind (db.places (catalog st)) location (GeoCodingApi ind)
    | Some e => (location, Some e)
    end in
  match err with
  | None =>
      let st := with_catalog (persistPlace location) st in
      let st :=
        if entity.Place.New (entity.Location.Place location)
        then publish "count.places" [("count", event.VInt 1)] st else st in
      let photo := entity.Photo.set_Location (Some location) photo in
      let photo := entity.Photo.set_LocationID (entity.Location.ID location) photo in
      let photo := entity.Photo.set_Place (Some (entity.Location.Place location)) photo in
      let photo := entity.Photo.set_PlaceID (entity.Location.PlaceID location) photo in
      let photo := entity.Photo.set_LocationEstimated false photo in
      let '(country, s) :=
        Country_FirstOrCreate (entity.Location.LocCountryCode location)
                              (entity.Location.LocCountryName location) (catalog st) in
      let st := mkState s (events st) in
      let st :=
        if entity.Country.New country
        then publish "count.countries" [("count", event.VInt 1)] st else st in
      let locCategory := entity.Location.LocCategory location in
      let keywords := entity.Location.LocKeywords location in
      let labels :=
        if negb (bool_decide (locCategory = ""))
        then labels ++ [classify.LocationLabel locCategory 0 (-1)] else labels in
      let photo :=
        if (fileChanged || UpdateTitle o) && negb (entity.Photo.ModifiedTitle photo) then
          match locationTitle location labels photo with
          | Some title => entity.Photo.set_PhotoTitle title photo
          | None => photo
          end
        else photo in
      let photo :=
        entity.Photo.set_PhotoCountry
          (entity.Place.LocCountry (entity.Location.Place location)) photo in
      (keywords, labels, photo, st)
  | Some _ =>
      let photo := entity.Photo.set_Place (Some entity.Place.UnknownPlace) photo in
      let photo := entity.Photo.set_PlaceID (entity.Place.ID entity.Place.UnknownPlace) photo in
      let photo :=
        entity.Photo.set_PhotoCountry (entity.Place.LocCountry entity.Place.UnknownPlace)
                                      photo in
      ([], labels, photo, st)
  end.

(** *** [estimateLocation] *)

(** The photo whose [taken_at] is closest in days to [takenAt]: the first row
    of the query ordered by [ABS(DATEDIFF(taken_at, ?))]. *)
Fixpoint nearest (takenAt : time.Time) (rows : list entity.Photo.t)
  : option entity.Photo.t :=
  match rows with
  | [] => None
  | r :: rows' =>
      match nearest takenAt rows' with
      | None => Some r
      | Some r' =>
          if Z.abs (DateDiff (entity.Photo.TakenAt r) takenAt)
               <=? Z.abs (DateDiff (entity.Photo.TakenAt r') takenAt)
          then Some r else Some r'
      end
  end.

Definition estimateLocation (s : db.t) (photo : entity.Photo.t) : entity.Photo.t :=
  match nearest (entity.Photo.TakenAt photo) (db.photos s) with
  | Some recentPhoto =>
      if entity.Photo.HasPlace recentPhoto then
        match entity.Photo.Place recentPhoto with
        | Some place =>
            let photo := entity.Photo.set_Place (Some place) photo in
            let photo := entity.Photo.set_PhotoCountry (entity.Place.LocCountry place) photo in
            entity.Photo.set_LocationEstimated true photo
        | None => photo
        end
      else photo
  | None => photo
  end.

(** *** [MediaFile]: identification (lines 80-106) *)

(** The local variables that the lookup of the file and of its photo sets.
    [q_fileExists] is also [fileQuery.Error == nil] for the last file query. *)
Record Lookup := mkLookup {
  q_file : entity.File.t;
  q_fileHash : string;
  q_fileExists : bool;
  q_photo : entity.Photo.t;
  q_photoExists : bool;
  q_fileChanged : bool
}.

(** The file row, by name, else (unless the file is a sidecar) by hash. *)
Definition lookupFile (ind : t) (m : MediaFile.t) (s : db.t)
  : entity.File.t * string * bool :=
  let fileName := MediaFile.RelativeName m (originalsPath ind) in
  match db.First (fun r => bool_decide (entity.File.FileName r = fileName))
                 (db.files s) with
  | Some file => (file, "", true)
  | None =>
      if negb (MediaFile.IsSidecar m) then
        let fileHash := MediaFile.Hash m in
        match db.First (fun r => bool_decide (entity.File.FileHash r = fileHash))
                       (db.files s) with
        | Some file => (file, fileHash, true)
        | None => (entity.File.zero, fileHash, false)
        end
      else (entity.File.zero, "", false)
  end.

(** The photo of a file that has no row yet: by path and name, else (when the
    file has time and place) by coordinates and time. *)
Definition lookupPhoto (ind : t) (m : MediaFile.t) (s : db.t)
  : option entity.Photo.t :=
  let fileBase := MediaFile.Base m in
  let filePath := MediaFile.RelativePath m (originalsPath ind) in
  match db.First (fun r => bool_decide (entity.Photo.PhotoPath r = filePath) &&
                           bool_decide (entity.Photo.PhotoName r = fileBase))
                 (db.photos s) with
  | Some photo => Some photo
  | None =>
      if MediaFile.HasTimeAndPlace m then
        let metaData := fst (MediaFile.MetaData m) in
        db.First (fun r => bool_decide (entity.Photo.PhotoLat r = meta.Lat metaData) &&
                           bool_decide (entity.Photo.PhotoLng r = meta.Lng metaData) &&
                           bool_decide (entity.Photo.TakenAt r = meta.TakenAt metaData))
                 (db.photos s)
      else None
  end.

Definition lookup (ind : t) (m : MediaFile.t) (s : db.t) : Lookup :=
  let '(fileSize, fileModified) := MediaFile.Stat m in
  let '(file, fileHash, fileExists) := lookupFile ind m s in
  let photoQuery :=
    if negb fileExists then lookupPhoto ind m s
    else db.First (fun r => entity.Photo.ID r =? entity.File.PhotoID file) (db.photos s) in
  let fileChanged :=
    if negb fileExists then true else entity.File.Changed file fileSize fileModified in
  match photoQuery with
  | Some photo => mkLookup file fileHash fileExists photo true fileChanged
  | None => mkLookup file fileHash fileExists entity.Photo.zero false fileChanged
  end.

(** *** [MediaFile]: election of the primary file (lines 124-132) *)

Definition electPrimary (m : MediaFile.t) (s : db.t) (photo : entity.Photo.t)
    (photoExists : bool) (file : entity.File.t) : entity.File.t :=
  if negb (entity.File.FilePrimary file) then
    if photoExists then
      match db.First (fun r => bool_decide (entity.File.FileType r = "jpg") &&
                               entity.File.FilePrimary r &&
                               (entity.File.PhotoID r =? entity.Photo.ID photo) &&
                               bool_decide (entity.File.DeletedAt r = None))
                     (db.files s) with
      | Some _ => file
      | None => entity.File.set_FilePrimary (MediaFile.IsJpeg m) file
      end
    else entity.File.set_FilePrimary (MediaFile.IsJpeg m) file
  else file.

(** *** [MediaFile]: the primary file (lines 134-241) *)

(** Lines 162-184: the fields of the description that are still empty. *)
Definition mergeDescription (metaData : meta.Data) (d : entity.Description.t)
  : entity.Description.t :=
  let d := if entity.Description.NoDescription d
           then entity.Description.set_PhotoDescription (meta.Description metaData) d
           else d in
  let d := if entity.Description.NoNotes d
           then entity.Description.set_PhotoNotes (meta.Comment metaData) d else d in
  let d := if entity.Description.NoSubject d
           then entity.Description.set_PhotoSubject (meta.Subject metaData) d else d in
  let d := if entity.Description.NoKeywords d
           then entity.Description.set_PhotoKeywords (meta.Keywords metaData) d else d in
  let d := if entity.Description.NoArtist d && negb (bool_decide (meta.Artist metaData = ""))
           then entity.Description.set_PhotoArtist (meta.Artist metaData) d else d in
  let d := if entity.Description.NoArtist d
              && negb (bool_decide (meta.CameraOwner metaData = ""))
           then entity.Description.set_PhotoArtist (meta.CameraOwner metaData) d else d in
  d.

(** Lines 146-150. *)
Definition mergeLocation (metaData : meta.Data) (photo : entity.Photo.t)
  : entity.Photo.t :=
  if negb (entity.Photo.ModifiedLocation photo) then
    let photo := entity.Photo.set_PhotoLat (meta.Lat metaData) photo in
    let photo := entity.Photo.set_PhotoLng (meta.Lng metaData) photo in
    entity.Photo.set_PhotoAltitude (meta.Altitude metaData) photo
  else photo.

(** Lines 152-156. *)
Definition mergeDate (metaData : meta.Data) (photo : entity.Photo.t)
  : entity.Photo.t :=
  if negb (entity.Photo.ModifiedDate photo) then
    let photo := entity.Photo.set_TakenAt (meta.TakenAt metaData) photo in
    let photo := entity.Photo.set_TakenAtLocal (meta.TakenAtLocal metaData) photo in
    entity.Photo.set_TimeZone (meta.TimeZone metaData) photo
  else photo.

(** Lines 158-160. *)
Definition mergeTitle (metaData : meta.Data) (photo : entity.Photo.t)
  : entity.Photo.t :=
  if entity.Photo.NoTitle photo
  then entity.Photo.set_PhotoTitle (meta.Title metaData) photo else photo.

(** Lines 186-188. *)
Definition mergeCameraSerial (metaData : meta.Data) (photo : entity.Photo.t)
  : entity.Photo.t :=
  if entity.Photo.NoCameraSerial photo
  then entity.Photo.set_CameraSerial (meta.CameraSerial metaData) photo else photo.

(** Lines 146-188: the metadata that is merged into the photo. *)
Definition mergeMetaData (metaData : meta.Data) (photo : entity.Photo.t)
  : entity.Photo.t :=
  let photo := mergeLocation metaData photo in
  let photo := mergeDate metaData photo in
  let photo := mergeTitle metaData photo in
  let photo :=
    entity.Photo.set_Description
      (mergeDescription metaData (entity.Photo.Description photo)) photo in
  mergeCameraSerial metaData photo.

(** Lines 190-194. *)
Definition adoptUniqueID (metaData : meta.Data) (file : entity.File.t)
  : entity.File.t :=
  if 15 <? len (meta.UniqueID metaData)
  then entity.File.set_FileUUID (meta.UniqueID metaData) file else file.

(** Lines 198-206. *)
Definition updateCamera (m : MediaFile.t) (photo : entity.Photo.t) (s : db.t)
  : entity.Photo.t * db.t :=
  let '(camera, s) :=
    Camera_FirstOrCreate (MediaFile.CameraModel m) (MediaFile.CameraMake m) s in
  let photo := entity.Photo.set_Camera (Some camera) photo in
  let '(lens, s) :=
    Lens_FirstOrCreate (MediaFile.LensModel m) (MediaFile.LensMake m) s in
  let photo := entity.Photo.set_Lens (Some lens) photo in
  let photo := entity.Photo.set_PhotoFocalLength (MediaFile.FocalLength m) photo in
  let photo := entity.Photo.set_PhotoFNumber (MediaFile.FNumber m) photo in
  let photo := entity.Photo.set_PhotoIso (MediaFile.Iso m) photo in
  let photo := entity.Photo.set_PhotoExposure (MediaFile.Exposure m) photo in
  (photo, s).

(** Lines 217-233: the title made from the local time of day. *)
Definition daytimeTitle (photo : entity.Photo.t) : string :=
  if negb (time.IsZero (entity.Photo.TakenAtLocal photo)) then
    let hour := time.Hour (entity.Photo.TakenAtLocal photo) in
    let daytimeString :=
      if hour <? 17 then "Unknown" else if hour <? 20 then "Sunset" else "Unknown" in
    sprintf2 daytimeString (time.Format2006 (entity.Photo.TakenAtLocal photo))
  else "Unknown".

(** Lines 215-233: the title made from the first label, else from the time of
    day. *)
Definition defaultTitle (m : MediaFile.t) (labels : classify.Labels)
    (photo : entity.Photo.t) : string :=
  match labels with
  | label :: _ =>
      if (-1 <=? classify.Priority label) && (classify.Uncertainty label <=? 85)
         && negb (bool_decide (classify.Name label = ""))
      then sprintf2 (txt_Title (classify.Name label))
                    (time.Format2006 (MediaFile.DateCreated m))
      else daytimeTitle photo
  | [] => daytimeTitle photo
  end.

(** Lines 214-236. *)
Definition synthTitle (m : MediaFile.t) (fileChanged : bool) (o : IndexOptions)
    (labels : classify.Labels) (photo : entity.Photo.t) : entity.Photo.t :=
  if entity.Photo.NoTitle photo
     || ((fileChanged || UpdateTitle o) && negb (entity.Photo.ModifiedTitle photo)
         && entity.Photo.NoLocation photo)
  then entity.Photo.set_PhotoTitle (defaultTitle m labels photo) photo
  else photo.

(** Lines 238-241. *)
Definition defaultTakenAt (m : MediaFile.t) (photo : entity.Photo.t)
  : entity.Photo.t :=
  if time.IsZero (entity.Photo.TakenAt photo)
     || time.IsZero (entity.Photo.TakenAtLocal photo)
  then
    let photo := entity.Photo.set_TakenAt (MediaFile.DateCreated m) photo in
    entity.Photo.set_TakenAtLocal (entity.Photo.TakenAt photo) photo
  else photo.

(** The local variables at the end of the analysis of the file. *)
Record Analysis := mkAnalysis {
  a_photo : entity.Photo.t;
  a_file : entity.File.t;
  a_labels : classify.Labels;
  a_locKeywords : list string;
  a_state : State
}.

(** Lines 137-141: classification and NSFW detection. *)
Definition classifyPrimary (ind : t) (m : MediaFile.t) (o : IndexOptions)
    (fileChanged : bool) (photo : entity.Photo.t) : classify.Labels * entity.Photo.t :=
  if negb (TensorFlowDisabled ind)
     && (fileChanged || UpdateKeywords o || UpdateLabels o || UpdateTitle o)
  then (classifyImage ind m, entity.Photo.set_PhotoNSFW (isNSFW ind m) photo)
  else ([], photo).

(** Lines 143-196: the metadata of the file. *)
Definition readMetaData (m : MediaFile.t) (o : IndexOptions) (fileChanged : bool)
    (photo : entity.Photo.t) (file : entity.File.t) : entity.Photo.t * entity.File.t :=
  if fileChanged || UpdateExif o then
    match MediaFile.MetaData m with
    | (metaData, None) => (mergeMetaData metaData photo, adoptUniqueID metaData file)
    | (_, Some _) => (photo, file)
    end
  else (photo, file).

(** Lines 198-206: camera and lens. *)
Definition readCamera (m : MediaFile.t) (o : IndexOptions) (fileChanged : bool)
    (photo : entity.Photo.t) (st : State) : entity.Photo.t * State :=
  if negb (entity.Photo.ModifiedCamera photo) && (fileChanged || UpdateCamera o) then
    let '(photo, s) := updateCamera m photo (catalog st) in
    (photo, mkState s (events st))
  else (photo, st).

(** Lines 208-212: the location, its keywords and labels. *)
Definition readLocation (ind : t) (m : MediaFile.t) (o : IndexOptions)
    (fileChanged : bool) (labels : classify.Labels) (photo : entity.Photo.t)
    (st : State) : list string * classify.Labels * entity.Photo.t * State :=
  if fileChanged || UpdateKeywords o || UpdateLocation o || UpdateTitle o then
    let '(locKeywords, locLabels, photo, st) :=
      indexLocation ind m photo labels fileChanged o st in
    (locKeywords, labels ++ locLabels, photo, st)
  else ([], labels, photo, st).

(** Lines 134-241: the analyses of a primary file. *)
Definition indexPrimary (ind : t) (m : MediaFile.t) (o : IndexOptions)
    (fileChanged : bool) (photo : entity.Photo.t) (file : entity.File.t) (st : State)
  : Analysis :=
  let '(labels, photo) := classifyPrimary ind m o fileChanged photo in
  let '(photo, file) := readMetaData m o fileChanged photo file in
  let '(photo, st) := readCamera m o fileChanged photo st in
  let '(locKeywords, labels, photo, st) :=
    readLocation ind m o fileChanged labels photo st in
  let photo := synthTitle m fileChanged o labels photo in
  let photo := defaultTakenAt m photo in
  mkAnalysis photo file labels locKeywords st.

(** *** [MediaFile]: an XMP sidecar (lines 242-265) *)

(** Lines 249-263. *)
Definition mergeXMPDescription (data : meta.Data) (d : entity.Description.t)
  : entity.Description.t :=
  let d := if entity.Description.NoCopyright d
              && negb (bool_decide (meta.Copyright data = ""))
           then entity.Description.set_PhotoCopyright (meta.Copyright data) d else d in
  let d := if entity.Description.NoArtist d && negb (bool_decide (meta.Artist data = ""))
           then entity.Description.set_PhotoArtist (meta.Artist data) d else d in
  let d := if entity.Description.NoDescription d
              && negb (bool_decide (meta.Description data = ""))
           then entity.Description.set_PhotoDescription (meta.Description data) d
           else d in
  let d := if entity.Description.NoNotes d && negb (bool_decide (meta.Comment data = ""))
           then entity.Description.set_PhotoNotes (meta.Comment data) d else d in
  d.

Definition indexXMP (ind : t) (m : MediaFile.t) (photo : entity.Photo.t)
  : entity.Photo.t :=
  match meta_XMP ind (MediaFile.FileName m) with
  | (data, None) =>
      let photo :=
        if negb (bool_decide (meta.Title data = ""))
           && negb (entity.Photo.ModifiedTitle photo)
        then entity.Photo.set_PhotoTitle (meta.Title data) photo else photo in
      entity.Photo.set_Description
        (mergeXMPDescription data (entity.Photo.Description photo)) photo
  | (_, Some _) => photo
  end.

(** Lines 267-268. *)
Definition yearMonth (photo : entity.Photo.t) : entity.Photo.t :=
  let photo := entity.Photo.set_PhotoYear (time.Year (entity.Photo.TakenAt photo)) photo in
  entity.Photo.set_PhotoMonth (time.Month (entity.Photo.TakenAt photo)) photo.

(** *** [MediaFile]: the file row (lines 270-305) *)

(** Lines 270-283. *)
Definition fileFields (m : MediaFile.t) (originalName fileName fileHash : string)
    (file : entity.File.t) : entity.File.t :=
  let '(fileSize, fileModified) := MediaFile.Stat m in
  let file :=
    if negb (bool_decide (originalName = ""))
    then entity.File.set_OriginalName originalName file else file in
  let file := entity.File.set_FileSidecar (MediaFile.IsSidecar m) file in
  let file := entity.File.set_FileVideo (MediaFile.IsVideo m) file in
  let file := entity.File.set_FileMissing false file in
  let file := entity.File.set_FileName fileName file in
  let file := entity.File.set_FileHash fileHash file in
  let file := entity.File.set_FileSize fileSize file in
  let file := entity.File.set_FileModified fileModified file in
  let file := entity.File.set_FileType (MediaFile.FileType m) file in
  let file := entity.File.set_FileMime (MediaFile.MimeType m) file in
  entity.File.set_FileOrientation (MediaFile.Orientation m) file.

(** Lines 285-296. *)
Definition fileColors (ind : t) (m : MediaFile.t) (o : IndexOptions) (fileChanged : bool)
    (file : entity.File.t) : entity.File.t :=
  if MediaFile.IsJpeg m && (fileChanged || UpdateColors o) then
    match MediaFile.Colors m (thumbnailsPath ind) with
    | (_, Some _) => file
    | (p, None) =>
        let file := entity.File.set_FileMainColor (colors.MainColorName p) file in
        let file := entity.File.set_FileColors (colors.ColorsHex p) file in
        let file := entity.File.set_FileLuminance (colors.LuminanceHex p) file in
        let file := entity.File.set_FileDiff (colors.LuminanceDiff p) file in
        entity.File.set_FileChroma (colors.ChromaValue p) file
    end
  else file.

(** Lines 298-305. *)
Definition fileDimensions (m : MediaFile.t) (o : IndexOptions) (fileChanged : bool)
    (file : entity.File.t) : entity.File.t :=
  if MediaFile.IsJpeg m && (fileChanged || UpdateSize o) then
    if (0 <? MediaFile.Width m) && (0 <? MediaFile.Height m) then
      let file := entity.File.set_FileWidth (MediaFile.Width m) file in
      let file := entity.File.set_FileHeight (MediaFile.Height m) file in
      let file := entity.File.set_FileAspectRatio (MediaFile.AspectRatio m) file in
      entity.File.set_FilePortrait (MediaFile.Width m <? MediaFile.Height m) file
    else file
  else file.

(** *** [MediaFile]: the keywords of the photo (lines 307-327) *)

Definition photoKeywords (m : MediaFile.t) (o : IndexOptions) (fileChanged : bool)
    (filePath fileBase : string) (file : entity.File.t) (labels : classify.Labels)
    (locKeywords : list string) (photo : entity.Photo.t) : entity.Photo.t :=
  if entity.File.FilePrimary file && (fileChanged || UpdateKeywords o) then
    let w := txt_Keywords (entity.Description.PhotoKeywords (entity.Photo.Description photo)) in
    let w := if NonCanonical fileBase
             then (w ++ txt_Keywords filePath) ++ txt_Keywords fileBase else w in
    let w := w ++ locKeywords in
    let w := w ++ txt_Keywords (entity.File.OriginalName file) in
    let w := w ++ [entity.File.FileMainColor file] in
    let w := w ++ Labels_Keywords labels in
    entity.Photo.set_Description
      (entity.Description.set_PhotoKeywords
         (strings_Join (txt_UniqueWords w) ", ") (entity.Photo.Description photo))
      photo
  else photo.

(** *** [MediaFile]: lines 113-327, everything before the catalog is written *)

(** The read of the description at lines 113-115 goes to a local variable that
    is not used again, and [primaryFile] is only assigned. *)
Definition analyse (ind : t) (m : MediaFile.t) (o : IndexOptions) (originalName : string)
    (q : Lookup) (st : State) : Analysis :=
  let fileBase := MediaFile.Base m in
  let filePath := MediaFile.RelativePath m (originalsPath ind) in
  let fileName := MediaFile.RelativeName m (originalsPath ind) in
  let fileChanged := q_fileChanged q in
  let fileHash :=
    if bool_decide (q_fileHash q = "") then MediaFile.Hash m else q_fileHash q in
  let photo := entity.Photo.set_PhotoPath filePath (q_photo q) in
  let photo := entity.Photo.set_PhotoName fileBase photo in
  let file := electPrimary m (catalog st) photo (q_photoExists q) (q_file q) in
  let a :=
    if entity.File.FilePrimary file then indexPrimary ind m o fileChanged photo file st
    else if MediaFile.IsXMP m then mkAnalysis (indexXMP ind m photo) file [] [] st
    else mkAnalysis photo file [] [] st in
  let photo := yearMonth (a_photo a) in
  let file := fileFields m originalName fileName fileHash (a_file a) in
  let file := fileColors ind m o fileChanged file in
  let file := fileDimensions m o fileChanged file in
  let photo :=
    photoKeywords m o fileChanged filePath fileBase file (a_labels a) (a_locKeywords a)
                  photo in
  mkAnalysis photo file (a_labels a) (a_locKeywords a) (a_state a).

(** *** [MediaFile]: persistence (lines 329-410) *)

(** [result.Status = IndexFailed; result.Error = err]. *)
Definition failed (err : error) (result : IndexResult.t) : IndexResult.t :=
  IndexResult.set_Error (Some err) (IndexResult.set_Status IndexFailed result).

(** Lines 329-356: the photo is saved, or created. The error, if any, comes
    with the struct and the state as they are then. *)
Definition persistPhoto (ind : t) (o : IndexOptions) (photoExists : bool)
    (photo : entity.Photo.t) (st : State) : option error * entity.Photo.t * State :=
  if photoExists then
    let photo :=
      if UpdateLocation o && entity.Photo.NoLocation photo
      then estimateLocation (catalog st) photo else photo in
    match db_Error ind db.SavePhoto with
    | Some err => (Some err, photo, st)
    | None =>
        (None, photo,
         with_catalog (fun s => db.set_photos (db.SavePhotoRow photo (db.photos s)) s) st)
    end
  else
    let photo := entity.Photo.set_PhotoFavorite false photo in
    match db_Error ind db.CreatePhoto with
    | Some err => (Some err, photo, st)
    | None =>
        let '(photo, rows) :=
          db.CreatePhotoRow (rnd_PhotoUUID ind) photo (db.photos (catalog st)) in
        let st := with_catalog (db.set_photos rows) st in
        let st := publish "count.photos" [("count", event.VInt 1)] st in
        let st := entitiesCreated "photos" (event.VPhotos [photo]) st in
        (None, photo, st)
    end.

(** Lines 375-395: the file is saved, or created. *)
Definition persistFile (ind : t) (fileExists : bool) (file : entity.File.t)
    (result : IndexResult.t) (st : State)
  : option error * entity.File.t * IndexResult.t * State :=
  if fileExists then
    let file := entity.File.set_UpdatedIn (time_Since ind) file in
    match db_Error ind db.SaveFile with
    | Some err => (Some err, file, result, st)
    | None =>
        (None, file, result,
         with_catalog (fun s => db.set_files (db.SaveFileRow file (db.files s)) s) st)
    end
  else
    let file := entity.File.set_CreatedIn (time_Since ind) file in
    match db_Error ind db.CreateFile with
    | Some err => (Some err, file, result, st)
    | None =>
        let '(file, rows) :=
          db.CreateFileRow (rnd_FileUUID ind) file (db.files (catalog st)) in
        (None, file, IndexResult.set_Status IndexAdded result,
         with_catalog (db.set_files rows) st)
    end.

(** Modelled from the spec: [Query.SetDownloadFileID] is missing from the
    sources; the download tracker associates the name with the file id, and its
    error is only logged. *)
Definition SetDownloadFileID (ind : t) (filename : string) (fileID : Z) (s : db.t)
  : db.t :=
  match SetDownloadFileID_Error ind with
  | Some _ => s
  | None => db.set_files_sync (<[filename := fileID]> (db.files_sync s)) s
  end.

Definition persist (ind : t) (m : MediaFile.t) (o : IndexOptions) (originalName : string)
    (q : Lookup) (a : Analysis) : IndexResult.t * State :=
  let result := IndexResult.zero in
  let fileName := MediaFile.RelativeName m (originalsPath ind) in
  let fileChanged := q_fileChanged q in
  let labels := a_labels a in
  let '(err, photo, st) := persistPhoto ind o (q_photoExists q) (a_photo a) (a_state a) in
  match err with
  | Some err => (failed err result, st)
  | None =>
      let st :=
        match labels with
        | [] => st
        | _ :: _ => addLabels ind (entity.Photo.ID photo) labels st
        end in
      let file := entity.File.set_PhotoID (entity.Photo.ID photo) (a_file a) in
      let result := IndexResult.set_PhotoID (entity.Photo.ID photo) result in
      let file := entity.File.set_PhotoUUID (entity.Photo.PhotoUUID photo) file in
      let result := IndexResult.set_PhotoUUID (entity.Photo.PhotoUUID photo) result in
      let st :=
        if entity.File.FilePrimary file && (fileChanged || UpdateKeywords o)
        then with_catalog
               (fun s => db.set_keywords (Photo_IndexKeywords photo (db.keywords s)) s) st
        else st in
      let result := IndexResult.set_Status IndexUpdated result in
      let '(err, file, result, st) := persistFile ind (q_fileExists q) file result st in
      match err with
      | Some err => (failed err result, st)
      | None =>
          let result := IndexResult.set_FileID (entity.File.ID file) result in
          let result := IndexResult.set_FileUUID (entity.File.FileUUID file) result in
          let downloadedAs :=
            if negb (bool_decide (originalName = "")) then originalName else fileName in
          (result,
           with_catalog (SetDownloadFileID ind downloadedAs (entity.File.ID file)) st)
      end
  end.

(** *** [MediaFile] *)

(** [m] is a pointer: [None] is [nil]. *)
Definition MediaFile (ind : t) (m : option MediaFile.t) (o : IndexOptions)
    (originalName : string) (st : State) : IndexResult.t * State :=
  match m with
  | None =>
      (failed "index: media file is nil - you might have found a bug" IndexResult.zero,
       st)
  | Some m =>
      let fileName := MediaFile.RelativeName m (originalsPath ind) in
      let fileHash := "" in
      let '(fileSize, _) := MediaFile.Stat m in
      let st :=
        publish "index.indexing"
          [("fileHash", event.VString fileHash);
           ("fileSize", event.VInt fileSize);
           ("fileName", event.VString fileName);
           ("baseName", event.VString (filepath_Base fileName))] st in
      let q := lookup ind m (catalog st) in
      if negb (q_fileChanged q) && q_photoExists q && SkipUnchanged o
      then (IndexResult.set_Status IndexSkipped IndexResult.zero, st)
      else persist ind m o originalName q (analyse ind m o originalName q st)
  end.

End Methods.
End Index.

(** * The properties of the indexer *)

(** ** The words of the specification *)

Module Spec.

(** The labels that the specification says [classifyImage] retains from the
    sorted list: those whose confidence is above a third of the confidence of
    the first label. *)
Definition retained (sorted : classify.Labels) : classify.Labels :=
  match sorted with
  | [] => []
  | first :: _ =>
      List.filter (fun label => int_div (Index.confidence_of first) 3 <? Index.confidence_of label)
             sorted
  end.

End Spec.

(** ** The words of the proofs *)

Section Relations.
Context `{Packages}.
Import Index.

(** The leading labels of confidence 0, which never set the threshold. *)
Fixpoint skipZero (labels : classify.Labels) : classify.Labels :=
  match labels with
  | [] => []
  | label :: labels' =>
      if Index.confidence_of label =? 0 then skipZero labels' else labels
  end.

(** The tables of photos, files and edges are the same. *)
Definition same_rows (s s' : db.t) : Prop :=
  db.photos s' = db.photos s /\ db.files s' = db.files s
  /\ db.photos_labels s' = db.photos_labels s.

(** No edge is lost, and no uncertainty grows. *)
Definition edges_le (e e' : gmap (Z * Z) (Z * string)) : Prop :=
  forall k u src, e !! k = Some (u, src) ->
    exists u' src', e' !! k = Some (u', src') /\ u' <= u.

(** The messages published between two states, none of them on the topic
    "index.indexing". *)
Definition other_topic (msg : event.Message) : Prop :=
  event.Name msg <> "index.indexing".

Definition published (st st' : State) : Prop :=
  exists evs, events st' = events st ++ evs /\ Forall other_topic evs.

(** An operation that keeps the rows, lowers edges at most, and publishes on
    other topics only. *)
Definition frame (st st' : State) : Prop :=
  db.photos (catalog st') = db.photos (catalog st)
  /\ db.files (catalog st') = db.files (catalog st)
  /\ edges_le (db.photos_labels (catalog st)) (db.photos_labels (catalog st'))
  /\ published st st'.

(** The edge table after the edge of one label was linked. *)
Definition linked (ind : t) (photoId : Z) (label : classify.Label) (labelId : Z)
    (e : gmap (Z * Z) (Z * string)) : gmap (Z * Z) (Z * string) :=
  match e !! (photoId, labelId) with
  | None => <[(photoId, labelId) := (classify.Uncertainty label, classify.Source label)]> e
  | Some (u, _) =>
      if classify.Uncertainty label <? u then
        match db_Error ind db.SavePhotoLabel with
        | Some _ => e
        | None =>
            <[(photoId, labelId) := (classify.Uncertainty label, classify.Source label)]> e
        end
      else e
  end.

(** [kept p p']: [p'] has the identity and the edit flags of [p], and the
    fields that a set flag protects. *)
Definition kept (p p' : entity.Photo.t) : Prop :=
  entity.Photo.ID p' = entity.Photo.ID p
  /\ entity.Photo.PhotoUUID p' = entity.Photo.PhotoUUID p
  /\ (entity.Photo.ModifiedTitle p' = entity.Photo.ModifiedTitle p
      /\ entity.Photo.ModifiedDate p' = entity.Photo.ModifiedDate p
      /\ entity.Photo.ModifiedLocation p' = entity.Photo.ModifiedLocation p
      /\ entity.Photo.ModifiedCamera p' = entity.Photo.ModifiedCamera p)
  /\ (entity.Photo.ModifiedTitle p = true -> entity.Photo.PhotoTitle p <> "" ->
      entity.Photo.PhotoTitle p' = entity.Photo.PhotoTitle p)
  /\ (entity.Photo.ModifiedDate p = true ->
      time.IsZero (entity.Photo.TakenAt p) = false ->
      time.IsZero (entity.Photo.TakenAtLocal p) = false ->
      entity.Photo.TakenAt p' = entity.Photo.TakenAt p
      /\ entity.Photo.TakenAtLocal p' = entity.Photo.TakenAtLocal p
      /\ entity.Photo.TimeZone p' = entity.Photo.TimeZone p)
  /\ (entity.Photo.ModifiedLocation p = true ->
      entity.Photo.PhotoLat p' = entity.Photo.PhotoLat p
      /\ entity.Photo.PhotoLng p' = entity.Photo.PhotoLng p
      /\ entity.Photo.PhotoAltitude p' = entity.Photo.PhotoAltitude p)
  /\ (entity.Photo.ModifiedCamera p = true ->
      entity.Photo.Camera p' = entity.Photo.Camera p
      /\ entity.Photo.Lens p' = entity.Photo.Lens p
      /\ entity.Photo.PhotoFocalLength p' = entity.Photo.PhotoFocalLength p
      /\ entity.Photo.PhotoFNumber p' = entity.Photo.PhotoFNumber p
      /\ entity.Photo.PhotoIso p' = entity.Photo.PhotoIso p
      /\ entity.Photo.PhotoExposure p' = entity.Photo.PhotoExposure p).

(** [file_kept f f']: [f'] has the id, the primary flag and the deletion
    mark of [f]. *)
Definition file_kept (f f' : entity.File.t) : Prop :=
  entity.File.ID f' = entity.File.ID f
  /\ entity.File.FilePrimary f' = entity.File.FilePrimary f
  /\ entity.File.DeletedAt f' = entity.File.DeletedAt f.


(** The dates of a photo and the year and month derived from them. *)
Definition same_dates (p p' : entity.Photo.t) : Prop :=
  entity.Photo.TakenAt p' = entity.Photo.TakenAt p
  /\ entity.Photo.TakenAtLocal p' = entity.Photo.TakenAtLocal p
  /\ entity.Photo.PhotoYear p' = entity.Photo.PhotoYear p
  /\ entity.Photo.PhotoMonth p' = entity.Photo.PhotoMonth p.

(** The file that is written: the analysed file, with the ids of its photo. *)
Definition linkedFile (photo : entity.Photo.t) (file : entity.File.t) : entity.File.t :=
  entity.File.set_PhotoUUID (entity.Photo.PhotoUUID photo)
    (entity.File.set_PhotoID (entity.Photo.ID photo) file).

(** What [persist] does after the photo was written. *)
Definition file_written (ind : t) (fileExists : bool) (f : entity.File.t)
    (files files' : list entity.File.t) (r : IndexResult.t) : Prop :=
  if fileExists then
    match db_Error ind db.SaveFile with
    | Some e =>
        IndexResult.Status r = IndexFailed /\ IndexResult.Error r = Some e
        /\ files' = files
    | None =>
        let f' := entity.File.set_UpdatedIn (time_Since ind) f in
        IndexResult.Status r = IndexUpdated /\ IndexResult.Error r = None
        /\ files' = db.SaveFileRow f' files
        /\ IndexResult.FileID r = entity.File.ID f'
        /\ IndexResult.FileUUID r = entity.File.FileUUID f'
    end
  else
    match db_Error ind db.CreateFile with
    | Some e =>
        IndexResult.Status r = IndexFailed /\ IndexResult.Error r = Some e
        /\ files' = files
    | None =>
        let f' := fst (db.CreateFileRow (rnd_FileUUID ind)
                         (entity.File.set_CreatedIn (time_Since ind) f) files) in
        IndexResult.Status r = IndexAdded /\ IndexResult.Error r = None
        /\ files' = files ++ [f']
        /\ IndexResult.FileID r = entity.File.ID f'
        /\ IndexResult.FileUUID r = entity.File.FileUUID f'
    end.

(** The condition of line 108 under which the file is skipped. *)
Definition skips (o : IndexOptions) (q : Lookup) : bool :=
  negb (q_fileChanged q) && q_photoExists q && SkipUnchanged o.

(** The photo has a primary JPEG that is not deleted. *)
Definition hasPrimaryJpeg (s : db.t) (photo : entity.Photo.t) : Prop :=
  exists r, In r (db.files s)
    /\ entity.File.FileType r = "jpg" /\ entity.File.FilePrimary r = true
    /\ entity.File.PhotoID r = entity.Photo.ID photo
    /\ entity.File.DeletedAt r = None.

(** The condition under which the file is primary after the election. *)
Definition elected (m : MediaFile.t) (s : db.t) (q : Lookup) : Prop :=
  (MediaFile.IsJpeg m = true
   /\ (q_photoExists q = false \/ ~ hasPrimaryJpeg s (q_photo q)))
  \/ entity.File.FilePrimary (q_file q) = true.

(** The rows of a table after a row was saved or created, or none. *)
Definition written {A : Type} (save : A -> list A -> list A) (rows rows' : list A)
    (P : A -> Prop) : Prop :=
  rows' = rows \/ exists r, (rows' = save r rows \/ rows' = rows ++ [r]) /\ P r.

(** The id of the label under which [addLabel] links a classifier label. *)
Definition labelId (ind : t) (label : classify.Label) (s : db.t) : Z :=
  entity.Label.ID
    (fst (Label_FirstOrCreate ind (txt_Title (classify.Name label))
            (classify.Priority label) s)).

(** Year and month are those of [TakenAt]. *)
Definition dated (p : entity.Photo.t) : Prop :=
  entity.Photo.PhotoYear p = time.Year (entity.Photo.TakenAt p)
  /\ entity.Photo.PhotoMonth p = time.Month (entity.Photo.TakenAt p).

(** Both times are set, or both are the creation date of the file. *)
Definition taken (m : MediaFile.t) (p : entity.Photo.t) : Prop :=
  (time.IsZero (entity.Photo.TakenAt p) = false
   /\ time.IsZero (entity.Photo.TakenAtLocal p) = false)
  \/ (entity.Photo.TakenAt p = MediaFile.DateCreated m
      /\ entity.Photo.TakenAtLocal p = MediaFile.DateCreated m).

(** [TakenAt] and [TakenAtLocal] of a photo. *)
Definition times (p : entity.Photo.t) : time.Time * time.Time :=
  (entity.Photo.TakenAt p, entity.Photo.TakenAtLocal p).

(** Lines 143-156: the times of the photo of a primary file after its
    metadata was read. *)
Definition metaTimes (m : MediaFile.t) (o : IndexOptions) (q : Lookup)
  : time.Time * time.Time :=
  if q_fileChanged q || UpdateExif o then
    match MediaFile.MetaData m with
    | (metaData, None) =>
        if negb (entity.Photo.ModifiedDate (q_photo q))
        then (meta.TakenAt metaData, meta.TakenAtLocal metaData)
        else times (q_photo q)
    | (_, Some _) => times (q_photo q)
    end
  else times (q_photo q).

(** Lines 238-241: the times of the photo of a primary file. *)
Definition primaryTimes (m : MediaFile.t) (o : IndexOptions) (q : Lookup)
  : time.Time * time.Time :=
  if time.IsZero (fst (metaTimes m o q)) || time.IsZero (snd (metaTimes m o q))
  then (MediaFile.DateCreated m, MediaFile.DateCreated m)
  else metaTimes m o q.

(** The times and the flag that guards them are the same. *)
Definition same_times (p p' : entity.Photo.t) : Prop :=
  times p' = times p
  /\ entity.Photo.ModifiedDate p' = entity.Photo.ModifiedDate p.

(** The fields that lines 270-283 give the file row. *)
Definition stamped (ind : t) (m : MediaFile.t) (f : entity.File.t) : Prop :=
  entity.File.FileName f = MediaFile.RelativeName m (originalsPath ind)
  /\ entity.File.FileSize f = fst (MediaFile.Stat m)
  /\ entity.File.FileModified f = snd (MediaFile.Stat m)
  /\ entity.File.FileMissing f = false
  /\ entity.File.FileSidecar f = MediaFile.IsSidecar m
  /\ entity.File.FileVideo f = MediaFile.IsVideo m
  /\ entity.File.FileType f = MediaFile.FileType m
  /\ entity.File.FileMime f = MediaFile.MimeType m
  /\ entity.File.FileOrientation f = MediaFile.Orientation m.

(** The tables that only the analyses of a primary file write are the same. *)
Definition same_dimensions (s s' : db.t) : Prop :=
  db.labels s' = db.labels s /\ db.photos_labels s' = db.photos_labels s
  /\ db.categories s' = db.categories s /\ db.cameras s' = db.cameras s
  /\ db.lenses s' = db.lenses s /\ db.countries s' = db.countries s
  /\ db.places s' = db.places s /\ db.keywords s' = db.keywords s.

(** The country of the photo is the country of its place. *)
Definition located (p : entity.Photo.t) : Prop :=
  exists place,
    entity.Photo.Place p = Some place
    /\ entity.Photo.PhotoCountry p = entity.Place.LocCountry place.

(** The title, the place and the country of a photo are the same. *)
Definition same_face (p p' : entity.Photo.t) : Prop :=
  entity.Photo.PhotoTitle p' = entity.Photo.PhotoTitle p
  /\ entity.Photo.Place p' = entity.Photo.Place p
  /\ entity.Photo.PhotoCountry p' = entity.Photo.PhotoCountry p.

(** The condition of line 208 under which the location is indexed. *)
Definition locates (o : IndexOptions) (q : Lookup) : bool :=
  q_fileChanged q || UpdateKeywords o || UpdateLocation o || UpdateTitle o.

(** The messages published between two states, all on the given topics. *)
Definition emits (names : list string) (st st' : State) : Prop :=
  exists evs,
    events st' = events st ++ evs
    /\ Forall (fun msg => In (event.Name msg) names) evs.

(** The topics of [indexLocation] and of [addLabels]. *)
Definition locationTopics : list string := ["count.places"; "count.countries"].
Definition labelTopics : list string := ["labels.created"; "count.labels"].

End Relations.

(** ** Concrete inputs *)

Module Examples.
Import Index.

(** Stand-ins for the helpers of the other packages. *)
Definition packages : Packages :=
  {| txt_Title := fun s => s;
     txt_Keywords := fun s => [s];
     txt_UniqueWords := fun l => l;
     NonCanonical := fun _ => false;
     filepath_Base := fun s => s;
     slug_Make := fun s => s;
     Labels_Keywords := map classify.Name;
     Labels_Title := fun _ fallback => fallback;
     Location_NoCity := fun l => bool_decide (entity.Location.LocCity l = "");
     Location_LongCity := fun l => 16 <? len (entity.Location.LocCity l);
     Location_CityContains := fun l s => strings_Contains (entity.Location.LocCity l) s;
     DateDiff := fun a b => time.day a - time.day b;
     KeywordIndex := unit;
     Photo_IndexKeywords := fun _ k => k |}.

Definition noon (y mo d : Z) : time.Time := time.mkTime y mo d 12 0 0 0.

Definition noData : meta.Data :=
  meta.mkData "" time.zero time.zero "" "" "" "" "" "" "" "" "" "" 0 0 0.

(** A square JPEG of the given name, hash, size and metadata, last modified
    on 1 June 2021, whose thumbnails can be rendered and that has no
    location. *)
Definition jpeg (name hash : string) (size : Z) (metaData : meta.Data * option error)
  : MediaFile.t :=
  {| MediaFile.Base := "a";
     MediaFile.RelativePath := fun _ => "2021";
     MediaFile.RelativeName := fun _ => name;
     MediaFile.FileName := String.append "/originals/" name;
     MediaFile.Hash := hash;
     MediaFile.Stat := (size, noon 2021 6 1);
     MediaFile.MetaData := metaData;
     MediaFile.HasTimeAndPlace := false;
     MediaFile.DateCreated := noon 2021 6 1;
     MediaFile.IsSidecar := false;
     MediaFile.IsJpeg := true;
     MediaFile.IsXMP := false;
     MediaFile.IsVideo := false;
     MediaFile.FileType := "jpg";
     MediaFile.MimeType := "image/jpeg";
     MediaFile.Orientation := 1;
     MediaFile.Width := 400;
     MediaFile.Height := 400;
     MediaFile.AspectRatio := float_one;
     MediaFile.Thumbnail := fun _ thumb => (thumb, None);
     MediaFile.Colors := fun _ => (colors.mkPerception "" "" "" 0 0, Some "no colors");
     MediaFile.CameraModel := "";
     MediaFile.CameraMake := "";
     MediaFile.LensModel := "";
     MediaFile.LensMake := "";
     MediaFile.FocalLength := 0;
     MediaFile.FNumber := 0;
     MediaFile.Iso := 0;
     MediaFile.Exposure := "";
     MediaFile.Location := (entity.Location.zero, Some "no location") |}.

(** [2021/a.jpg], 100 bytes, without metadata. *)
Definition a_jpg : MediaFile.t := jpeg "2021/a.jpg" "h-a" 100 (noData, Some "no exif").

(** An indexer whose classifier answers with the given labels and whose
    database reports no error. *)
Definition indexer (tensorFlowDisabled : bool) (labels : classify.Labels) : t :=
  {| originalsPath := "/originals";
     thumbnailsPath := "/thumbnails";
     TensorFlowDisabled := tensorFlowDisabled;
     DetectNSFW := false;
     GeoCodingApi := "osm";
     tensorFlow_File := fun _ => (labels, None);
     nsfwDetector_File := fun _ => (false, None);
     meta_XMP := fun _ => (noData, Some "no xmp");
     Location_Find := fun _ l _ => (l, Some "no geocoder");
     db_Error := fun _ => None;
     rnd_PhotoUUID := "p-new";
     rnd_FileUUID := "f-new";
     rnd_LabelUUID := "l-new";
     time_Since := 1000;
     SetDownloadFileID_Error := None |}.

Definition label (name : string) (uncertainty priority : Z) : classify.Label :=
  classify.mkLabel name "image" uncertainty priority [].

Definition options (skipUnchanged updateExif updateTitle : bool) : IndexOptions :=
  mkIndexOptions skipUnchanged updateExif false false false false false updateTitle
                 false.

(** A photo that the user has edited: the title was cleared and the date set,
    with no local time. *)
Definition photo1 : entity.Photo.t :=
  entity.Photo.set_TakenAt (noon 2020 5 5)
    {| entity.Photo.ID := 1; entity.Photo.PhotoUUID := "p-1";
       entity.Photo.PhotoPath := "2021"; entity.Photo.PhotoName := "a";
       entity.Photo.PhotoTitle := ""; entity.Photo.PhotoFavorite := false;
       entity.Photo.PhotoNSFW := false; entity.Photo.PhotoLat := 0;
       entity.Photo.PhotoLng := 0; entity.Photo.PhotoAltitude := 0;
       entity.Photo.TakenAt := time.zero; entity.Photo.TakenAtLocal := time.zero;
       entity.Photo.TimeZone := ""; entity.Photo.PhotoYear := 2020;
       entity.Photo.PhotoMonth := 5; entity.Photo.PhotoCountry := "";
       entity.Photo.PhotoFocalLength := 0; entity.Photo.PhotoFNumber := 0;
       entity.Photo.PhotoIso := 0; entity.Photo.PhotoExposure := "";
       entity.Photo.CameraSerial := ""; entity.Photo.Camera := None;
       entity.Photo.Lens := None; entity.Photo.Location := None;
       entity.Photo.LocationID := ""; entity.Photo.LocationEstimated := false;
       entity.Photo.Place := None; entity.Photo.PlaceID := "";
       entity.Photo.Description := entity.Description.zero;
       entity.Photo.ModifiedTitle := true; entity.Photo.ModifiedDate := true;
       entity.Photo.ModifiedLocation := false; entity.Photo.ModifiedCamera := false;
       entity.Photo.DeletedAt := None |}.

(** The row of [2021/a.jpg], the primary file of [photo1]. *)
Definition file1 : entity.File.t :=
  entity.File.set_FilePrimary true
    (entity.File.set_FileType "jpg"
       (entity.File.set_FileModified (noon 2021 6 1)
          (entity.File.set_FileSize 100
             (entity.File.set_FileHash "h-a"
                (entity.File.set_FileName "2021/a.jpg"
                   (entity.File.set_PhotoUUID "p-1"
                      (entity.File.set_PhotoID 1
                         (entity.File.set_FileUUID "f-1"
                            (entity.File.set_ID 1 entity.File.zero))))))))).

(** A catalog with that photo and that file. *)
Definition catalog1 : @db.t packages :=
  {| db.files := [file1]; db.photos := [photo1]; db.labels := [];
     db.photos_labels := ∅; db.categories := ∅; db.cameras := []; db.lenses := [];
     db.countries := ∅; db.places := ∅; db.files_sync := ∅; db.keywords := (tt : @KeywordIndex packages) |}.

Definition state1 : @State packages := mkState catalog1 [].

(** Metadata with a title and a unique id of 16 characters. *)
Definition beach : meta.Data :=
  meta.mkData "0123456789abcdef" time.zero time.zero "" "Beach" "" "" "" "" "" "" "" ""
              0 0 0.

(** [2021/a.jpg] after it was edited: 200 bytes, with that metadata. *)
Definition a_jpg_edited : MediaFile.t := jpeg "2021/a.jpg" "h-a2" 200 (beach, None).

(** [2021/a.jpg] after it was moved to [2022/a.jpg]. *)
Definition a_jpg_moved : MediaFile.t := jpeg "2022/a.jpg" "h-a" 100 (noData, Some "no exif").

(** The same photo with the title and the local time that the user has set. *)
Definition photo2 : entity.Photo.t :=
  entity.Photo.set_PhotoTitle "My Dog"
    (entity.Photo.set_TakenAtLocal (noon 2020 5 5) photo1).

Definition catalog2 : @db.t packages :=
  {| db.files := [file1]; db.photos := [photo2]; db.labels := [];
     db.photos_labels := ∅; db.categories := ∅; db.cameras := []; db.lenses := [];
     db.countries := ∅; db.places := ∅; db.files_sync := ∅;
     db.keywords := (tt : @KeywordIndex packages) |}.

Definition state2 : @State packages := mkState catalog2 [].

(** A catalog in which photo 1 has the label "Cat" with uncertainty 50. *)
Definition catalog3 : @db.t packages :=
  {| db.files := [file1]; db.photos := [photo2];
     db.labels := [entity.Label.mk 1 "l-1" "Cat" "Cat" 0 false false];
     db.photos_labels := {[ (1, 1) := (50, "image") ]}; db.categories := ∅;
     db.cameras := []; db.lenses := []; db.countries := ∅; db.places := ∅;
     db.files_sync := ∅; db.keywords := (tt : @KeywordIndex packages) |}.

Definition state3 : @State packages := mkState catalog3 [].

(** The labels of scenario S6, and labels whose first label, of the highest
    priority, has the confidence 0. *)
Definition labelsS6 : classify.Labels := [label "cat" 20 0; label "dog" 90 0].

Definition labelsZeroFirst : classify.Labels :=
  [label "x" 100 1; label "cat" 10 0; label "dog" 75 0].

(** An empty catalog. *)
Definition catalog0 : @db.t packages :=
  {| db.files := []; db.photos := []; db.labels := [];
     db.photos_labels := ∅; db.categories := ∅; db.cameras := []; db.lenses := [];
     db.countries := ∅; db.places := ∅; db.files_sync := ∅;
     db.keywords := (tt : @KeywordIndex packages) |}.

Definition state0 : @State packages := mkState catalog0 [].

(** The sidecar [2021/a.xmp] of scenario S4, created on 1 June 2021. *)
Definition a_xmp : MediaFile.t :=
  {| MediaFile.Base := "a";
     MediaFile.RelativePath := fun _ => "2021";
     MediaFile.RelativeName := fun _ => "2021/a.xmp";
     MediaFile.FileName := "/originals/2021/a.xmp";
     MediaFile.Hash := "h-x";
     MediaFile.Stat := (50, noon 2021 6 1);
     MediaFile.MetaData := (noData, Some "no exif");
     MediaFile.HasTimeAndPlace := false;
     MediaFile.DateCreated := noon 2021 6 1;
     MediaFile.IsSidecar := true;
     MediaFile.IsJpeg := false;
     MediaFile.IsXMP := true;
     MediaFile.IsVideo := false;
     MediaFile.FileType := "xmp";
     MediaFile.MimeType := "text/xml";
     MediaFile.Orientation := 0;
     MediaFile.Width := 0;
     MediaFile.Height := 0;
     MediaFile.AspectRatio := 0;
     MediaFile.Thumbnail := fun _ _ => ("", Some "no thumbnail");
     MediaFile.Colors := fun _ => (colors.mkPerception "" "" "" 0 0, Some "no colors");
     MediaFile.CameraModel := "";
     MediaFile.CameraMake := "";
     MediaFile.LensModel := "";
     MediaFile.LensMake := "";
     MediaFile.FocalLength := 0;
     MediaFile.FNumber := 0;
     MediaFile.Iso := 0;
     MediaFile.Exposure := "";
     MediaFile.Location := (entity.Location.zero, Some "no location") |}.

(** An indexer that reads the title "Beach" from every XMP file. *)
Definition xmpIndexer : t :=
  {| originalsPath := "/originals";
     thumbnailsPath := "/thumbnails";
     TensorFlowDisabled := true;
     DetectNSFW := false;
     GeoCodingApi := "osm";
     tensorFlow_File := fun _ => ([], None);
     nsfwDetector_File := fun _ => (false, None);
     meta_XMP := fun _ => (beach, None);
     Location_Find := fun _ l _ => (l, Some "no geocoder");
     db_Error := fun _ => None;
     rnd_PhotoUUID := "p-new";
     rnd_FileUUID := "f-new";
     rnd_LabelUUID := "l-new";
     time_Since := 1000;
     SetDownloadFileID_Error := None |}.

(** An indexer whose database refuses to save a file row. *)
Definition brokenIndexer : t :=
  {| originalsPath := "/originals";
     thumbnailsPath := "/thumbnails";
     TensorFlowDisabled := true;
     DetectNSFW := false;
     GeoCodingApi := "osm";
     tensorFlow_File := fun _ => ([], None);
     nsfwDetector_File := fun _ => (false, None);
     meta_XMP := fun _ => (noData, Some "no xmp");
     Location_Find := fun _ l _ => (l, Some "no geocoder");
     db_Error := fun w => match w with db.SaveFile => Some "disk full" | _ => None end;
     rnd_PhotoUUID := "p-new";
     rnd_FileUUID := "f-new";
     rnd_LabelUUID := "l-new";
     time_Since := 1000;
     SetDownloadFileID_Error := None |}.

End Examples.

(** ** Proofs *)

Section Proofs.
Context `{Packages}.
Import Index.

(** *** The second loop of [classifyImage] *)

Lemma retain_nonzero (c : Z) (labels : classify.Labels) :
  c <> 0 ->
  Index.retain c labels
  = List.filter (fun label => int_div c 3 <? Index.confidence_of label) labels.
Proof.
  intros Hc. induction labels as [|label labels IH]; [reflexivity|].
  cbn [Index.retain].
  destruct (Z.eqb_spec c 0) as [->|_]; [contradiction|].
  rewrite IH. reflexivity.
Qed.

Lemma retain_zero (labels : classify.Labels) :
  Index.retain 0 labels
  = match skipZero labels with
    | [] => []
    | first :: _ =>
        List.filter (fun label => int_div (Index.confidence_of first) 3 <? Index.confidence_of label)
               (skipZero labels)
    end.
Proof.
  induction labels as [|label labels IH]; [reflexivity|].
  cbn [Index.retain skipZero]. rewrite Z.eqb_refl.
  destruct (Z.eqb_spec (Index.confidence_of label) 0) as [E|E].
  - rewrite E. cbn. exact IH.
  - rewrite (retain_nonzero _ _ E). reflexivity.
Qed.

(** *** What an operation leaves alone *)

Lemma same_rows_refl s : same_rows s s.
Proof. by repeat split. Qed.

Lemma same_rows_trans s1 s2 s3 : same_rows s1 s2 -> same_rows s2 s3 -> same_rows s1 s3.
Proof. intros (?&?&?) (?&?&?). repeat split; congruence. Qed.

Lemma edges_le_refl e : edges_le e e.
Proof. intros k u src Hk. exists u, src. split; [done|lia]. Qed.

Lemma edges_le_trans e1 e2 e3 : edges_le e1 e2 -> edges_le e2 e3 -> edges_le e1 e3.
Proof.
  intros H12 H23 k u src Hk.
  destruct (H12 _ _ _ Hk) as (u2 & src2 & Hk2 & Hle2).
  destruct (H23 _ _ _ Hk2) as (u3 & src3 & Hk3 & Hle3).
  exists u3, src3. split; [done|lia].
Qed.

Lemma published_refl st : published st st.
Proof. exists []. by rewrite app_nil_r. Qed.

Lemma published_trans st1 st2 st3 :
  published st1 st2 -> published st2 st3 -> published st1 st3.
Proof.
  intros (e1 & H1 & F1) (e2 & H2 & F2). exists (e1 ++ e2).
  split; [by rewrite H2, H1, app_assoc | by apply Forall_app].
Qed.

Lemma published_publish name data st :
  name <> "index.indexing" -> published st (publish name data st).
Proof.
  intros Hn. exists [event.mkMessage name data]. split; [reflexivity|].
  by repeat constructor.
Qed.

Lemma published_entitiesCreated name v st :
  String.append name ".created" <> "index.indexing" ->
  published st (entitiesCreated name v st).
Proof.
  intros Hn. eexists [_]. split; [reflexivity|]. by repeat constructor.
Qed.

Lemma published_same_events st st' : events st' = events st -> published st st'.
Proof. intros E. exists []. by rewrite app_nil_r. Qed.

Lemma frame_refl st : frame st st.
Proof. repeat split; auto using edges_le_refl, published_refl. Qed.

Lemma frame_trans st1 st2 st3 : frame st1 st2 -> frame st2 st3 -> frame st1 st3.
Proof.
  intros (?&?&?&?) (?&?&?&?).
  repeat split; eauto using edges_le_trans, published_trans; congruence.
Qed.

Lemma frame_same_rows st st' :
  same_rows (catalog st) (catalog st') -> published st st' -> frame st st'.
Proof.
  intros (?&?&E) ?. repeat split; auto. rewrite E. apply edges_le_refl.
Qed.

(** *** The dimension tables *)

Lemma Label_FirstOrCreate_rows ind name priority s :
  same_rows s (snd (Label_FirstOrCreate ind name priority s)).
Proof. unfold Label_FirstOrCreate. by destruct (db.First _ _). Qed.

Lemma Camera_FirstOrCreate_rows model make s :
  same_rows s (snd (Camera_FirstOrCreate model make s)).
Proof. unfold Camera_FirstOrCreate. by destruct (db.First _ _). Qed.

Lemma Lens_FirstOrCreate_rows model make s :
  same_rows s (snd (Lens_FirstOrCreate model make s)).
Proof. unfold Lens_FirstOrCreate. by destruct (db.First _ _). Qed.

Lemma Country_FirstOrCreate_rows code name s :
  same_rows s (snd (Country_FirstOrCreate code name s)).
Proof. unfold Country_FirstOrCreate. by destruct (_ !! _). Qed.

Lemma persistPlace_rows location s : same_rows s (persistPlace location s).
Proof. unfold persistPlace. by destruct (entity.Place.New _). Qed.

Lemma addCategories_rows ind lm cats s : same_rows s (addCategories ind lm cats s).
Proof.
  unfold addCategories. revert s.
  induction cats as [|c cats IH]; intros s; [apply same_rows_refl|].
  cbn [fold_left]. eapply same_rows_trans; [|apply IH].
  pose proof (Label_FirstOrCreate_rows ind (txt_Title c) (-3) s) as Hl.
  destruct (Label_FirstOrCreate ind (txt_Title c) (-3) s) as [sn s1]. cbn [snd] in Hl.
  destruct (db_Error ind db.AppendCategory); [exact Hl|].
  eapply same_rows_trans; [exact Hl|]. by repeat split.
Qed.

Lemma updateCamera_rows m photo s : same_rows s (snd (updateCamera m photo s)).
Proof.
  unfold updateCamera.
  pose proof (Camera_FirstOrCreate_rows (MediaFile.CameraModel m) (MediaFile.CameraMake m) s) as Hc.
  destruct (Camera_FirstOrCreate _ _ s) as [camera s1]. cbn [snd] in Hc.
  pose proof (Lens_FirstOrCreate_rows (MediaFile.LensModel m) (MediaFile.LensMake m) s1) as Hl.
  destruct (Lens_FirstOrCreate _ _ s1) as [lens s2]. cbn [snd] in *.
  eapply same_rows_trans; eassumption.
Qed.

(** *** [addLabels] *)

Lemma linkLabel_edges ind photoId label lm s :
  db.photos_labels (linkLabel ind photoId label lm s)
  = linked ind photoId label (entity.Label.ID lm) (db.photos_labels s).
Proof.
  unfold linkLabel, linked, PhotoLabel_FirstOrCreate.
  destruct (db.photos_labels s !! (photoId, entity.Label.ID lm)) as [[u src]|] eqn:E.
  - pose proof (addCategories_rows ind lm (classify.Categories label) s) as (_ & _ & Hc).
    cbn [entity.PhotoLabel.LabelUncertainty].
    destruct (classify.Uncertainty label <? u); [|exact Hc].
    destruct (db_Error ind db.SavePhotoLabel); [exact Hc|].
    unfold PhotoLabel_Save. cbn. by rewrite Hc.
  - match goal with |- context [addCategories ind lm ?c ?s0] =>
      pose proof (addCategories_rows ind lm c s0) as (_ & _ & Hc) end.
    cbn [entity.PhotoLabel.LabelUncertainty]. rewrite Z.ltb_irrefl. exact Hc.
Qed.

Lemma linkLabel_rows ind photoId label lm s :
  db.photos (linkLabel ind photoId label lm s) = db.photos s
  /\ db.files (linkLabel ind photoId label lm s) = db.files s.
Proof.
  unfold linkLabel, PhotoLabel_FirstOrCreate.
  destruct (db.photos_labels s !! (photoId, entity.Label.ID lm)) as [[u src]|].
  - pose proof (addCategories_rows ind lm (classify.Categories label) s) as (Hp & Hf & _).
    destruct (_ <? _); [|done]. by destruct (db_Error ind db.SavePhotoLabel).
  - match goal with |- context [addCategories ind lm ?c ?s0] =>
      pose proof (addCategories_rows ind lm c s0) as (Hp & Hf & _) end.
    destruct (_ <? _); [|done]. by destruct (db_Error ind db.SavePhotoLabel).
Qed.

Lemma linked_le ind photoId label labelId e :
  edges_le e (linked ind photoId label labelId e).
Proof.
  intros k u src Hk. unfold linked.
  destruct (e !! (photoId, labelId)) as [[u0 src0]|] eqn:E.
  - destruct (Z.ltb_spec (classify.Uncertainty label) u0) as [Hlt|_];
      [|exists u, src; split; [done|lia]].
    destruct (db_Error ind db.SavePhotoLabel); [exists u, src; split; [done|lia]|].
    destruct (decide (k = (photoId, labelId))) as [->|Hne].
    + rewrite lookup_insert_eq. assert (u0 = u) by congruence.
      eexists _, _. split; [reflexivity|lia].
    + rewrite lookup_insert_ne by done. exists u, src. split; [done|lia].
  - destruct (decide (k = (photoId, labelId))) as [->|Hne]; [congruence|].
    rewrite lookup_insert_ne by done. exists u, src. split; [done|lia].
Qed.

Lemma internLabel_frame ind label st :
  same_rows (catalog st) (catalog (snd (internLabel ind label st)))
  /\ published st (snd (internLabel ind label st)).
Proof.
  unfold internLabel.
  pose proof (Label_FirstOrCreate_rows ind (txt_Title (classify.Name label))
                (classify.Priority label) (catalog st)) as Hl.
  destruct (Label_FirstOrCreate _ _ _ _) as [lm s1]. cbn [snd] in Hl.
  set (st1 := if entity.Label.New lm then _ else _).
  assert (same_rows (catalog st) (catalog st1) /\ published st st1) as [Hr Hp].
  { subst st1. destruct (entity.Label.New lm).
    - destruct (0 <=? _); (split; [exact Hl|]).
      + eapply published_trans; [eapply published_trans|].
        * apply (published_same_events st (mkState s1 (events st))). reflexivity.
        * apply (published_entitiesCreated "labels"). cbv; discriminate.
        * apply published_publish. discriminate.
      + eapply published_trans.
        * apply (published_same_events st (mkState s1 (events st))). reflexivity.
        * apply (published_entitiesCreated "labels"). cbv; discriminate.
    - split; [exact Hl|]. by apply published_same_events. }
  destruct (negb _); [|by split].
  destruct (db_Error ind db.SaveLabel); [by split|]. cbn [snd]. split.
  - eapply same_rows_trans; [exact Hr|]. by repeat split.
  - eapply published_trans; [exact Hp|]. by apply published_same_events.
Qed.

Lemma addLabel_frame ind photoId label st : frame st (addLabel ind photoId label st).
Proof.
  unfold addLabel. pose proof (internLabel_frame ind label st) as [(Hp & Hf & He) Hpub].
  destruct (internLabel ind label st) as [lm st1]. cbn [snd] in *.
  pose proof (linkLabel_rows ind photoId label lm (catalog st1)) as [Hp' Hf'].
  repeat split; cbn [catalog events].
  - congruence.
  - congruence.
  - rewrite linkLabel_edges, He. apply linked_le.
  - destruct Hpub as (evs & E & F). by exists evs.
Qed.

Lemma addLabels_frame ind photoId labels st : frame st (addLabels ind photoId labels st).
Proof.
  unfold addLabels. revert st.
  induction labels as [|label labels IH]; intros st; [apply frame_refl|].
  cbn [fold_left]. eapply frame_trans; [apply addLabel_frame|apply IH].
Qed.

(** The id under which a label is interned. *)
Lemma internLabel_ID ind label st :
  entity.Label.ID (fst (internLabel ind label st))
  = entity.Label.ID (fst (Label_FirstOrCreate ind (txt_Title (classify.Name label))
                            (classify.Priority label) (catalog st))).
Proof.
  unfold internLabel. destruct (Label_FirstOrCreate _ _ _ _) as [lm s1].
  cbn [fst]. destruct (negb _); [|reflexivity].
  by destruct (db_Error ind db.SaveLabel).
Qed.

Lemma addLabel_edges ind photoId label st :
  db.photos_labels (catalog (addLabel ind photoId label st))
  = linked ind photoId label
      (entity.Label.ID (fst (Label_FirstOrCreate ind (txt_Title (classify.Name label))
                               (classify.Priority label) (catalog st))))
      (db.photos_labels (catalog st)).
Proof.
  unfold addLabel. pose proof (internLabel_frame ind label st) as [(_ & _ & He) _].
  pose proof (internLabel_ID ind label st) as Hid.
  destruct (internLabel ind label st) as [lm st1]. cbn [fst snd] in *.
  cbn [catalog]. by rewrite linkLabel_edges, He, Hid.
Qed.

(** *** The state after the analyses *)

Lemma readCamera_frame m o fileChanged photo st :
  frame st (snd (readCamera m o fileChanged photo st)).
Proof.
  unfold readCamera. destruct (_ && _); [|apply frame_refl].
  pose proof (updateCamera_rows m photo (catalog st)) as Hr.
  destruct (updateCamera m photo (catalog st)) as [photo' s']. cbn [snd] in *.
  apply frame_same_rows; [exact Hr|]. by apply published_same_events.
Qed.

Lemma indexLocation_frame ind m photo labels fileChanged o st :
  frame st (snd (indexLocation ind m photo labels fileChanged o st)).
Proof.
  unfold indexLocation. destruct (MediaFile.Location m) as [location [e|]].
  { apply frame_refl. }
  destruct (Location_Find ind _ location _) as [location' [e|]].
  { apply frame_refl. }
  set (st1 := with_catalog (persistPlace location') st).
  assert (frame st st1) as F1.
  { apply frame_same_rows; [apply persistPlace_rows|by apply published_same_events]. }
  set (st2 := if entity.Place.New _ then _ else st1).
  assert (frame st st2) as F2.
  { subst st2. destruct (entity.Place.New _); [|exact F1].
    eapply frame_trans; [exact F1|].
    apply frame_same_rows; [apply same_rows_refl|by apply published_publish]. }
  pose proof (Country_FirstOrCreate_rows (entity.Location.LocCountryCode location')
                (entity.Location.LocCountryName location') (catalog st2)) as Hc.
  destruct (Country_FirstOrCreate _ _ (catalog st2)) as [country s3]. cbn [snd] in *.
  eapply frame_trans; [exact F2|].
  assert (frame st2 (mkState s3 (events st2))) as F3.
  { apply frame_same_rows; [exact Hc|by apply published_same_events]. }
  destruct (entity.Country.New country); [|exact F3].
  eapply frame_trans; [exact F3|].
  apply frame_same_rows; [apply same_rows_refl|by apply published_publish].
Qed.

Lemma readLocation_frame ind m o fileChanged labels photo st :
  frame st (snd (readLocation ind m o fileChanged labels photo st)).
Proof.
  unfold readLocation. destruct (_ || _); [|apply frame_refl].
  pose proof (indexLocation_frame ind m photo labels fileChanged o st) as F.
  by destruct (indexLocation ind m photo labels fileChanged o st) as [[[kw ll] p] st'].
Qed.

Lemma indexPrimary_frame ind m o fileChanged photo file st :
  frame st (a_state (indexPrimary ind m o fileChanged photo file st)).
Proof.
  unfold indexPrimary.
  destruct (classifyPrimary ind m o fileChanged photo) as [labels photo1].
  destruct (readMetaData m o fileChanged photo1 file) as [photo2 file2].
  pose proof (readCamera_frame m o fileChanged photo2 st) as F1.
  destruct (readCamera m o fileChanged photo2 st) as [photo3 st3]. cbn [snd] in F1.
  pose proof (readLocation_frame ind m o fileChanged labels photo3 st3) as F2.
  destruct (readLocation ind m o fileChanged labels photo3 st3) as [[[kw labels4] photo4] st4].
  cbn [snd a_state] in *. eapply frame_trans; eassumption.
Qed.

Lemma analyse_frame ind m o originalName q st :
  frame st (a_state (analyse ind m o originalName q st)).
Proof.
  unfold analyse. cbn [a_state].
  destruct (entity.File.FilePrimary _); [apply indexPrimary_frame|].
  destruct (MediaFile.IsXMP m); apply frame_refl.
Qed.

(** *** What the analyses keep of a photo *)

Lemma kept_refl p : kept p p.
Proof. unfold kept. intuition. Qed.

Lemma kept_trans p1 p2 p3 : kept p1 p2 -> kept p2 p3 -> kept p1 p3.
Proof.
  unfold kept.
  intros (I1 & U1 & (T1 & D1 & L1 & C1) & KT1 & KD1 & KL1 & KC1)
         (I2 & U2 & (T2 & D2 & L2 & C2) & KT2 & KD2 & KL2 & KC2).
  split; [congruence|]. split; [congruence|].
  split; [repeat split; congruence|].
  split; [|split; [|split]].
  - intros Hm Hn. rewrite <- (KT1 Hm Hn). apply KT2; [congruence|].
    rewrite (KT1 Hm Hn). exact Hn.
  - intros Hm Z1 Z2. destruct (KD1 Hm Z1 Z2) as (A & B & C).
    destruct KD2 as (A' & B' & C'); [congruence..|].
    repeat split; congruence.
  - intros Hm. destruct (KL1 Hm) as (A & B & C).
    destruct KL2 as (A' & B' & C'); [congruence|]. repeat split; congruence.
  - intros Hm. destruct (KC1 Hm) as (A & B & C & D & E & F).
    destruct KC2 as (A' & B' & C' & D' & E' & F'); [congruence|].
    repeat split; congruence.
Qed.

Create HintDb kept.

(** Closes [kept p p'] when [p'] is [p] with other fields assigned, or when
    a hypothesis contradicts the protection of the assigned field. *)
Ltac kept_fields :=
  unfold kept; repeat split; intros;
  solve [reflexivity | congruence | exfalso; intuition congruence].

Lemma kept_set_PhotoPath v p : kept p (entity.Photo.set_PhotoPath v p).
Proof. kept_fields. Qed.

Lemma kept_set_PhotoName v p : kept p (entity.Photo.set_PhotoName v p).
Proof. kept_fields. Qed.

Lemma kept_set_PhotoNSFW v p : kept p (entity.Photo.set_PhotoNSFW v p).
Proof. kept_fields. Qed.

Lemma kept_set_Description v p : kept p (entity.Photo.set_Description v p).
Proof. kept_fields. Qed.

Lemma kept_set_CameraSerial v p : kept p (entity.Photo.set_CameraSerial v p).
Proof. kept_fields. Qed.

Lemma kept_set_Location v p : kept p (entity.Photo.set_Location v p).
Proof. kept_fields. Qed.

Lemma kept_set_LocationID v p : kept p (entity.Photo.set_LocationID v p).
Proof. kept_fields. Qed.

Lemma kept_set_Place v p : kept p (entity.Photo.set_Place v p).
Proof. kept_fields. Qed.

Lemma kept_set_PlaceID v p : kept p (entity.Photo.set_PlaceID v p).
Proof. kept_fields. Qed.

Lemma kept_set_LocationEstimated v p : kept p (entity.Photo.set_LocationEstimated v p).
Proof. kept_fields. Qed.

Lemma kept_set_PhotoCountry v p : kept p (entity.Photo.set_PhotoCountry v p).
Proof. kept_fields. Qed.

Lemma kept_set_PhotoYear v p : kept p (entity.Photo.set_PhotoYear v p).
Proof. kept_fields. Qed.

Lemma kept_set_PhotoMonth v p : kept p (entity.Photo.set_PhotoMonth v p).
Proof. kept_fields. Qed.

Lemma kept_set_PhotoTitle v p :
  entity.Photo.ModifiedTitle p = false \/ entity.Photo.PhotoTitle p = "" ->
  kept p (entity.Photo.set_PhotoTitle v p).
Proof. intros [?|?]; kept_fields. Qed.

#[local] Hint Resolve kept_refl kept_set_PhotoPath kept_set_PhotoName kept_set_PhotoNSFW
  kept_set_Description kept_set_CameraSerial kept_set_Location kept_set_LocationID
  kept_set_Place kept_set_PlaceID kept_set_LocationEstimated kept_set_PhotoCountry
  kept_set_PhotoYear kept_set_PhotoMonth : kept.

(** Chains [kept] through a sequence of assignments. *)
Ltac kept_chain :=
  repeat first [ apply kept_refl
               | solve [auto with kept]
               | eapply kept_trans; [|solve [auto with kept]] ].

Lemma kept_mergeLocation metaData p : kept p (mergeLocation metaData p).
Proof.
  unfold mergeLocation. destruct (entity.Photo.ModifiedLocation p) eqn:E; cbn [negb].
  - apply kept_refl.
  - kept_fields.
Qed.

Lemma kept_mergeDate metaData p : kept p (mergeDate metaData p).
Proof.
  unfold mergeDate. destruct (entity.Photo.ModifiedDate p) eqn:E; cbn [negb].
  - apply kept_refl.
  - kept_fields.
Qed.

Lemma NoTitle_true p : entity.Photo.NoTitle p = true -> entity.Photo.PhotoTitle p = "".
Proof. unfold entity.Photo.NoTitle. by case_bool_decide. Qed.

Lemma kept_mergeTitle metaData p : kept p (mergeTitle metaData p).
Proof.
  unfold mergeTitle. destruct (entity.Photo.NoTitle p) eqn:E; [|apply kept_refl].
  apply kept_set_PhotoTitle. right. by apply NoTitle_true.
Qed.

Lemma kept_mergeCameraSerial metaData p : kept p (mergeCameraSerial metaData p).
Proof. unfold mergeCameraSerial. destruct (entity.Photo.NoCameraSerial p); auto with kept. Qed.

Lemma kept_mergeMetaData metaData p : kept p (mergeMetaData metaData p).
Proof.
  unfold mergeMetaData.
  eapply kept_trans; [|apply kept_mergeCameraSerial].
  eapply kept_trans; [|apply kept_set_Description].
  eapply kept_trans; [|apply kept_mergeTitle].
  eapply kept_trans; [apply kept_mergeLocation|apply kept_mergeDate].
Qed.

Lemma kept_classifyPrimary ind m o fileChanged p :
  kept p (snd (classifyPrimary ind m o fileChanged p)).
Proof. unfold classifyPrimary. destruct (_ && _); cbn [snd]; auto with kept. Qed.

Lemma kept_readMetaData m o fileChanged p file :
  kept p (fst (readMetaData m o fileChanged p file)).
Proof.
  unfold readMetaData. destruct (_ || _); [|apply kept_refl].
  destruct (MediaFile.MetaData m) as [metaData [e|]]; cbn [fst];
    [apply kept_refl|apply kept_mergeMetaData].
Qed.

Lemma kept_readCamera m o fileChanged p st :
  kept p (fst (readCamera m o fileChanged p st)).
Proof.
  unfold readCamera. destruct (entity.Photo.ModifiedCamera p) eqn:E; cbn [negb andb].
  - apply kept_refl.
  - destruct (_ || _); [|apply kept_refl]. unfold updateCamera.
    destruct (Camera_FirstOrCreate _ _ _) as [camera s1].
    destruct (Lens_FirstOrCreate _ _ _) as [lens s2]. cbn [fst]. kept_fields.
Qed.

Lemma kept_indexLocation ind m p labels fileChanged o st :
  kept p (snd (fst (indexLocation ind m p labels fileChanged o st))).
Proof.
  unfold indexLocation. destruct (MediaFile.Location m) as [location [e|]].
  { cbn [fst snd]. kept_chain. }
  destruct (Location_Find ind _ location _) as [location' [e|]].
  { cbn [fst snd]. kept_chain. }
  destruct (Country_FirstOrCreate _ _ _) as [country s3]. cbn [fst snd].
  eapply kept_trans; [|apply kept_set_PhotoCountry].
  match goal with |- kept p (if ?c then _ else ?q) =>
    assert (kept p q) as Hq by kept_chain; destruct c eqn:Ec; [|exact Hq] end.
  destruct (locationTitle _ _ _); [|exact Hq].
  eapply kept_trans; [exact Hq|]. apply kept_set_PhotoTitle. left.
  apply andb_prop in Ec as [_ Ec]. by apply negb_true_iff in Ec.
Qed.

Lemma kept_readLocation ind m o fileChanged labels p st :
  kept p (snd (fst (readLocation ind m o fileChanged labels p st))).
Proof.
  unfold readLocation. destruct (_ || _); [|apply kept_refl].
  pose proof (kept_indexLocation ind m p labels fileChanged o st) as K.
  by destruct (indexLocation ind m p labels fileChanged o st) as [[[kw ll] p'] st'].
Qed.

Lemma kept_synthTitle m fileChanged o labels p : kept p (synthTitle m fileChanged o labels p).
Proof.
  unfold synthTitle. destruct (entity.Photo.NoTitle p) eqn:EN; cbn [orb].
  - apply kept_set_PhotoTitle. right. by apply NoTitle_true.
  - destruct (entity.Photo.ModifiedTitle p) eqn:EM.
    + rewrite andb_false_r. apply kept_refl.
    + destruct (_ && _); [|apply kept_refl]. apply kept_set_PhotoTitle. by left.
Qed.

Lemma kept_defaultTakenAt m p : kept p (defaultTakenAt m p).
Proof.
  unfold defaultTakenAt. destruct (_ || _) eqn:E; [|apply kept_refl].
  apply orb_prop in E. kept_fields.
Qed.

Lemma kept_indexPrimary ind m o fileChanged p file st :
  kept p (a_photo (indexPrimary ind m o fileChanged p file st)).
Proof.
  unfold indexPrimary.
  pose proof (kept_classifyPrimary ind m o fileChanged p) as K1.
  destruct (classifyPrimary ind m o fileChanged p) as [labels p1].
  pose proof (kept_readMetaData m o fileChanged p1 file) as K2.
  destruct (readMetaData m o fileChanged p1 file) as [p2 file2].
  pose proof (kept_readCamera m o fileChanged p2 st) as K3.
  destruct (readCamera m o fileChanged p2 st) as [p3 st3].
  pose proof (kept_readLocation ind m o fileChanged labels p3 st3) as K4.
  destruct (readLocation ind m o fileChanged labels p3 st3) as [[[kw labels4] p4] st4].
  cbn [fst snd a_photo] in *.
  eapply kept_trans; [|apply kept_defaultTakenAt].
  eapply kept_trans; [|apply kept_synthTitle].
  repeat (eapply kept_trans; [|eassumption]). apply kept_refl.
Qed.

Lemma kept_indexXMP ind m p : kept p (indexXMP ind m p).
Proof.
  unfold indexXMP. destruct (meta_XMP ind _) as [data [e|]]; [apply kept_refl|].
  eapply kept_trans; [|apply kept_set_Description].
  destruct (_ && _) eqn:E; [|apply kept_refl].
  apply kept_set_PhotoTitle. left.
  apply andb_prop in E as [_ E]. by apply negb_true_iff in E.
Qed.

Lemma kept_yearMonth p : kept p (yearMonth p).
Proof. unfold yearMonth. kept_chain. Qed.

Lemma kept_photoKeywords m o fileChanged filePath fileBase file labels kw p :
  kept p (photoKeywords m o fileChanged filePath fileBase file labels kw p).
Proof. unfold photoKeywords. destruct (_ && _); auto with kept. Qed.

Lemma kept_estimateLocation s p : kept p (estimateLocation s p).
Proof.
  unfold estimateLocation. destruct (nearest _ _) as [r|]; [|apply kept_refl].
  destruct (entity.Photo.HasPlace r); [|apply kept_refl].
  destruct (entity.Photo.Place r); [|apply kept_refl]. kept_chain.
Qed.

Lemma kept_analyse ind m o originalName q st :
  kept (q_photo q) (a_photo (analyse ind m o originalName q st)).
Proof.
  unfold analyse. cbn [a_photo].
  eapply kept_trans; [|apply kept_photoKeywords].
  eapply kept_trans; [|apply kept_yearMonth].
  set (p0 := entity.Photo.set_PhotoName _ _).
  assert (kept (q_photo q) p0) as K0 by (subst p0; kept_chain).
  eapply kept_trans; [exact K0|].
  destruct (entity.File.FilePrimary _); [apply kept_indexPrimary|].
  destruct (MediaFile.IsXMP m); cbn [a_photo]; [apply kept_indexXMP|apply kept_refl].
Qed.

(** *** What the analyses keep of a file *)

Lemma file_kept_refl f : file_kept f f.
Proof. by repeat split. Qed.

Lemma file_kept_trans f1 f2 f3 : file_kept f1 f2 -> file_kept f2 f3 -> file_kept f1 f3.
Proof. intros (?&?&?) (?&?&?). repeat split; congruence. Qed.

Lemma file_kept_adoptUniqueID metaData f : file_kept f (adoptUniqueID metaData f).
Proof. unfold adoptUniqueID. by destruct (_ <? _). Qed.

Lemma file_kept_readMetaData m o fileChanged p f :
  file_kept f (snd (readMetaData m o fileChanged p f)).
Proof.
  unfold readMetaData. destruct (_ || _); [|apply file_kept_refl].
  destruct (MediaFile.MetaData m) as [metaData [e|]]; cbn [snd];
    [apply file_kept_refl|apply file_kept_adoptUniqueID].
Qed.

Lemma file_kept_fileFields m originalName fileName fileHash f :
  file_kept f (fileFields m originalName fileName fileHash f).
Proof.
  unfold fileFields. destruct (MediaFile.Stat m) as [fileSize fileModified].
  by destruct (negb _).
Qed.

Lemma file_kept_fileColors ind m o fileChanged f :
  file_kept f (fileColors ind m o fileChanged f).
Proof.
  unfold fileColors. destruct (_ && _); [|apply file_kept_refl].
  by destruct (MediaFile.Colors m _) as [p [e|]].
Qed.

Lemma file_kept_fileDimensions m o fileChanged f :
  file_kept f (fileDimensions m o fileChanged f).
Proof.
  unfold fileDimensions. destruct (_ && _); [|apply file_kept_refl].
  by destruct (_ && _).
Qed.

Lemma file_kept_indexPrimary ind m o fileChanged p f st :
  file_kept f (a_file (indexPrimary ind m o fileChanged p f st)).
Proof.
  unfold indexPrimary.
  destruct (classifyPrimary ind m o fileChanged p) as [labels p1].
  pose proof (file_kept_readMetaData m o fileChanged p1 f) as K.
  destruct (readMetaData m o fileChanged p1 f) as [p2 f2].
  destruct (readCamera m o fileChanged p2 st) as [p3 st3].
  by destruct (readLocation ind m o fileChanged labels p3 st3) as [[[kw labels4] p4] st4].
Qed.

(** The file at the end of the analysis is the elected file, with other fields
    assigned. *)
Lemma file_kept_analyse ind m o originalName q st :
  file_kept
    (electPrimary m (catalog st) (q_photo q) (q_photoExists q) (q_file q))
    (a_file (analyse ind m o originalName q st)).
Proof.
  unfold analyse. cbn [a_file].
  eapply file_kept_trans; [|apply file_kept_fileDimensions].
  eapply file_kept_trans; [|apply file_kept_fileColors].
  eapply file_kept_trans; [|apply file_kept_fileFields].
  replace (electPrimary m (catalog st) (q_photo q) (q_photoExists q) (q_file q))
    with (electPrimary m (catalog st)
            (entity.Photo.set_PhotoName (MediaFile.Base m)
               (entity.Photo.set_PhotoPath
                  (MediaFile.RelativePath m (originalsPath ind)) (q_photo q)))
            (q_photoExists q) (q_file q)) by reflexivity.
  destruct (entity.File.FilePrimary _); [apply file_kept_indexPrimary|].
  destruct (MediaFile.IsXMP m); apply file_kept_refl.
Qed.

Lemma electPrimary_ID m s p photoExists f :
  entity.File.ID (electPrimary m s p photoExists f) = entity.File.ID f.
Proof.
  unfold electPrimary. destruct (negb _); [|reflexivity].
  destruct photoExists; [|reflexivity]. by destruct (db.First _ _).
Qed.


(** The name that the analysis gives the file. *)
Lemma analyse_FileName ind m o originalName q st :
  entity.File.FileName (a_file (analyse ind m o originalName q st))
  = MediaFile.RelativeName m (originalsPath ind).
Proof.
  unfold analyse. cbn [a_file].
  unfold fileDimensions, fileColors, fileFields.
  destruct (MediaFile.Stat m) as [fileSize fileModified].
  destruct (MediaFile.IsJpeg m && _); [|].
  all: destruct (MediaFile.IsJpeg m && _); try destruct (_ && _);
    try destruct (MediaFile.Colors m _) as [pc [e|]]; reflexivity.
Qed.


(** *** Persistence *)

Lemma same_dates_estimateLocation s p : same_dates p (estimateLocation s p).
Proof.
  unfold estimateLocation. destruct (nearest _ _) as [r|]; [|by repeat split].
  destruct (entity.Photo.HasPlace r); [|by repeat split].
  by destruct (entity.Photo.Place r).
Qed.

(** What [persistPhoto] does: with an error, nothing; else the photo that
    exists is saved, with its protected fields kept, and the photo that does
    not exist is appended. *)
Lemma persistPhoto_spec ind o photoExists p st :
  let pp := persistPhoto ind o photoExists p st in
  let p' := snd (fst pp) in
  let st' := snd pp in
  db.files (catalog st') = db.files (catalog st)
  /\ db.photos_labels (catalog st') = db.photos_labels (catalog st)
  /\ published st st'
  /\ same_dates p p'
  /\ match fst (fst pp) with
     | Some _ => st' = st
     | None =>
         if photoExists
         then kept p p'
              /\ db.photos (catalog st') = db.SavePhotoRow p' (db.photos (catalog st))
         else db.photos (catalog st') = db.photos (catalog st) ++ [p']
     end.
Proof.
  unfold persistPhoto. destruct photoExists.
  - set (p1 := if _ && _ then _ else p).
    assert (kept p p1 /\ same_dates p p1) as [K D].
    { subst p1. destruct (_ && _).
      - split; [apply kept_estimateLocation|apply same_dates_estimateLocation].
      - split; [apply kept_refl|by repeat split]. }
    destruct (db_Error ind db.SavePhoto); cbn.
    + exact (conj eq_refl (conj eq_refl (conj (published_refl st) (conj D eq_refl)))).
    + refine (conj eq_refl (conj eq_refl (conj _ (conj D (conj K eq_refl))))).
      by apply published_same_events.
  - destruct (db_Error ind db.CreatePhoto); cbn.
    + repeat split. apply published_refl.
    + unfold db.CreatePhotoRow. cbn. repeat split.
      * eexists [_; _]. split.
        -- unfold entitiesCreated, event.EntitiesCreated, event.Publish. cbn.
           by rewrite <- app_assoc.
        -- repeat constructor; cbv; discriminate.
      * by case_bool_decide.
      * by case_bool_decide.
      * by case_bool_decide.
      * by case_bool_decide.
Qed.

Lemma persist_spec ind m o originalName q a :
  let pp := persistPhoto ind o (q_photoExists q) (a_photo a) (a_state a) in
  let p' := snd (fst pp) in
  let r := persist ind m o originalName q a in
  db.photos (catalog (snd r)) = db.photos (catalog (snd pp))
  /\ edges_le (db.photos_labels (catalog (a_state a)))
              (db.photos_labels (catalog (snd r)))
  /\ published (a_state a) (snd r)
  /\ match fst (fst pp) with
     | Some e =>
         fst r = failed e IndexResult.zero
         /\ db.files (catalog (snd r)) = db.files (catalog (a_state a))
     | None =>
         IndexResult.PhotoID (fst r) = entity.Photo.ID p'
         /\ IndexResult.PhotoUUID (fst r) = entity.Photo.PhotoUUID p'
         /\ file_written ind (q_fileExists q) (linkedFile p' (a_file a))
              (db.files (catalog (a_state a))) (db.files (catalog (snd r))) (fst r)
     end.
Proof.
  cbn zeta. unfold persist.
  pose proof (persistPhoto_spec ind o (q_photoExists q) (a_photo a) (a_state a))
    as (Hf & He & Hp & _ & Hm).
  destruct (persistPhoto ind o (q_photoExists q) (a_photo a) (a_state a))
    as [[[e|] p'] st1]; cbn [fst snd] in *.
  { subst st1. repeat split; auto using edges_le_refl. }
  clear Hm.
  set (st2 := match a_labels a with [] => st1 | _ :: _ => _ end).
  assert (frame st1 st2) as F2.
  { subst st2. destruct (a_labels a); [apply frame_refl|apply addLabels_frame]. }
  set (st3 := if _ && _ then _ else st2).
  assert (frame st1 st3) as F3.
  { subst st3. destruct (_ && _); [|exact F2].
    eapply frame_trans; [exact F2|].
    apply frame_same_rows; [by repeat split|by apply published_same_events]. }
  clearbody st3. clear st2 F2.
  destruct F3 as (Fp & Ff & Fe & Fpub).
  fold (linkedFile p' (a_file a)).
  set (f := linkedFile p' (a_file a)).
  assert (forall n i s0, db.photos (SetDownloadFileID ind n i s0) = db.photos s0
                      /\ db.files (SetDownloadFileID ind n i s0) = db.files s0
                      /\ db.photos_labels (SetDownloadFileID ind n i s0)
                         = db.photos_labels s0) as Hd.
  { intros. unfold SetDownloadFileID. by destruct (SetDownloadFileID_Error ind). }
  assert (published (a_state a) st3) as Hpub3 by eauto using published_trans.
  assert (edges_le (db.photos_labels (catalog (a_state a)))
                   (db.photos_labels (catalog st3))) as He3 by (by rewrite <- He).
  unfold persistFile, file_written.
  destruct (q_fileExists q).
  - destruct (db_Error ind db.SaveFile) as [e|]; cbn [fst snd].
    + split; [congruence|]. split; [exact He3|]. split; [exact Hpub3|].
      cbn. repeat split; congruence.
    + cbn [with_catalog catalog events].
      destruct (Hd (if negb (bool_decide (originalName = "")) then originalName
                    else MediaFile.RelativeName m (originalsPath ind))
                   (entity.File.ID (entity.File.set_UpdatedIn (time_Since ind) f))
                   (db.set_files
                      (db.SaveFileRow (entity.File.set_UpdatedIn (time_Since ind) f)
                         (db.files (catalog st3))) (catalog st3)))
        as (D1 & D2 & D3).
      split; [rewrite D1; cbn; congruence|]. split; [rewrite D3; exact He3|].
      split; [eapply published_trans; [exact Hpub3|]; by apply published_same_events|].
      split; [reflexivity|]. split; [reflexivity|]. cbv zeta.
      split; [reflexivity|]. split; [reflexivity|].
      split; [rewrite D2; cbn [db.files db.set_files]; congruence|].
      split; reflexivity.
  - assert (db.files (catalog st3) = db.files (catalog (a_state a))) as Hfiles
      by congruence.
    destruct (db_Error ind db.CreateFile) as [e|]; cbn [fst snd].
    + split; [congruence|]. split; [exact He3|]. split; [exact Hpub3|].
      cbn. repeat split; congruence.
    + unfold db.CreateFileRow. cbn [with_catalog catalog events fst snd].
      rewrite Hfiles.
      match goal with |- context [SetDownloadFileID ind ?n ?i ?s0] =>
        destruct (Hd n i s0) as (D1 & D2 & D3) end.
      split; [rewrite D1; cbn; congruence|]. split; [rewrite D3; exact He3|].
      split; [eapply published_trans; [exact Hpub3|]; by apply published_same_events|].
      split; [reflexivity|]. split; [reflexivity|]. cbv zeta.
      split; [reflexivity|]. split; [reflexivity|].
      split; [rewrite D2; reflexivity|].
      split; reflexivity.
Qed.

(** *** [MediaFile] as a whole *)

(** [MediaFile] on a file that is not nil: the event, then either the skip or
    the analysis and the persistence. *)
Lemma MediaFile_Some ind m o originalName st :
  exists msg,
    event.Name msg = "index.indexing"
    /\ event.field "fileHash" (event.Fields msg) = Some (event.VString "")
    /\ let st0 := mkState (catalog st) (events st ++ [msg]) in
       let q := lookup ind m (catalog st) in
       MediaFile ind (Some m) o originalName st
       = if skips o q
         then (IndexResult.set_Status IndexSkipped IndexResult.zero, st0)
         else persist ind m o originalName q (analyse ind m o originalName q st0).
Proof.
  unfold MediaFile, skips. destruct (MediaFile.Stat m) as [fileSize fileModified].
  eexists. split; [|split]; [| |reflexivity]; reflexivity.
Qed.

(** The status of a call that got past the skip. *)
Lemma persist_Status ind m o originalName q a :
  IndexResult.Status (fst (persist ind m o originalName q a)) <> IndexSkipped.
Proof.
  pose proof (persist_spec ind m o originalName q a) as (_ & _ & _ & Hm).
  cbn zeta in Hm.
  destruct (fst (fst (persistPhoto ind o (q_photoExists q) (a_photo a) (a_state a)))).
  - destruct Hm as [-> _]. discriminate.
  - destruct Hm as (_ & _ & Hw). unfold file_written in Hw.
    destruct (q_fileExists q).
    + destruct (db_Error ind db.SaveFile); destruct Hw as (-> & _); discriminate.
    + destruct (db_Error ind db.CreateFile); destruct Hw as (-> & _); discriminate.
Qed.

(** The state after a call that got past the skip. *)
Lemma MediaFile_frame ind m o originalName st :
  let st' := snd (MediaFile ind (Some m) o originalName st) in
  edges_le (db.photos_labels (catalog st)) (db.photos_labels (catalog st'))
  /\ exists msg rest,
       events st' = events st ++ msg :: rest
       /\ event.Name msg = "index.indexing"
       /\ event.field "fileHash" (event.Fields msg) = Some (event.VString "")
       /\ Forall other_topic rest.
Proof.
  cbn zeta. destruct (MediaFile_Some ind m o originalName st) as (msg & Hn & Hf & ->).
  cbn zeta. destruct (skips o _).
  { cbn [snd catalog events]. split; [apply edges_le_refl|].
    exists msg, []. by repeat split. }
  set (st0 := mkState (catalog st) (events st ++ [msg])).
  set (q := lookup ind m (catalog st)).
  pose proof (analyse_frame ind m o originalName q st0) as (_ & _ & Fe & (ev1 & E1 & F1)).
  pose proof (persist_spec ind m o originalName q (analyse ind m o originalName q st0))
    as (_ & Pe & (ev2 & E2 & F2) & _).
  cbn zeta in *. split; [eapply edges_le_trans; [exact Fe|exact Pe]|].
  exists msg, (ev1 ++ ev2). split; [|split; [exact Hn|split; [exact Hf|by apply Forall_app]]].
  rewrite E2, E1. subst st0. cbn [events]. by rewrite <- !app_assoc.
Qed.

(** Whether the file that was looked up has changed. *)
Lemma lookup_fileChanged ind m s :
  q_fileChanged (lookup ind m s)
  = if q_fileExists (lookup ind m s)
    then entity.File.Changed (q_file (lookup ind m s))
           (fst (MediaFile.Stat m)) (snd (MediaFile.Stat m))
    else true.
Proof.
  unfold lookup. destruct (MediaFile.Stat m) as [fileSize fileModified].
  destruct (lookupFile ind m s) as [[file fileHash] fileExists].
  destruct fileExists; cbn [negb]; by destruct (_ : option entity.Photo.t).
Qed.

Lemma electPrimary_spec m s photo photoExists file :
  entity.File.FilePrimary (electPrimary m s photo photoExists file) = true
  <-> (MediaFile.IsJpeg m = true /\ (photoExists = false \/ ~ hasPrimaryJpeg s photo))
      \/ entity.File.FilePrimary file = true.
Proof.
  unfold electPrimary, hasPrimaryJpeg.
  destruct (entity.File.FilePrimary file) eqn:Ef; cbn [negb]; [tauto|].
  destruct photoExists.
  - destruct (db.First _ _) as [r|] eqn:Eq; unfold db.First in Eq.
    + rewrite Ef. split; [discriminate|]. intros [[_ [C|C]]|C]; try discriminate.
      exfalso. apply C. apply find_some in Eq as [Hin Hc].
      apply andb_prop in Hc as [Hc Hd]. apply andb_prop in Hc as [Hc Hi].
      apply andb_prop in Hc as [Ht Hp].
      exists r. repeat split; auto.
      * by apply bool_decide_eq_true_1 in Ht.
      * by apply Z.eqb_eq.
      * by apply bool_decide_eq_true_1 in Hd.
    + cbn. split; [|intros [[? _]|?]; [done|discriminate]].
      intros Hj. left. split; [exact Hj|]. right. intros (r & Hin & Ht & Hp & Hi & Hd).
      pose proof (find_none _ _ Eq r Hin) as Hc. cbn beta in Hc.
      rewrite Hp, (bool_decide_eq_true_2 _ Ht), (bool_decide_eq_true_2 _ Hd) in Hc.
      apply Z.eqb_eq in Hi. rewrite Hi in Hc. discriminate.
  - cbn. split; [intros Hj; left; split; [exact Hj|by left]|].
    intros [[? _]|?]; [done|discriminate].
Qed.

(** The photo table after a call that found the photo: as it was, or with the
    analysed photo saved under the same id, its protected fields kept. *)
Lemma MediaFile_photo_saved ind m o originalName st :
  let q := lookup ind m (catalog st) in
  let photos' := db.photos (catalog (snd (MediaFile ind (Some m) o originalName st))) in
  q_photoExists q = true ->
  photos' = db.photos (catalog st)
  \/ exists p', photos' = db.SavePhotoRow p' (db.photos (catalog st))
                /\ kept (q_photo q) p'.
Proof.
  cbn zeta. intros Hex.
  destruct (MediaFile_Some ind m o originalName st) as (msg & _ & _ & ->).
  cbn zeta. set (q := lookup ind m (catalog st)) in *. destruct (skips o q); [by left|].
  set (st0 := mkState (catalog st) (events st ++ [msg])).
  set (a := analyse ind m o originalName q st0).
  pose proof (analyse_frame ind m o originalName q st0) as (Fp & _).
  pose proof (kept_analyse ind m o originalName q st0) as Ka.
  fold a in Fp, Ka. cbn [catalog st0] in Fp.
  pose proof (persistPhoto_spec ind o (q_photoExists q) (a_photo a) (a_state a))
    as (_ & _ & _ & _ & Hp).
  pose proof (persist_spec ind m o originalName q a) as (-> & _).
  cbn zeta in Hp.
  destruct (persistPhoto ind o (q_photoExists q) (a_photo a) (a_state a))
    as [[[e|] p'] st1]; cbn [fst snd] in *.
  - subst st1. by left.
  - rewrite Hex in Hp. destruct Hp as [Kp ->]. right. exists p'. rewrite Fp. split; [reflexivity|].
    eapply kept_trans; eassumption.
Qed.


(** The lookup of a file that is found by its hash only, and whose photo
    exists. *)
Lemma lookup_by_hash ind m s f p :
  MediaFile.IsSidecar m = false ->
  db.First (fun r => bool_decide (entity.File.FileName r
                                  = MediaFile.RelativeName m (originalsPath ind)))
           (db.files s) = None ->
  db.First (fun r => bool_decide (entity.File.FileHash r = MediaFile.Hash m))
           (db.files s) = Some f ->
  db.First (fun r => entity.Photo.ID r =? entity.File.PhotoID f) (db.photos s) = Some p ->
  lookup ind m s
  = mkLookup f (MediaFile.Hash m) true p true
      (entity.File.Changed f (fst (MediaFile.Stat m)) (snd (MediaFile.Stat m))).
Proof.
  intros Hs Hn Hh Hp. unfold lookup, lookupFile.
  destruct (MediaFile.Stat m) as [fileSize fileModified].
  rewrite Hn, Hs. cbn [negb]. rewrite Hh. cbn [negb]. by rewrite Hp.
Qed.

Lemma same_dates_dated m p p' :
  same_dates p p' -> (dated p -> dated p') /\ (taken m p -> taken m p').
Proof.
  unfold dated, taken. intros (E1 & E2 & E3 & E4). rewrite E1, E2, E3, E4. tauto.
Qed.

Lemma taken_defaultTakenAt m p : taken m (defaultTakenAt m p).
Proof.
  unfold defaultTakenAt, taken. destruct (_ || _) eqn:E.
  - right. by split.
  - left. by apply orb_false_elim in E.
Qed.

Lemma same_dates_photoKeywords m o fileChanged filePath fileBase file labels kw p :
  same_dates p (photoKeywords m o fileChanged filePath fileBase file labels kw p).
Proof. unfold photoKeywords. by destruct (_ && _). Qed.

Lemma analyse_dated ind m o originalName q st :
  dated (a_photo (analyse ind m o originalName q st))
  /\ (elected m (catalog st) q -> taken m (a_photo (analyse ind m o originalName q st))).
Proof.
  unfold analyse. cbn [a_photo].
  match goal with |- context [photoKeywords ?a1 ?a2 ?a3 ?a4 ?a5 ?a6 ?a7 ?a8 ?p0] =>
    pose proof (same_dates_dated m p0 _
                  (same_dates_photoKeywords a1 a2 a3 a4 a5 a6 a7 a8 p0)) as [Hd Ht]
  end.
  split; [apply Hd; by split|].
  intros He. apply Ht. apply electPrimary_spec in He.
  replace (electPrimary m (catalog st) (q_photo q) (q_photoExists q) (q_file q))
    with (electPrimary m (catalog st)
            (entity.Photo.set_PhotoName (MediaFile.Base m)
               (entity.Photo.set_PhotoPath
                  (MediaFile.RelativePath m (originalsPath ind)) (q_photo q)))
            (q_photoExists q) (q_file q)) in He by reflexivity.
  rewrite He. unfold indexPrimary.
  destruct (classifyPrimary _ _ _ _ _) as [labels p1].
  destruct (readMetaData _ _ _ _ _) as [p2 f2].
  destruct (readCamera _ _ _ _ _) as [p3 st3].
  destruct (readLocation _ _ _ _ _ _ _) as [[[kw labels4] p4] st4].
  cbn [a_photo]. exact (taken_defaultTakenAt m _).
Qed.

(** *** The times of the photo *)

Lemma same_times_refl p : same_times p p.
Proof. by split. Qed.

Lemma same_times_trans p1 p2 p3 :
  same_times p1 p2 -> same_times p2 p3 -> same_times p1 p3.
Proof. intros [A1 A2] [B1 B2]. exact (conj (eq_trans B1 A1) (eq_trans B2 A2)). Qed.

Lemma same_times_classifyPrimary ind m o fileChanged p :
  same_times p (snd (classifyPrimary ind m o fileChanged p)).
Proof. unfold classifyPrimary. by destruct (_ && _). Qed.

Lemma same_times_mergeLocation metaData p : same_times p (mergeLocation metaData p).
Proof. unfold mergeLocation. by destruct (negb _). Qed.

Lemma same_times_mergeTitle metaData p : same_times p (mergeTitle metaData p).
Proof. unfold mergeTitle. by destruct (entity.Photo.NoTitle p). Qed.

Lemma same_times_mergeCameraSerial metaData p :
  same_times p (mergeCameraSerial metaData p).
Proof. unfold mergeCameraSerial. by destruct (entity.Photo.NoCameraSerial p). Qed.

Lemma times_mergeMetaData metaData p :
  times (mergeMetaData metaData p)
  = if negb (entity.Photo.ModifiedDate p)
    then (meta.TakenAt metaData, meta.TakenAtLocal metaData) else times p.
Proof.
  unfold mergeMetaData.
  rewrite (proj1 (same_times_mergeCameraSerial metaData _)).
  change (times (entity.Photo.set_Description ?d ?p0)) with (times p0).
  rewrite (proj1 (same_times_mergeTitle metaData _)).
  destruct (same_times_mergeLocation metaData p) as [Ht Hm].
  unfold mergeDate. rewrite Hm. destruct (negb _); [reflexivity|exact Ht].
Qed.

Lemma times_readMetaData m o fileChanged p file :
  times (fst (readMetaData m o fileChanged p file))
  = if fileChanged || UpdateExif o then
      match MediaFile.MetaData m with
      | (metaData, None) =>
          if negb (entity.Photo.ModifiedDate p)
          then (meta.TakenAt metaData, meta.TakenAtLocal metaData) else times p
      | (_, Some _) => times p
      end
    else times p.
Proof.
  unfold readMetaData. destruct (_ || _); [|reflexivity].
  destruct (MediaFile.MetaData m) as [metaData [e|]]; [reflexivity|].
  apply times_mergeMetaData.
Qed.

Lemma times_readCamera m o fileChanged p st :
  times (fst (readCamera m o fileChanged p st)) = times p.
Proof.
  unfold readCamera. destruct (_ && _); [|reflexivity].
  unfold updateCamera.
  destruct (Camera_FirstOrCreate _ _ _) as [camera s1].
  by destruct (Lens_FirstOrCreate _ _ _) as [lens s2].
Qed.

Lemma times_indexLocation ind m p labels fileChanged o st :
  times (snd (fst (indexLocation ind m p labels fileChanged o st))) = times p.
Proof.
  unfold indexLocation. destruct (MediaFile.Location m) as [location [e|]];
    [reflexivity|].
  destruct (Location_Find ind _ location _) as [location' [e|]]; [reflexivity|].
  cbv zeta. destruct (Country_FirstOrCreate _ _ _) as [country s3]. cbn [fst snd].
  change (times (entity.Photo.set_PhotoCountry ?c ?p0)) with (times p0).
  destruct (_ && _); [|reflexivity]. by destruct (locationTitle _ _ _).
Qed.

Lemma times_readLocation ind m o fileChanged labels p st :
  times (snd (fst (readLocation ind m o fileChanged labels p st))) = times p.
Proof.
  unfold readLocation. destruct (_ || _); [|reflexivity].
  pose proof (times_indexLocation ind m p labels fileChanged o st) as E.
  by destruct (indexLocation ind m p labels fileChanged o st) as [[[kw ll] p'] st'].
Qed.

Lemma times_synthTitle m fileChanged o labels p :
  times (synthTitle m fileChanged o labels p) = times p.
Proof. unfold synthTitle. by destruct (_ || _). Qed.

Lemma times_defaultTakenAt m p :
  times (defaultTakenAt m p)
  = if time.IsZero (fst (times p)) || time.IsZero (snd (times p))
    then (MediaFile.DateCreated m, MediaFile.DateCreated m) else times p.
Proof. unfold defaultTakenAt, times. cbn [fst snd]. by destruct (_ || _). Qed.

Lemma times_indexXMP ind m p : times (indexXMP ind m p) = times p.
Proof.
  unfold indexXMP. destruct (meta_XMP ind _) as [data [e|]]; [reflexivity|].
  change (times (entity.Photo.set_Description ?d ?p0)) with (times p0).
  by destruct (_ && _).
Qed.

Lemma times_indexPrimary ind m o fileChanged p file st :
  times (a_photo (indexPrimary ind m o fileChanged p file st))
  = let t :=
      if fileChanged || UpdateExif o then
        match MediaFile.MetaData m with
        | (metaData, None) =>
            if negb (entity.Photo.ModifiedDate p)
            then (meta.TakenAt metaData, meta.TakenAtLocal metaData) else times p
        | (_, Some _) => times p
        end
      else times p in
    if time.IsZero (fst t) || time.IsZero (snd t)
    then (MediaFile.DateCreated m, MediaFile.DateCreated m) else t.
Proof.
  cbv zeta. unfold indexPrimary.
  destruct (same_times_classifyPrimary ind m o fileChanged p) as [E1 F1].
  destruct (classifyPrimary ind m o fileChanged p) as [labels p1]. cbn [snd] in E1, F1.
  pose proof (times_readMetaData m o fileChanged p1 file) as E2.
  destruct (readMetaData m o fileChanged p1 file) as [p2 f2]. cbn [fst] in E2.
  pose proof (times_readCamera m o fileChanged p2 st) as E3.
  destruct (readCamera m o fileChanged p2 st) as [p3 st3]. cbn [fst] in E3.
  pose proof (times_readLocation ind m o fileChanged labels p3 st3) as E4.
  destruct (readLocation ind m o fileChanged labels p3 st3) as [[[kw labels4] p4] st4].
  cbn [fst snd] in E4. cbn [a_photo].
  rewrite times_defaultTakenAt, times_synthTitle, E4, E3, E2, E1, F1. reflexivity.
Qed.

(** The times of the photo at the end of the analysis. *)
Lemma times_analyse ind m o originalName q st :
  (elected m (catalog st) q ->
   times (a_photo (analyse ind m o originalName q st)) = primaryTimes m o q)
  /\ (~ elected m (catalog st) q ->
      times (a_photo (analyse ind m o originalName q st)) = times (q_photo q)).
Proof.
  assert (forall a1 a2 a3 a4 a5 a6 a7 a8 p,
            times (photoKeywords a1 a2 a3 a4 a5 a6 a7 a8 (yearMonth p)) = times p) as Hk.
  { intros. unfold photoKeywords. by destruct (_ && _). }
  unfold analyse. cbn [a_photo]. rewrite Hk.
  change (electPrimary m (catalog st) _ (q_photoExists q) (q_file q))
    with (electPrimary m (catalog st) (q_photo q) (q_photoExists q) (q_file q)).
  pose proof (electPrimary_spec m (catalog st) (q_photo q) (q_photoExists q) (q_file q))
    as He.
  fold (elected m (catalog st) q) in He.
  destruct (entity.File.FilePrimary _).
  - split; [intros _|intros C; exfalso; apply C; by apply He].
    rewrite times_indexPrimary. reflexivity.
  - split; [intros C; apply He in C; discriminate|intros _].
    destruct (MediaFile.IsXMP m); cbn [a_photo]; [rewrite times_indexXMP|]; reflexivity.
Qed.

(** *** The claims *)

(** C1. For a photo that exists, the indexer leaves the title alone
    when [ModifiedTitle] is set and the title is not empty, the taken-at
    triple when [ModifiedDate] is set and both times are set, latitude,
    longitude and altitude when [ModifiedLocation] is set, and camera, lens,
    focal length, F-number, ISO and exposure when [ModifiedCamera] is set: the
    photo table is as it was, or the photo is saved under its id with these
    fields as they were. *)
Theorem C1_sticky_user_edits ind m o originalName st :
  let q := lookup ind m (catalog st) in
  let p := q_photo q in
  let photos' := db.photos (catalog (snd (MediaFile ind (Some m) o originalName st))) in
  q_photoExists q = true ->
  photos' = db.photos (catalog st)
  \/ exists p',
       photos' = db.SavePhotoRow p' (db.photos (catalog st))
       /\ entity.Photo.ID p' = entity.Photo.ID p
       /\ (entity.Photo.ModifiedTitle p = true -> entity.Photo.PhotoTitle p <> "" ->
           entity.Photo.PhotoTitle p' = entity.Photo.PhotoTitle p)
       /\ (entity.Photo.ModifiedDate p = true ->
           time.IsZero (entity.Photo.TakenAt p) = false ->
           time.IsZero (entity.Photo.TakenAtLocal p) = false ->
           entity.Photo.TakenAt p' = entity.Photo.TakenAt p
           /\ entity.Photo.TakenAtLocal p' = entity.Photo.TakenAtLocal p
           /\ entity.Photo.TimeZone p' = entity.Photo.TimeZone p)
       /\ (entity.Photo.ModifiedLocation p = true ->
           entity.Photo.PhotoLat p' = entity.Photo.PhotoLat p
           /\ entity.Photo.PhotoLng p' = entity.Photo.PhotoLng p
           /\ entity.Photo.PhotoAltitude p' = entity.Photo.PhotoAltitude p)
       /\ (entity.Photo.ModifiedCamera p = true ->
           entity.Photo.Camera p' = entity.Photo.Camera p
           /\ entity.Photo.Lens p' = entity.Photo.Lens p
           /\ entity.Photo.PhotoFocalLength p' = entity.Photo.PhotoFocalLength p
           /\ entity.Photo.PhotoFNumber p' = entity.Photo.PhotoFNumber p
           /\ entity.Photo.PhotoIso p' = entity.Photo.PhotoIso p
           /\ entity.Photo.PhotoExposure p' = entity.Photo.PhotoExposure p).
Proof.
  cbn zeta. intros Hex.
  destruct (MediaFile_photo_saved ind m o originalName st Hex) as [E|(p' & E & K)];
    [by left|right].
  exists p'. destruct K as (KI & _ & _ & KT & KD & KL & KC).
  exact (conj E (conj KI (conj KT (conj KD (conj KL KC))))).
Qed.

(** C2. [classifyImage] sorts the concatenated labels, skips the
    leading labels of confidence 0, and returns exactly the remaining labels
    whose confidence is strictly above a third (integer division) of the
    confidence of the first remaining label; for the labels "cat"
    (uncertainty 20) and "dog" (uncertainty 90) of priority 0, only "cat" is
    returned. *)
Theorem C2_classifyImage_retains ind jpeg :
  let sorted := classify.Sort (imageLabels ind jpeg) in
  classifyImage ind jpeg
  = match skipZero sorted with
    | [] => []
    | first :: _ =>
        List.filter (fun label => int_div (confidence_of first) 3 <? confidence_of label)
                    (skipZero sorted)
    end
  /\ (forall source categories,
        imageLabels ind jpeg
        = [classify.mkLabel "cat" source 20 0 categories;
           classify.mkLabel "dog" source 90 0 categories] ->
        classifyImage ind jpeg = [classify.mkLabel "cat" source 20 0 categories]).
Proof.
  cbn zeta. unfold classifyImage. split; [apply retain_zero|].
  intros source categories ->. reflexivity.
Qed.

(** C3. A file that is not a sidecar, whose name matches no file
    row and whose hash matches the row [f] of the existing photo [p], is
    attached to [p] when the call is not skipped (the stored size or time
    differs, or [SkipUnchanged] is unset) and the photo can be saved: the result
    carries the id and the unchanged UUID of [p], the photo is saved under
    its id with its UUID, and, when the file can be saved, the row [f] is
    saved with the new name and the ids of [p], with the status "updated". *)
Theorem C3_dedup_by_hash ind m o originalName st f p :
  let r := MediaFile ind (Some m) o originalName st in
  MediaFile.IsSidecar m = false ->
  db.First (fun r => bool_decide (entity.File.FileName r
                                  = MediaFile.RelativeName m (originalsPath ind)))
           (db.files (catalog st)) = None ->
  db.First (fun r => bool_decide (entity.File.FileHash r = MediaFile.Hash m))
           (db.files (catalog st)) = Some f ->
  db.First (fun r => entity.Photo.ID r =? entity.File.PhotoID f)
           (db.photos (catalog st)) = Some p ->
  entity.File.Changed f (fst (MediaFile.Stat m)) (snd (MediaFile.Stat m)) = true
  \/ SkipUnchanged o = false ->
  db_Error ind db.SavePhoto = None ->
  IndexResult.PhotoUUID (fst r) = entity.Photo.PhotoUUID p
  /\ IndexResult.PhotoID (fst r) = entity.Photo.ID p
  /\ (exists p', db.photos (catalog (snd r)) = db.SavePhotoRow p' (db.photos (catalog st))
                 /\ entity.Photo.ID p' = entity.Photo.ID p
                 /\ entity.Photo.PhotoUUID p' = entity.Photo.PhotoUUID p)
  /\ (db_Error ind db.SaveFile = None ->
      IndexResult.Status (fst r) = IndexUpdated
      /\ exists f', db.files (catalog (snd r)) = db.SaveFileRow f' (db.files (catalog st))
                    /\ entity.File.ID f' = entity.File.ID f
                    /\ entity.File.PhotoID f' = entity.Photo.ID p
                    /\ entity.File.PhotoUUID f' = entity.Photo.PhotoUUID p
                    /\ entity.File.FileName f'
                       = MediaFile.RelativeName m (originalsPath ind)).
Proof.
  cbn zeta. intros Hs Hn Hh Hp Hskip Herr.
  pose proof (lookup_by_hash ind m (catalog st) f p Hs Hn Hh Hp) as Hq.
  destruct (MediaFile_Some ind m o originalName st) as (msg & _ & _ & ->).
  cbn zeta. rewrite Hq. unfold skips. cbn [q_fileChanged q_photoExists].
  replace (negb _ && true && SkipUnchanged o) with false
    by (destruct Hskip as [->| ->]; cbn; by rewrite ?andb_false_r).
  set (q := mkLookup _ _ _ _ _ _) in *.
  set (st0 := mkState (catalog st) (events st ++ [msg])).
  set (a := analyse ind m o originalName q st0).
  pose proof (analyse_frame ind m o originalName q st0) as (Fp & Ff & _).
  pose proof (kept_analyse ind m o originalName q st0) as Ka.
  pose proof (file_kept_analyse ind m o originalName q st0) as (Fid & _).
  pose proof (analyse_FileName ind m o originalName q st0) as Fn.
  fold a in Fp, Ff, Ka, Fid, Fn. cbn [catalog st0 q_photo q_file q] in Fp, Ff, Ka, Fid.
  rewrite electPrimary_ID in Fid.
  pose proof (persistPhoto_spec ind o (q_photoExists q) (a_photo a) (a_state a))
    as (_ & _ & _ & _ & Hpp).
  pose proof (persist_spec ind m o originalName q a) as (Hphotos & _ & _ & Hm).
  cbn zeta in Hpp, Hm. rewrite Hphotos.
  unfold persistPhoto in Hpp, Hm |- *. cbn [q_photoExists q] in Hpp, Hm |- *.
  rewrite Herr in Hpp, Hm |- *. cbn [fst snd] in Hpp, Hm |- *.
  set (p' := if _ && _ then _ else a_photo a) in *.
  destruct Hpp as [Kp Hsave]. destruct Hm as (Hid & Huuid & Hw).
  assert (kept p p') as K by (eapply kept_trans; eassumption).
  destruct K as (KI & KU & _).
  split; [congruence|]. split; [congruence|]. split.
  - exists p'. rewrite Hsave, Fp. by repeat split.
  - intros Hsf. unfold file_written in Hw. cbn [q_fileExists q] in Hw.
    rewrite Hsf, Ff in Hw. destruct Hw as (Hst & _ & Hfiles & _).
    split; [exact Hst|]. eexists. split; [exact Hfiles|].
    exact (conj Fid (conj KI (conj KU Fn))).
Qed.

(** C4. When the file that was looked up has the size and the modification
    time of the stat, its photo exists and [SkipUnchanged] is set,
    [MediaFile] returns the status "skipped", leaves the catalog as it was,
    and publishes the "index.indexing" event and nothing else. *)
Theorem C4_skip_unchanged ind m o originalName st :
  let q := lookup ind m (catalog st) in
  let r := MediaFile ind (Some m) o originalName st in
  q_fileExists q = true ->
  entity.File.FileSize (q_file q) = fst (MediaFile.Stat m) ->
  entity.File.FileModified (q_file q) = snd (MediaFile.Stat m) ->
  q_photoExists q = true ->
  SkipUnchanged o = true ->
  IndexResult.Status (fst r) = IndexSkipped
  /\ catalog (snd r) = catalog st
  /\ exists msg, events (snd r) = events st ++ [msg]
                 /\ event.Name msg = "index.indexing".
Proof.
  cbn zeta. intros He Hs Hm Hp Ho.
  destruct (MediaFile_Some ind m o originalName st) as (msg & Hn & _ & ->).
  cbn zeta. unfold skips. rewrite lookup_fileChanged, He, Hp, Ho.
  unfold entity.File.Changed. rewrite Hs, Hm, !bool_decide_eq_true_2 by reflexivity.
  cbn. repeat split. by exists msg.
Qed.

(** C5. In [MediaFile], [file.FilePrimary] ends up true exactly when the file
    is a JPEG and the photo does not exist or has no JPEG row that is primary
    (and not deleted), or when the row that was looked up was primary already:
    for the file at the end of the analysis, and for the row that is
    written. *)
Theorem C5_primary_file_election ind m o originalName st :
  let q := lookup ind m (catalog st) in
  (entity.File.FilePrimary (a_file (analyse ind m o originalName q st)) = true
   <-> elected m (catalog st) q)
  /\ written db.SaveFileRow (db.files (catalog st))
       (db.files (catalog (snd (MediaFile ind (Some m) o originalName st))))
       (fun file => entity.File.FilePrimary file = true <-> elected m (catalog st) q).
Proof.
  cbn zeta. set (q := lookup ind m (catalog st)).
  assert (forall st0, catalog st0 = catalog st ->
            entity.File.FilePrimary (a_file (analyse ind m o originalName q st0)) = true
            <-> elected m (catalog st) q) as HA.
  { intros st0 E0.
    destruct (file_kept_analyse ind m o originalName q st0) as (_ & -> & _).
    rewrite E0. apply electPrimary_spec. }
  split; [by apply HA|].
  destruct (MediaFile_Some ind m o originalName st) as (msg & _ & _ & ->).
  cbn zeta. fold q. destruct (skips o q); [by left|].
  set (st0 := mkState (catalog st) (events st ++ [msg])).
  set (a := analyse ind m o originalName q st0).
  pose proof (analyse_frame ind m o originalName q st0) as (_ & Ff & _).
  fold a in Ff. cbn [catalog st0] in Ff.
  pose proof (persistPhoto_spec ind o (q_photoExists q) (a_photo a) (a_state a))
    as (_ & _ & _ & _ & _).
  pose proof (persist_spec ind m o originalName q a) as (_ & _ & _ & Hm).
  cbn zeta in Hm.
  destruct (fst (fst (persistPhoto ind o (q_photoExists q) (a_photo a) (a_state a)))).
  { destruct Hm as [_ ->]. left. exact Ff. }
  destruct Hm as (_ & _ & Hw). unfold file_written in Hw. rewrite Ff in Hw.
  specialize (HA st0 eq_refl). fold a in HA.
  destruct (q_fileExists q).
  - destruct (db_Error ind db.SaveFile).
    + destruct Hw as (_ & _ & ->). by left.
    + destruct Hw as (_ & _ & -> & _). right. eexists. split; [by left|]. exact HA.
  - destruct (db_Error ind db.CreateFile).
    + destruct Hw as (_ & _ & ->). by left.
    + destruct Hw as (_ & _ & -> & _). right. eexists. split; [by right|].
      unfold db.CreateFileRow. cbn [fst]. case_bool_decide; exact HA.
Qed.

(** C6. In [addLabels], the uncertainty and the source of an edge that exists
    are overwritten only when the stored uncertainty is strictly greater than
    the incoming one, and they are then (unless the save fails) the incoming
    ones; after an iteration the edge of the label has at most the incoming
    uncertainty; hence no edge is lost and no uncertainty grows, in
    [addLabels] and in [MediaFile]. *)
Theorem C6_confidence_wins ind photoId st :
  let e := db.photos_labels (catalog st) in
  (forall label k u src,
     let e' := db.photos_labels (catalog (addLabel ind photoId label st)) in
     e !! k = Some (u, src) ->
     (e' !! k = Some (u, src)
      \/ (classify.Uncertainty label < u /\ k = (photoId, labelId ind label (catalog st))
          /\ e' !! k = Some (classify.Uncertainty label, classify.Source label)))
     /\ (k = (photoId, labelId ind label (catalog st)) ->
         classify.Uncertainty label < u -> db_Error ind db.SavePhotoLabel = None ->
         e' !! k = Some (classify.Uncertainty label, classify.Source label)))
  /\ (forall label,
        db_Error ind db.SavePhotoLabel = None ->
        exists u' src',
          db.photos_labels (catalog (addLabel ind photoId label st))
            !! (photoId, labelId ind label (catalog st)) = Some (u', src')
          /\ u' <= classify.Uncertainty label)
  /\ (forall labels k u src,
        e !! k = Some (u, src) ->
        exists u' src',
          db.photos_labels (catalog (addLabels ind photoId labels st)) !! k
          = Some (u', src') /\ u' <= u)
  /\ (forall m o originalName k u src,
        e !! k = Some (u, src) ->
        exists u' src',
          db.photos_labels (catalog (snd (MediaFile ind m o originalName st))) !! k
          = Some (u', src') /\ u' <= u).
Proof.
  cbn zeta. split; [|split; [|split]].
  - intros label k u src Hk. rewrite addLabel_edges. fold (labelId ind label (catalog st)).
    unfold linked. set (k0 := (photoId, labelId ind label (catalog st))).
    destruct (decide (k = k0)) as [->|Hne].
    + rewrite Hk. destruct (Z.ltb_spec (classify.Uncertainty label) u) as [Hlt|Hge].
      * destruct (db_Error ind db.SavePhotoLabel) as [err|].
        -- split; [by left|]. intros _ _ ?. discriminate.
        -- rewrite lookup_insert_eq. split; [right|]; by repeat split.
      * split; [by left|]. intros _ ?. lia.
    + split; [left|intros ?; contradiction].
      destruct (_ !! k0) as [[u0 src0]|].
      * destruct (_ <? _); [|exact Hk].
        destruct (db_Error ind db.SavePhotoLabel); [exact Hk|].
        by rewrite lookup_insert_ne.
      * by rewrite lookup_insert_ne.
  - intros label Herr. rewrite addLabel_edges. fold (labelId ind label (catalog st)).
    unfold linked. set (k0 := (photoId, labelId ind label (catalog st))).
    destruct (db.photos_labels (catalog st) !! k0) as [[u0 src0]|] eqn:E0.
    + destruct (Z.ltb_spec (classify.Uncertainty label) u0) as [Hlt|Hge].
      * rewrite Herr, lookup_insert_eq. eexists _, _. split; [reflexivity|lia].
      * exists u0, src0. split; [exact E0|lia].
    + rewrite lookup_insert_eq. eexists _, _. split; [reflexivity|lia].
  - intros labels k u src Hk.
    destruct (addLabels_frame ind photoId labels st) as (_ & _ & Fe & _).
    exact (Fe k u src Hk).
  - intros m o originalName k u src Hk. destruct m as [m|].
    + destruct (MediaFile_frame ind m o originalName st) as [Fe _].
      exact (Fe k u src Hk).
    + exists u, src. split; [exact Hk|lia].
Qed.


(** C8. A call of [MediaFile] that is not skipped and whose photo can be
    written saves the photo row, or creates it, and the row that is written
    has the year and the month of its [TakenAt]. When the file is the primary
    file, [TakenAt] and [TakenAtLocal] are the times of the metadata or of the
    looked-up photo, replaced both by the creation date of the file when one
    of them is unset: both are set, or both are the creation date. When the
    file is not primary, the times are those of the looked-up photo, with no
    such replacement. *)
Theorem C8_year_month_of_TakenAt ind m o originalName st :
  let q := lookup ind m (catalog st) in
  let photos' := db.photos (catalog (snd (MediaFile ind (Some m) o originalName st))) in
  skips o q = false ->
  db_Error ind (if q_photoExists q then db.SavePhoto else db.CreatePhoto) = None ->
  exists p',
    (if q_photoExists q
     then photos' = db.SavePhotoRow p' (db.photos (catalog st))
     else photos' = db.photos (catalog st) ++ [p'])
    /\ entity.Photo.PhotoYear p' = time.Year (entity.Photo.TakenAt p')
    /\ entity.Photo.PhotoMonth p' = time.Month (entity.Photo.TakenAt p')
    /\ (elected m (catalog st) q ->
        (entity.Photo.TakenAt p', entity.Photo.TakenAtLocal p') = primaryTimes m o q
        /\ ((time.IsZero (entity.Photo.TakenAt p') = false
             /\ time.IsZero (entity.Photo.TakenAtLocal p') = false)
            \/ (entity.Photo.TakenAt p' = MediaFile.DateCreated m
                /\ entity.Photo.TakenAtLocal p' = MediaFile.DateCreated m)))
    /\ (~ elected m (catalog st) q ->
        entity.Photo.TakenAt p' = entity.Photo.TakenAt (q_photo q)
        /\ entity.Photo.TakenAtLocal p' = entity.Photo.TakenAtLocal (q_photo q)).
Proof.
  cbn zeta. intros Hk Hok.
  destruct (MediaFile_Some ind m o originalName st) as (msg & _ & _ & ->).
  cbn zeta. set (q := lookup ind m (catalog st)) in *. rewrite Hk.
  set (st0 := mkState (catalog st) (events st ++ [msg])).
  set (a := analyse ind m o originalName q st0).
  pose proof (analyse_frame ind m o originalName q st0) as (Fp & _).
  pose proof (analyse_dated ind m o originalName q st0) as [Hd Ht].
  pose proof (times_analyse ind m o originalName q st0) as [Te Tn].
  fold a in Fp, Hd, Ht, Te, Tn. cbn [catalog st0] in Fp, Ht, Te, Tn.
  pose proof (persistPhoto_spec ind o (q_photoExists q) (a_photo a) (a_state a))
    as (_ & _ & _ & Hs & Hp).
  pose proof (persist_spec ind m o originalName q a) as (-> & _).
  cbn zeta in Hs, Hp.
  assert (fst (fst (persistPhoto ind o (q_photoExists q) (a_photo a) (a_state a))) = None)
    as Hnone.
  { unfold persistPhoto. destruct (q_photoExists q); rewrite Hok; [reflexivity|].
    by destruct (db.CreatePhotoRow _ _ _). }
  destruct (persistPhoto ind o (q_photoExists q) (a_photo a) (a_state a))
    as [[e p'] st1]; cbn [fst snd] in *. subst e.
  exists p'. destruct (same_dates_dated m _ _ Hs) as [Hd' Ht'].
  destruct (Hd' Hd) as [Hy Hm].
  assert (times p' = times (a_photo a)) as Htm.
  { destruct Hs as (E1 & E2 & _). unfold times. by rewrite E1, E2. }
  split.
  { rewrite <- Fp. destruct (q_photoExists q); [apply Hp|exact Hp]. }
  split; [exact Hy|]. split; [exact Hm|]. split.
  - intros He. split; [|exact (Ht' (Ht He))].
    transitivity (times (a_photo a)); [exact Htm|exact (Te He)].
  - intros Hne. pose proof (Tn Hne) as E. rewrite <- Htm in E.
    unfold times in E. by injection E.
Qed.

(** C9. The one event that [MediaFile] publishes on the topic
    "index.indexing" carries the empty string as [fileHash], for every media
    file, and every other event of the call is on another topic; for [nil]
    nothing is published. *)
Theorem C9_indexing_event_has_empty_hash ind m o originalName st :
  (exists msg rest,
     events (snd (MediaFile ind (Some m) o originalName st)) = events st ++ msg :: rest
     /\ event.Name msg = "index.indexing"
     /\ event.field "fileHash" (event.Fields msg) = Some (event.VString "")
     /\ Forall (fun msg' => event.Name msg' <> "index.indexing") rest)
  /\ events (snd (MediaFile ind None o originalName st)) = events st.
Proof.
  split; [|reflexivity]. apply MediaFile_frame.
Qed.

(** C10. Whenever [MediaFile] returns with the status "skipped", the result
    has no error, the file id 0 and empty file UUID, photo id and photo
    UUID, so that [Success] is false. *)
Theorem C10_skipped_result_is_empty ind m o originalName st :
  let r := fst (MediaFile ind m o originalName st) in
  IndexResult.Status r = IndexSkipped ->
  IndexResult.Error r = None /\ IndexResult.FileID r = 0
  /\ IndexResult.FileUUID r = "" /\ IndexResult.PhotoID r = 0
  /\ IndexResult.PhotoUUID r = "" /\ IndexResult.Success r = false.
Proof.
  cbn zeta. destruct m as [m|]; [|discriminate].
  destruct (MediaFile_Some ind m o originalName st) as (msg & _ & _ & ->).
  cbn zeta. destruct (skips o _).
  - intros _. by repeat split.
  - intros Hs. by apply persist_Status in Hs.
Qed.

End Proofs.

(** ** Further properties of the indexer *)

Section Further.
Context `{Packages}.
Import Index.

(** *** Rows and queries *)

Lemma First_exists {A : Type} (cond : A -> bool) (rows : list A) (r : A) :
  In r rows -> cond r = true -> exists r', db.First cond rows = Some r'.
Proof.
  intros Hin Hc. unfold db.First. destruct (find cond rows) as [r'|] eqn:E; [by exists r'|].
  pose proof (find_none _ _ E r Hin). congruence.
Qed.

Lemma First_app_last {A : Type} (cond : A -> bool) (rows : list A) (r : A) :
  db.First cond rows = None -> cond r = true -> db.First cond (rows ++ [r]) = Some r.
Proof.
  unfold db.First. induction rows as [|x rows IH]; cbn; intros Hn Hc.
  - by rewrite Hc.
  - destruct (cond x); [discriminate|]. by apply IH.
Qed.

Lemma In_SavePhotoRow p rows : In p (db.SavePhotoRow p rows).
Proof.
  unfold db.SavePhotoRow. destruct (existsb _ rows) eqn:E.
  - apply existsb_exists in E as (r & Hin & Hid). apply in_map_iff.
    exists r. by rewrite Hid.
  - apply in_or_app. right. by left.
Qed.

Lemma In_SaveFileRow f rows : In f (db.SaveFileRow f rows).
Proof.
  unfold db.SaveFileRow. destruct (existsb _ rows) eqn:E.
  - apply existsb_exists in E as (r & Hin & Hid). apply in_map_iff.
    exists r. by rewrite Hid.
  - apply in_or_app. right. by left.
Qed.

(** The first row that satisfies a condition, after the row of that id was
    saved with a struct that satisfies it. *)
Lemma First_SaveFileRow (cond : entity.File.t -> bool) f' rows :
  cond f' = true ->
  (exists r, In r rows /\ entity.File.ID r = entity.File.ID f') ->
  (forall r, db.First cond rows = Some r -> entity.File.ID r = entity.File.ID f') ->
  db.First cond (db.SaveFileRow f' rows) = Some f'.
Proof.
  intros Hc Hex Hfirst. unfold db.SaveFileRow.
  assert (existsb (fun r => entity.File.ID r =? entity.File.ID f') rows = true) as ->.
  { apply existsb_exists. destruct Hex as (r & Hin & Hid). exists r.
    split; [exact Hin|]. by apply Z.eqb_eq. }
  unfold db.First in *. induction rows as [|x rows IH]; cbn.
  - by destruct Hex as (r & [] & _).
  - destruct (Z.eqb_spec (entity.File.ID x) (entity.File.ID f')) as [Hx|Hx].
    + by rewrite Hc.
    + cbn in Hfirst. destruct (cond x) eqn:Ex.
      * exfalso. apply Hx. by apply Hfirst.
      * apply IH; [|exact Hfirst].
        destruct Hex as (r & [->|Hin] & Hid); [contradiction|]. by exists r.
Qed.

Lemma lookupFile_found ind m s file fileHash :
  lookupFile ind m s = (file, fileHash, true) ->
  In file (db.files s)
  /\ forall r,
       db.First (fun r => bool_decide (entity.File.FileName r
                                       = MediaFile.RelativeName m (originalsPath ind)))
                (db.files s) = Some r ->
       r = file.
Proof.
  unfold lookupFile, db.First.
  destruct (find _ (db.files s)) as [f|] eqn:E1.
  - intros E. assert (f = file) as <- by congruence.
    split; [exact (proj1 (find_some _ _ E1))|]. by intros r [= <-].
  - destruct (negb _); [|intros [=]].
    destruct (find (fun r => bool_decide (entity.File.FileHash r = _)) _)
      as [f|] eqn:E2; [|intros [=]].
    intros E. assert (f = file) as <- by congruence.
    split; [exact (proj1 (find_some _ _ E2))|]. intros r [=].
Qed.

Lemma lookupFile_missing ind m s file fileHash :
  lookupFile ind m s = (file, fileHash, false) ->
  db.First (fun r => bool_decide (entity.File.FileName r
                                  = MediaFile.RelativeName m (originalsPath ind)))
           (db.files s) = None.
Proof.
  unfold lookupFile, db.First.
  destruct (find _ (db.files s)) as [f|] eqn:E1; [intros [=]|]. done.
Qed.

(** The parts of the lookup. *)
Lemma lookup_file ind m s :
  lookupFile ind m s = (q_file (lookup ind m s), q_fileHash (lookup ind m s),
                        q_fileExists (lookup ind m s)).
Proof.
  unfold lookup. destruct (MediaFile.Stat m) as [fileSize fileModified].
  destruct (lookupFile ind m s) as [[file fileHash] fileExists].
  by destruct (if negb fileExists then _ else _).
Qed.

(** The file at the end of the analysis has the name, the size and the other
    fields of the media file. *)
Lemma analyse_stamped ind m o originalName q st :
  stamped ind m (a_file (analyse ind m o originalName q st)).
Proof.
  unfold analyse, stamped. cbn [a_file].
  unfold fileDimensions, fileColors, fileFields.
  destruct (MediaFile.Stat m) as [fileSize fileModified].
  destruct (MediaFile.IsJpeg m && _); [|].
  all: destruct (MediaFile.IsJpeg m && _); try destruct (_ && _);
    try destruct (MediaFile.Colors m _) as [pc [e|]]; by repeat split.
Qed.

(** *** The result of a call *)

(** The result of [persist], by the errors of the two writes. *)
Lemma persist_result ind m o originalName q a :
  let pp := persistPhoto ind o (q_photoExists q) (a_photo a) (a_state a) in
  let p' := snd (fst pp) in
  let ids :=
    IndexResult.set_Status IndexUpdated
      (IndexResult.set_PhotoUUID (entity.Photo.PhotoUUID p')
         (IndexResult.set_PhotoID (entity.Photo.ID p') IndexResult.zero)) in
  let f := linkedFile p' (a_file a) in
  fst (persist ind m o originalName q a)
  = match fst (fst pp) with
    | Some e => failed e IndexResult.zero
    | None =>
        match db_Error ind (if q_fileExists q then db.SaveFile else db.CreateFile) with
        | Some e => failed e ids
        | None =>
            if q_fileExists q then
              IndexResult.set_FileUUID (entity.File.FileUUID f)
                (IndexResult.set_FileID (entity.File.ID f) ids)
            else
              let f' := fst (db.CreateFileRow (rnd_FileUUID ind)
                               (entity.File.set_CreatedIn (time_Since ind) f)
                               (db.files (catalog (a_state a)))) in
              IndexResult.set_FileUUID (entity.File.FileUUID f')
                (IndexResult.set_FileID (entity.File.ID f')
                   (IndexResult.set_Status IndexAdded ids))
        end
    end.
Proof.
  cbn zeta.
  pose proof (persist_spec ind m o originalName q a) as (_ & _ & _ & Hm).
  cbn zeta in Hm.
  destruct (fst (fst (persistPhoto ind o (q_photoExists q) (a_photo a) (a_state a))))
    as [e|] eqn:Ee.
  { by destruct Hm as [-> _]. }
  destruct Hm as (Hid & Huuid & Hw).
  set (r := fst (persist ind m o originalName q a)) in *.
  assert (forall x y : IndexResult.t,
            IndexResult.Status x = IndexResult.Status y ->
            IndexResult.Error x = IndexResult.Error y ->
            IndexResult.FileID x = IndexResult.FileID y ->
            IndexResult.FileUUID x = IndexResult.FileUUID y ->
            IndexResult.PhotoID x = IndexResult.PhotoID y ->
            IndexResult.PhotoUUID x = IndexResult.PhotoUUID y -> x = y) as Hext.
  { intros [] []; cbn; congruence. }
  assert (IndexResult.FileID r = 0 /\ IndexResult.FileUUID r = ""
          \/ IndexResult.Error r = None) as Hzero.
  { subst r. unfold persist.
    destruct (persistPhoto ind o (q_photoExists q) (a_photo a) (a_state a))
      as [[e' p0] st1]. cbn [fst] in Ee. subst e'.
    unfold persistFile. destruct (q_fileExists q).
    - destruct (db_Error ind db.SaveFile); [by left|by right].
    - destruct (db_Error ind db.CreateFile); [by left|by right]. }
  unfold file_written in Hw. destruct (q_fileExists q).
  - destruct (db_Error ind db.SaveFile) as [e|].
    + destruct Hw as (Hs & He & _). destruct Hzero as [[Z1 Z2]|?]; [|congruence].
      by apply Hext.
    + destruct Hw as (Hs & He & _ & Hfi & Hfu). by apply Hext.
  - destruct (db_Error ind db.CreateFile) as [e|].
    + destruct Hw as (Hs & He & _). destruct Hzero as [[Z1 Z2]|?]; [|congruence].
      by apply Hext.
    + destruct Hw as (Hs & He & Hfiles & Hfi & Hfu). by apply Hext.
Qed.

(** A call that is not skipped is the persistence of the analysis, which
    leaves the photos and the files as they were. *)
Lemma MediaFile_run ind m o originalName st :
  skips o (lookup ind m (catalog st)) = false ->
  exists st0,
    catalog st0 = catalog st
    /\ MediaFile ind (Some m) o originalName st
       = persist ind m o originalName (lookup ind m (catalog st))
           (analyse ind m o originalName (lookup ind m (catalog st)) st0)
    /\ db.photos (catalog (a_state (analyse ind m o originalName
                                      (lookup ind m (catalog st)) st0)))
       = db.photos (catalog st)
    /\ db.files (catalog (a_state (analyse ind m o originalName
                                     (lookup ind m (catalog st)) st0)))
       = db.files (catalog st).
Proof.
  intros Hs. destruct (MediaFile_Some ind m o originalName st) as (msg & _ & _ & E).
  cbn zeta in E. rewrite Hs in E.
  exists (mkState (catalog st) (events st ++ [msg])).
  split; [reflexivity|]. split; [exact E|].
  destruct (analyse_frame ind m o originalName (lookup ind m (catalog st))
              (mkState (catalog st) (events st ++ [msg]))) as (Fp & Ff & _).
  by split.
Qed.

(** X1. The status of a result is one of the four, the error is set exactly when
    the status is "failed", and a successful result is "updated" or "added". *)
Theorem MediaFile_status_and_error ind m o originalName st :
  let r := fst (MediaFile ind m o originalName st) in
  (IndexResult.Status r = IndexFailed \/ IndexResult.Status r = IndexSkipped
   \/ IndexResult.Status r = IndexUpdated \/ IndexResult.Status r = IndexAdded)
  /\ (IndexResult.Error r <> None <-> IndexResult.Status r = IndexFailed)
  /\ (IndexResult.Success r = true <->
      (IndexResult.Status r = IndexUpdated \/ IndexResult.Status r = IndexAdded)
      /\ 0 < IndexResult.FileID r).
Proof.
  cbn zeta.
  assert (forall r : IndexResult.t,
            (IndexResult.Status r = IndexFailed /\ IndexResult.Error r <> None)
            \/ (IndexResult.Status r = IndexSkipped /\ IndexResult.Error r = None
                /\ IndexResult.FileID r = 0)
            \/ ((IndexResult.Status r = IndexUpdated \/ IndexResult.Status r = IndexAdded)
                /\ IndexResult.Error r = None) ->
            (IndexResult.Status r = IndexFailed \/ IndexResult.Status r = IndexSkipped
             \/ IndexResult.Status r = IndexUpdated \/ IndexResult.Status r = IndexAdded)
            /\ (IndexResult.Error r <> None <-> IndexResult.Status r = IndexFailed)
            /\ (IndexResult.Success r = true <->
                (IndexResult.Status r = IndexUpdated \/ IndexResult.Status r = IndexAdded)
                /\ 0 < IndexResult.FileID r)) as Hcases.
  { intros r. unfold IndexResult.Success.
    intros [[Hs He]|[(Hs & He & Hf)|[Hs He]]].
    - split; [by left|]. split; [by split|]. rewrite Hs. split.
      + intros Hb. apply andb_prop in Hb as [Hb _].
        by apply bool_decide_eq_true_1 in Hb.
      + intros [[?|?] _]; discriminate.
    - split; [by right; left|]. rewrite Hs, He, Hf. split; [split; [done|discriminate]|].
      split; [discriminate|]. intros [_ ?]. lia.
    - split; [destruct Hs; by auto|]. rewrite He. split.
      + split; [done|]. destruct Hs as [-> | ->]; discriminate.
      + rewrite bool_decide_eq_true_2 by done. cbn. rewrite Z.ltb_lt. tauto. }
  apply Hcases. destruct m as [m|]; [|left; by split].
  destruct (skips o (lookup ind m (catalog st))) eqn:Hs.
  { destruct (MediaFile_Some ind m o originalName st) as (msg & _ & _ & E).
    cbn zeta in E. rewrite Hs in E. rewrite E. right. left. by repeat split. }
  destruct (MediaFile_run ind m o originalName st Hs) as (st0 & _ & -> & _).
  rewrite persist_result. cbn zeta.
  destruct (fst (fst (persistPhoto _ _ _ _ _))); [left; by split|].
  destruct (db_Error ind _); [left; by split|].
  right. right. destruct (q_fileExists _); split; auto.
Qed.

(** What a call with the status "updated" or "added" has written. *)
Lemma MediaFile_written ind m o originalName st :
  let r := fst (MediaFile ind (Some m) o originalName st) in
  let s' := catalog (snd (MediaFile ind (Some m) o originalName st)) in
  let q := lookup ind m (catalog st) in
  IndexResult.Status r = IndexUpdated \/ IndexResult.Status r = IndexAdded ->
  exists f' p',
    (if q_fileExists q
     then db.files s' = db.SaveFileRow f' (db.files (catalog st))
          /\ entity.File.ID f' = entity.File.ID (q_file q)
          /\ IndexResult.Status r = IndexUpdated
     else db.files s' = db.files (catalog st) ++ [f']
          /\ IndexResult.Status r = IndexAdded)
    /\ (if q_photoExists q
        then db.photos s' = db.SavePhotoRow p' (db.photos (catalog st))
        else db.photos s' = db.photos (catalog st) ++ [p'])
    /\ stamped ind m f'
    /\ entity.File.PhotoID f' = entity.Photo.ID p'
    /\ entity.File.PhotoUUID f' = entity.Photo.PhotoUUID p'
    /\ IndexResult.FileID r = entity.File.ID f'
    /\ IndexResult.FileUUID r = entity.File.FileUUID f'
    /\ IndexResult.PhotoID r = entity.Photo.ID p'
    /\ IndexResult.PhotoUUID r = entity.Photo.PhotoUUID p'.
Proof.
  cbn zeta. intros Hst.
  destruct (skips o (lookup ind m (catalog st))) eqn:Hs.
  { destruct (MediaFile_Some ind m o originalName st) as (msg & _ & _ & E).
    cbn zeta in E. rewrite Hs in E. rewrite E in Hst.
    destruct Hst as [?|?]; discriminate. }
  destruct (MediaFile_run ind m o originalName st Hs) as (st0 & E0 & E & Fp & Ff).
  rewrite E in *. clear E.
  set (q := lookup ind m (catalog st)) in *.
  set (a := analyse ind m o originalName q st0) in *.
  pose proof (analyse_stamped ind m o originalName q st0) as Hstamp. fold a in Hstamp.
  pose proof (file_kept_analyse ind m o originalName q st0) as (Hid & _).
  fold a in Hid. rewrite electPrimary_ID in Hid.
  pose proof (persistPhoto_spec ind o (q_photoExists q) (a_photo a) (a_state a))
    as (_ & _ & _ & _ & Hp).
  pose proof (persist_spec ind m o originalName q a) as (Hphotos & _ & _ & Hm).
  cbn zeta in Hp, Hm. rewrite Hphotos.
  destruct (persistPhoto ind o (q_photoExists q) (a_photo a) (a_state a))
    as [[[e|] p'] st1]; cbn [fst snd] in *.
  { destruct Hm as [Hr _]. rewrite Hr in Hst. destruct Hst as [?|?]; discriminate. }
  destruct Hm as (Hpid & Hpuuid & Hw). unfold file_written in Hw.
  rewrite Ff in Hw. rewrite Fp in Hp.
  assert (if q_photoExists q
          then db.photos (catalog st1) = db.SavePhotoRow p' (db.photos (catalog st))
          else db.photos (catalog st1) = db.photos (catalog st) ++ [p']) as Hp'
    by (destruct (q_photoExists q); [apply Hp|exact Hp]).
  destruct (q_fileExists q).
  - destruct (db_Error ind db.SaveFile).
    + destruct Hw as (Hr & _). rewrite Hr in Hst. destruct Hst as [?|?]; discriminate.
    + destruct Hw as (Hr & _ & Hfiles & Hfi & Hfu).
      exists (entity.File.set_UpdatedIn (time_Since ind) (linkedFile p' (a_file a))), p'.
      split; [split; [exact Hfiles|split; [exact Hid|exact Hr]]|].
      split; [exact Hp'|]. split; [exact Hstamp|].
      exact (conj eq_refl (conj eq_refl (conj Hfi (conj Hfu (conj Hpid Hpuuid))))).
  - destruct (db_Error ind db.CreateFile).
    + destruct Hw as (Hr & _). rewrite Hr in Hst. destruct Hst as [?|?]; discriminate.
    + destruct Hw as (Hr & _ & Hfiles & Hfi & Hfu).
      eexists _, p'. split; [split; [exact Hfiles|exact Hr]|].
      split; [exact Hp'|]. unfold db.CreateFileRow. cbn [fst].
      unfold db.CreateFileRow in Hfi, Hfu. cbn [fst] in Hfi, Hfu.
      case_bool_decide; (split; [exact Hstamp|]);
        exact (conj eq_refl (conj eq_refl (conj Hfi (conj Hfu (conj Hpid Hpuuid))))).
Qed.

(** X2. After a call with the status "updated" or "added", the catalog has the
    file row and the photo row that the result names: the file row carries
    the ids of the result and of the photo, and the name, size and
    modification time of the media file, and is not marked missing. *)
Theorem MediaFile_result_names_rows ind m o originalName st :
  let r := fst (MediaFile ind (Some m) o originalName st) in
  let s' := catalog (snd (MediaFile ind (Some m) o originalName st)) in
  IndexResult.Status r = IndexUpdated \/ IndexResult.Status r = IndexAdded ->
  exists f' p',
    In f' (db.files s') /\ In p' (db.photos s')
    /\ entity.File.ID f' = IndexResult.FileID r
    /\ entity.File.FileUUID f' = IndexResult.FileUUID r
    /\ entity.File.PhotoID f' = IndexResult.PhotoID r
    /\ entity.File.PhotoUUID f' = IndexResult.PhotoUUID r
    /\ entity.Photo.ID p' = IndexResult.PhotoID r
    /\ entity.Photo.PhotoUUID p' = IndexResult.PhotoUUID r
    /\ entity.File.FileName f' = MediaFile.RelativeName m (originalsPath ind)
    /\ entity.File.FileSize f' = fst (MediaFile.Stat m)
    /\ entity.File.FileModified f' = snd (MediaFile.Stat m)
    /\ entity.File.FileMissing f' = false.
Proof.
  cbn zeta. intros Hst.
  destruct (MediaFile_written ind m o originalName st Hst)
    as (f' & p' & Hf & Hp & (Hn & Hsz & Hmod & Hmiss & _) & Hfp & Hfu & R1 & R2 & R3 & R4).
  exists f', p'. split; [|split].
  - destruct (q_fileExists _).
    + destruct Hf as (-> & _). apply In_SaveFileRow.
    + destruct Hf as (-> & _). apply in_or_app. right. by left.
  - destruct (q_photoExists _); rewrite Hp;
      [apply In_SavePhotoRow|apply in_or_app; right; by left].
  - repeat split; congruence.
Qed.

(** The lookup of a file whose name has an unchanged row and whose photo
    exists. *)
Lemma lookup_unchanged ind m s f p :
  db.First (fun r => bool_decide (entity.File.FileName r
                                  = MediaFile.RelativeName m (originalsPath ind)))
           (db.files s) = Some f ->
  In p (db.photos s) -> entity.Photo.ID p = entity.File.PhotoID f ->
  entity.File.FileSize f = fst (MediaFile.Stat m) ->
  entity.File.FileModified f = snd (MediaFile.Stat m) ->
  q_fileChanged (lookup ind m s) = false /\ q_photoExists (lookup ind m s) = true.
Proof.
  intros Hf Hin Hid Hsz Hmod. unfold lookup, lookupFile.
  destruct (MediaFile.Stat m) as [fileSize fileModified]. cbn [fst snd] in *.
  rewrite Hf. cbn [negb].
  destruct (First_exists (fun r => entity.Photo.ID r =? entity.File.PhotoID f)
              (db.photos s) p Hin) as [p0 ->]; [by apply Z.eqb_eq|].
  cbn. unfold entity.File.Changed.
  by rewrite Hsz, Hmod, !bool_decide_eq_true_2.
Qed.

(** X3. Idempotence. After a call with the status "updated" or "added", a second
    call for the same media file with [SkipUnchanged] set, whatever its other
    options and the answers of the collaborators, is skipped and leaves the
    catalog as the first call left it. *)
Theorem MediaFile_again_is_skipped ind ind' m o o' originalName originalName' st :
  let r1 := MediaFile ind (Some m) o originalName st in
  let r2 := MediaFile ind' (Some m) o' originalName' (snd r1) in
  IndexResult.Status (fst r1) = IndexUpdated \/ IndexResult.Status (fst r1) = IndexAdded ->
  originalsPath ind' = originalsPath ind ->
  SkipUnchanged o' = true ->
  IndexResult.Status (fst r2) = IndexSkipped /\ catalog (snd r2) = catalog (snd r1).
Proof.
  cbn zeta. intros Hst Hpath Ho.
  destruct (MediaFile_written ind m o originalName st Hst)
    as (f' & p' & Hf & Hp & (Hn & Hsz & Hmod & _) & Hfp & _).
  set (s1 := catalog (snd (MediaFile ind (Some m) o originalName st))) in *.
  pose proof (lookup_file ind m (catalog st)) as Hlf.
  assert (db.First (fun r => bool_decide
                               (entity.File.FileName r
                                = MediaFile.RelativeName m (originalsPath ind')))
                   (db.files s1) = Some f') as Hfirst.
  { rewrite Hpath. destruct (q_fileExists (lookup ind m (catalog st))).
    - destruct Hf as (-> & Hid & _).
      destruct (lookupFile_found ind m (catalog st) _ _ Hlf) as [Hin Huniq].
      apply First_SaveFileRow.
      + by apply bool_decide_eq_true_2.
      + eexists. split; [exact Hin|]. by symmetry.
      + intros r Hr. rewrite (Huniq r Hr). by symmetry.
    - destruct Hf as (-> & _). apply First_app_last.
      + exact (lookupFile_missing ind m (catalog st) _ _ Hlf).
      + by apply bool_decide_eq_true_2. }
  assert (In p' (db.photos s1)) as Hin.
  { destruct (q_photoExists _); rewrite Hp;
      [apply In_SavePhotoRow|apply in_or_app; right; by left]. }
  destruct (lookup_unchanged ind' m s1 f' p' Hfirst Hin (eq_sym Hfp) Hsz Hmod)
    as [Hc Hx].
  destruct (MediaFile_Some ind' m o' originalName'
              (snd (MediaFile ind (Some m) o originalName st))) as (msg & _ & _ & ->).
  cbn zeta. fold s1. unfold skips. rewrite Hc, Hx, Ho. by split.
Qed.

(** The error of [persistPhoto] is the error of the write of the photo. *)
Lemma persistPhoto_error ind o photoExists p st :
  fst (fst (persistPhoto ind o photoExists p st))
  = db_Error ind (if photoExists then db.SavePhoto else db.CreatePhoto).
Proof.
  unfold persistPhoto. destruct photoExists.
  - by destruct (db_Error ind db.SavePhoto).
  - destruct (db_Error ind db.CreatePhoto); [reflexivity|].
    by destruct (db.CreatePhotoRow _ _ _).
Qed.

(** A call that is not skipped and reports no error has the status "updated"
    or "added". *)
Lemma MediaFile_no_error ind m o originalName st :
  skips o (lookup ind m (catalog st)) = false ->
  IndexResult.Error (fst (MediaFile ind (Some m) o originalName st)) = None ->
  IndexResult.Status (fst (MediaFile ind (Some m) o originalName st)) = IndexUpdated
  \/ IndexResult.Status (fst (MediaFile ind (Some m) o originalName st)) = IndexAdded.
Proof.
  intros Hs. destruct (MediaFile_run ind m o originalName st Hs) as (st0 & _ & -> & _).
  rewrite persist_result. cbn zeta.
  destruct (fst (fst (persistPhoto _ _ _ _ _))); [discriminate|].
  destruct (db_Error ind _); [discriminate|].
  intros _. destruct (q_fileExists _); auto.
Qed.

(** X4. Failing writes. When the write of the photo fails, the call fails with
    that error, an empty result, and photos and files as they were. When the
    photo is written and the write of the file fails, the call fails with that
    error and no file id, the files are as they were, and the photo that the
    result names is in the catalog. *)
Theorem MediaFile_failing_writes ind m o originalName st :
  let q := lookup ind m (catalog st) in
  let r := fst (MediaFile ind (Some m) o originalName st) in
  let s' := catalog (snd (MediaFile ind (Some m) o originalName st)) in
  skips o q = false ->
  (forall e,
     db_Error ind (if q_photoExists q then db.SavePhoto else db.CreatePhoto) = Some e ->
     r = failed e IndexResult.zero
     /\ db.photos s' = db.photos (catalog st) /\ db.files s' = db.files (catalog st))
  /\ (forall e,
        db_Error ind (if q_photoExists q then db.SavePhoto else db.CreatePhoto) = None ->
        db_Error ind (if q_fileExists q then db.SaveFile else db.CreateFile) = Some e ->
        IndexResult.Status r = IndexFailed /\ IndexResult.Error r = Some e
        /\ IndexResult.FileID r = 0 /\ IndexResult.FileUUID r = ""
        /\ db.files s' = db.files (catalog st)
        /\ exists p', In p' (db.photos s')
                      /\ entity.Photo.ID p' = IndexResult.PhotoID r
                      /\ entity.Photo.PhotoUUID p' = IndexResult.PhotoUUID r).
Proof.
  cbn zeta. intros Hs.
  destruct (MediaFile_run ind m o originalName st Hs) as (st0 & E0 & -> & Fp & Ff).
  set (q := lookup ind m (catalog st)) in *.
  set (a := analyse ind m o originalName q st0) in *.
  pose proof (persistPhoto_spec ind o (q_photoExists q) (a_photo a) (a_state a))
    as (_ & _ & _ & _ & Hp).
  pose proof (persist_spec ind m o originalName q a) as (Hphotos & _ & _ & Hm).
  pose proof (persist_result ind m o originalName q a) as Hr.
  pose proof (persistPhoto_error ind o (q_photoExists q) (a_photo a) (a_state a)) as He.
  cbn zeta in Hp, Hm, Hr. rewrite Hphotos.
  destruct (persistPhoto ind o (q_photoExists q) (a_photo a) (a_state a))
    as [[e0 p'] st1]; cbn [fst snd] in *. subst e0.
  split.
  - intros e Ee. rewrite Ee in *. destruct Hm as [_ Hfiles].
    subst st1. split; [exact Hr|]. split; congruence.
  - intros e En Ee. rewrite En in *. rewrite Ee in Hr.
    destruct Hm as (Hpid & Hpuuid & Hw). unfold file_written in Hw.
    assert (db.files (catalog (snd (persist ind m o originalName q a)))
            = db.files (catalog (a_state a))) as Hfiles.
    { destruct (q_fileExists q); rewrite Ee in Hw; by destruct Hw as (_ & _ & ->). }
    rewrite Hr. split; [reflexivity|]. split; [reflexivity|].
    split; [reflexivity|]. split; [reflexivity|]. split; [congruence|].
    exists p'. split; [|by split].
    destruct (q_photoExists q).
    + destruct Hp as [_ ->]. apply In_SavePhotoRow.
    + rewrite Hp. apply in_or_app. right. by left.
Qed.

(** X5. A sidecar is never matched by its hash: when no row has its name, the
    lookup finds no file, whatever rows have its hash; the call is not
    skipped, and when it reports no error it has added a row for the sidecar. *)
Theorem MediaFile_sidecar_gets_own_row ind m o originalName st :
  let q := lookup ind m (catalog st) in
  let r := fst (MediaFile ind (Some m) o originalName st) in
  let s' := catalog (snd (MediaFile ind (Some m) o originalName st)) in
  MediaFile.IsSidecar m = true ->
  db.First (fun r => bool_decide (entity.File.FileName r
                                  = MediaFile.RelativeName m (originalsPath ind)))
           (db.files (catalog st)) = None ->
  q_fileExists q = false /\ q_fileChanged q = true
  /\ IndexResult.Status r <> IndexSkipped
  /\ (IndexResult.Error r = None ->
      IndexResult.Status r = IndexAdded
      /\ exists f', db.files s' = db.files (catalog st) ++ [f']
                    /\ entity.File.FileSidecar f' = true
                    /\ entity.File.FileName f'
                       = MediaFile.RelativeName m (originalsPath ind)).
Proof.
  cbn zeta. intros Hsc Hn.
  assert (q_fileExists (lookup ind m (catalog st)) = false
          /\ q_fileChanged (lookup ind m (catalog st)) = true) as [Hex Hch].
  { unfold lookup, lookupFile. destruct (MediaFile.Stat m) as [fileSize fileModified].
    rewrite Hn, Hsc. cbn [negb]. by destruct (lookupPhoto ind m (catalog st)). }
  assert (skips o (lookup ind m (catalog st)) = false) as Hs
    by (unfold skips; by rewrite Hch).
  split; [exact Hex|]. split; [exact Hch|]. split.
  - destruct (MediaFile_run ind m o originalName st Hs) as (st0 & _ & -> & _).
    apply persist_Status.
  - intros He. pose proof (MediaFile_no_error ind m o originalName st Hs He) as Hst.
    destruct (MediaFile_written ind m o originalName st Hst)
      as (f' & p' & Hf & _ & (Hname & _ & _ & _ & Hside & _) & _).
    rewrite Hex in Hf. destruct Hf as [Hfiles Hadd]. split; [exact Hadd|].
    exists f'. rewrite Hsc in Hside. by repeat split.
Qed.

(** *** A file that is not primary *)

Lemma analyse_not_primary ind m o originalName q st :
  ~ elected m (catalog st) q ->
  a_state (analyse ind m o originalName q st) = st
  /\ a_labels (analyse ind m o originalName q st) = []
  /\ entity.File.FilePrimary (a_file (analyse ind m o originalName q st)) = false.
Proof.
  intros Hne.
  assert (entity.File.FilePrimary
            (electPrimary m (catalog st) (q_photo q) (q_photoExists q) (q_file q))
          = false) as He.
  { destruct (entity.File.FilePrimary _) eqn:E; [|reflexivity].
    exfalso. apply Hne. by apply electPrimary_spec. }
  destruct (file_kept_analyse ind m o originalName q st) as (_ & Hp & _).
  rewrite He in Hp. split; [|split; [|exact Hp]].
  - unfold analyse. cbn [a_state].
    change (electPrimary m (catalog st) _ (q_photoExists q) (q_file q))
      with (electPrimary m (catalog st) (q_photo q) (q_photoExists q) (q_file q)).
    rewrite He. by destruct (MediaFile.IsXMP m).
  - unfold analyse. cbn [a_labels].
    change (electPrimary m (catalog st) _ (q_photoExists q) (q_file q))
      with (electPrimary m (catalog st) (q_photo q) (q_photoExists q) (q_file q)).
    rewrite He. by destruct (MediaFile.IsXMP m).
Qed.

(** X6. A file that is not elected primary is neither classified nor located:
    the call leaves labels, edges, categories, cameras, lenses, countries,
    places and keywords as they were, and publishes, after the
    "index.indexing" event, at most the two events of a new photo. *)
Theorem MediaFile_not_primary_is_light ind m o originalName st :
  let q := lookup ind m (catalog st) in
  let st' := snd (MediaFile ind (Some m) o originalName st) in
  ~ elected m (catalog st) q ->
  same_dimensions (catalog st) (catalog st')
  /\ exists msg rest,
       events st' = events st ++ msg :: rest
       /\ event.Name msg = "index.indexing"
       /\ (rest = []
           \/ (q_photoExists q = false
               /\ map event.Name rest = ["count.photos"; "photos.created"])).
Proof.
  cbn zeta. intros Hne.
  destruct (MediaFile_Some ind m o originalName st) as (msg & Hn & _ & ->).
  cbn zeta. set (q := lookup ind m (catalog st)) in *.
  destruct (skips o q).
  { cbn [snd catalog events]. split; [by repeat split|].
    exists msg, []. split; [reflexivity|]. split; [exact Hn|by left]. }
  set (st0 := mkState (catalog st) (events st ++ [msg])).
  assert (~ elected m (catalog st0) q) as Hne0 by exact Hne.
  destruct (analyse_not_primary ind m o originalName q st0 Hne0) as (Es & El & Ep).
  unfold persist. rewrite Es, El.
  assert (entity.File.FilePrimary
            (entity.File.set_PhotoUUID
               (entity.Photo.PhotoUUID
                  (snd (fst (persistPhoto ind o (q_photoExists q)
                               (a_photo (analyse ind m o originalName q st0)) st0))))
               (entity.File.set_PhotoID
                  (entity.Photo.ID
                     (snd (fst (persistPhoto ind o (q_photoExists q)
                                  (a_photo (analyse ind m o originalName q st0)) st0))))
                  (a_file (analyse ind m o originalName q st0)))) = false) as Ep'
    by exact Ep.
  assert (same_dimensions (catalog st)
            (catalog (snd (persistPhoto ind o (q_photoExists q)
                             (a_photo (analyse ind m o originalName q st0)) st0)))
          /\ (events (snd (persistPhoto ind o (q_photoExists q)
                             (a_photo (analyse ind m o originalName q st0)) st0))
              = events st ++ [msg]
              \/ q_photoExists q = false
                 /\ exists e1 e2,
                      events (snd (persistPhoto ind o (q_photoExists q)
                                     (a_photo (analyse ind m o originalName q st0)) st0))
                      = events st ++ [msg; e1; e2]
                      /\ event.Name e1 = "count.photos"
                      /\ event.Name e2 = "photos.created")) as [Hd Hev].
  { unfold persistPhoto. destruct (q_photoExists q).
    - destruct (db_Error ind db.SavePhoto); cbn; (split; [by repeat split|by left]).
    - destruct (db_Error ind db.CreatePhoto); cbn; (split; [by repeat split|]);
        [by left|right].
      split; [reflexivity|].
      exists (event.mkMessage "count.photos" [("count", event.VInt 1)]),
        (event.mkMessage (String.append "photos" ".created")
           [("entities",
             event.VPhotos
               [fst (db.CreatePhotoRow (rnd_PhotoUUID ind)
                       (entity.Photo.set_PhotoFavorite false
                          (a_photo (analyse ind m o originalName q st0)))
                       (db.photos (catalog st)))])]).
      split; [|split; reflexivity].
      unfold event.EntitiesCreated, event.Publish. by rewrite <- !app_assoc. }
  destruct (persistPhoto ind o (q_photoExists q)
              (a_photo (analyse ind m o originalName q st0)) st0)
    as [[[e|] p'] st1]; cbn [fst snd] in *.
  { cbn [snd]. split; [exact Hd|]. destruct Hev as [Hev|(Hx & e1 & e2 & Hev & N1 & N2)].
    - exists msg, []. split; [exact Hev|]. split; [exact Hn|by left].
    - exists msg, [e1; e2]. split; [exact Hev|]. split; [exact Hn|].
      right. split; [exact Hx|]. cbn. by rewrite N1, N2. }
  rewrite Ep'. cbn [andb]. unfold persistFile, SetDownloadFileID.
  assert (forall st2 : State,
            catalog st2 = catalog st1 \/
            (exists v, catalog st2 = db.set_files v (catalog st1)) \/
            (exists v, catalog st2 = db.set_files_sync v (catalog st1)) \/
            (exists v w, catalog st2 = db.set_files_sync w (db.set_files v (catalog st1))) ->
            events st2 = events st1 ->
            same_dimensions (catalog st) (catalog st2)
            /\ exists msg0 rest,
                 events st2 = events st ++ msg0 :: rest
                 /\ event.Name msg0 = "index.indexing"
                 /\ (rest = []
                     \/ (q_photoExists q = false
                         /\ map event.Name rest = ["count.photos"; "photos.created"])))
    as Hfin.
  { intros st2 Hc He. split.
    - destruct Hd as (D1 & D2 & D3 & D4 & D5 & D6 & D7 & D8).
      destruct Hc as [->|[[v ->]|[[v ->]|(v & w & ->)]]]; by repeat split.
    - rewrite He. destruct Hev as [Hev|(Hx & e1 & e2 & Hev & N1 & N2)].
      + exists msg, []. split; [exact Hev|]. split; [exact Hn|by left].
      + exists msg, [e1; e2]. split; [exact Hev|]. split; [exact Hn|].
        right. split; [exact Hx|]. cbn. by rewrite N1, N2. }
  destruct (q_fileExists q).
  - destruct (db_Error ind db.SaveFile); cbn [fst snd].
    + apply Hfin; [by left|reflexivity].
    + apply Hfin; [|reflexivity]. cbn [with_catalog catalog].
      destruct (SetDownloadFileID_Error ind); [right; left; by eexists|].
      right; right; right. by eexists _, _.
  - destruct (db_Error ind db.CreateFile); cbn [fst snd].
    + apply Hfin; [by left|reflexivity].
    + unfold db.CreateFileRow. cbn [fst snd]. apply Hfin; [|reflexivity].
      cbn [with_catalog catalog].
      destruct (SetDownloadFileID_Error ind); [right; left; by eexists|].
      right; right; right. by eexists _, _.
Qed.

Lemma sprintf2_nonempty a b : sprintf2 a b <> "".
Proof. unfold sprintf2. by destruct a. Qed.

Lemma daytimeTitle_nonempty p : daytimeTitle p <> "".
Proof.
  unfold daytimeTitle. destruct (negb _); [apply sprintf2_nonempty|discriminate].
Qed.

Lemma defaultTitle_nonempty m labels p : defaultTitle m labels p <> "".
Proof.
  unfold defaultTitle. destruct labels as [|label ?]; [apply daytimeTitle_nonempty|].
  destruct (_ && _); [apply sprintf2_nonempty|apply daytimeTitle_nonempty].
Qed.

Lemma synthTitle_nonempty m fileChanged o labels p :
  entity.Photo.PhotoTitle (synthTitle m fileChanged o labels p) <> "".
Proof.
  unfold synthTitle, entity.Photo.NoTitle. case_bool_decide as E; cbn [orb].
  - apply defaultTitle_nonempty.
  - destruct (_ && _); [apply defaultTitle_nonempty|exact E].
Qed.

Lemma same_face_refl p : same_face p p.
Proof. by repeat split. Qed.

Lemma same_face_trans p1 p2 p3 : same_face p1 p2 -> same_face p2 p3 -> same_face p1 p3.
Proof.
  intros (A1 & A2 & A3) (B1 & B2 & B3).
  exact (conj (eq_trans B1 A1) (conj (eq_trans B2 A2) (eq_trans B3 A3))).
Qed.

Lemma same_face_located p p' : same_face p p' -> located p -> located p'.
Proof.
  intros (_ & A2 & A3) (place & B1 & B2). exists place.
  split; [by rewrite A2|by rewrite A3].
Qed.

Lemma same_face_defaultTakenAt m p : same_face p (defaultTakenAt m p).
Proof. unfold defaultTakenAt. destruct (_ || _); by repeat split. Qed.

Lemma same_face_yearMonth p : same_face p (yearMonth p).
Proof. by repeat split. Qed.

Lemma same_face_photoKeywords m o fileChanged filePath fileBase file labels locKeywords p :
  same_face p (photoKeywords m o fileChanged filePath fileBase file labels locKeywords p).
Proof. unfold photoKeywords. destruct (_ && _); by repeat split. Qed.

Lemma located_synthTitle m fileChanged o labels p :
  located p -> located (synthTitle m fileChanged o labels p).
Proof. unfold synthTitle. by destruct (_ || _). Qed.

Lemma estimateLocation_face s p :
  entity.Photo.PhotoTitle (estimateLocation s p) = entity.Photo.PhotoTitle p
  /\ (located p -> located (estimateLocation s p)).
Proof.
  unfold estimateLocation. destruct (nearest _ _) as [r|]; [|by split].
  destruct (entity.Photo.HasPlace r); [|by split].
  destruct (entity.Photo.Place r) as [place|]; [|by split].
  split; [reflexivity|]. intros _. by exists place.
Qed.

Lemma persistPhoto_face ind o photoExists p st :
  let p' := snd (fst (persistPhoto ind o photoExists p st)) in
  entity.Photo.PhotoTitle p' = entity.Photo.PhotoTitle p /\ (located p -> located p').
Proof.
  cbn zeta. unfold persistPhoto. destruct photoExists.
  - assert (entity.Photo.PhotoTitle
              (if UpdateLocation o && entity.Photo.NoLocation p
               then estimateLocation (catalog st) p else p)
            = entity.Photo.PhotoTitle p
            /\ (located p ->
                located (if UpdateLocation o && entity.Photo.NoLocation p
                         then estimateLocation (catalog st) p else p))) as Hp.
    { destruct (_ && _); [apply estimateLocation_face|by split]. }
    by destruct (db_Error ind db.SavePhoto).
  - destruct (db_Error ind db.CreatePhoto); [by split|].
    unfold db.CreatePhotoRow. cbn [fst snd]. case_bool_decide; by split.
Qed.

(** The analysis of a primary file ends with the default title and date. *)
Lemma indexPrimary_photo ind m o fileChanged photo file st :
  exists labels p,
    a_photo (indexPrimary ind m o fileChanged photo file st)
    = defaultTakenAt m (synthTitle m fileChanged o labels p)
    /\ (fileChanged || UpdateKeywords o || UpdateLocation o || UpdateTitle o = true ->
        located p).
Proof.
  unfold indexPrimary.
  destruct (classifyPrimary ind m o fileChanged photo) as [labels0 p0].
  destruct (readMetaData m o fileChanged p0 file) as [p1 f1].
  destruct (readCamera m o fileChanged p1 st) as [p2 st2].
  destruct (readLocation ind m o fileChanged labels0 p2 st2)
    as [[[kw labels] p3] st3] eqn:E.
  exists labels, p3. split; [reflexivity|]. intros Hc.
  unfold readLocation in E. rewrite Hc in E.
  unfold indexLocation in E.
  destruct (MediaFile.Location m) as [location [e|]].
  { cbv beta iota in E. injection E as _ _ <- _.
    exists entity.Place.UnknownPlace. split; reflexivity. }
  destruct (Location_Find ind _ location (GeoCodingApi ind)) as [location' [e|]].
  { cbv beta iota in E. injection E as _ _ <- _.
    exists entity.Place.UnknownPlace. split; reflexivity. }
  cbv beta iota zeta in E.
  destruct (Country_FirstOrCreate _ _ _) as [country s].
  injection E as _ _ <- _. exists (entity.Location.Place location').
  split; [|reflexivity].
  destruct (_ && _); [|reflexivity]. by destruct (locationTitle _ _ _).
Qed.

Lemma analyse_primary_photo ind m o originalName q st :
  elected m (catalog st) q ->
  exists labels p,
    same_face (synthTitle m (q_fileChanged q) o labels p)
              (a_photo (analyse ind m o originalName q st))
    /\ (locates o q = true -> located p).
Proof.
  intros He. apply electPrimary_spec in He.
  unfold analyse. cbn [a_photo].
  change (electPrimary m (catalog st) _ (q_photoExists q) (q_file q))
    with (electPrimary m (catalog st) (q_photo q) (q_photoExists q) (q_file q)).
  rewrite He.
  destruct (indexPrimary_photo ind m o (q_fileChanged q)
              (entity.Photo.set_PhotoName (MediaFile.Base m)
                 (entity.Photo.set_PhotoPath (MediaFile.RelativePath m (originalsPath ind))
                    (q_photo q)))
              (electPrimary m (catalog st) (q_photo q) (q_photoExists q) (q_file q)) st)
    as (labels & p & E & Hl).
  exists labels, p. split; [|exact Hl].
  eapply same_face_trans; [|apply same_face_photoKeywords].
  eapply same_face_trans; [|apply same_face_yearMonth].
  change (entity.Photo.set_PhotoName _ (entity.Photo.set_PhotoPath _ _))
    with (entity.Photo.set_PhotoName (MediaFile.Base m)
            (entity.Photo.set_PhotoPath (MediaFile.RelativePath m (originalsPath ind))
               (q_photo q))).
  rewrite E. apply same_face_defaultTakenAt.
Qed.

(** The photo row that a successful call wrote. *)
Lemma MediaFile_stored_photo ind m o originalName st :
  let r := fst (MediaFile ind (Some m) o originalName st) in
  let s' := catalog (snd (MediaFile ind (Some m) o originalName st)) in
  let q := lookup ind m (catalog st) in
  IndexResult.Status r = IndexUpdated \/ IndexResult.Status r = IndexAdded ->
  exists st0,
    catalog st0 = catalog st
    /\ let a := analyse ind m o originalName q st0 in
       let p' := snd (fst (persistPhoto ind o (q_photoExists q) (a_photo a) (a_state a))) in
       In p' (db.photos s') /\ entity.Photo.ID p' = IndexResult.PhotoID r
       /\ entity.Photo.PhotoUUID p' = IndexResult.PhotoUUID r.
Proof.
  cbn zeta. intros Hs.
  assert (skips o (lookup ind m (catalog st)) = false) as Hk.
  { destruct (MediaFile_Some ind m o originalName st) as (msg & _ & _ & E).
    cbn zeta in E. destruct (skips o _); [|reflexivity].
    rewrite E in Hs. by destruct Hs. }
  destruct (MediaFile_run ind m o originalName st Hk) as (st0 & Hc & E & _ & _).
  rewrite E in Hs |- *. clear E. exists st0. split; [exact Hc|].
  set (q := lookup ind m (catalog st)) in *.
  set (a := analyse ind m o originalName q st0) in *.
  destruct (persist_spec ind m o originalName q a) as (Hp & _ & _ & Hr).
  destruct (persistPhoto_spec ind o (q_photoExists q) (a_photo a) (a_state a))
    as (_ & _ & _ & _ & Hw).
  cbn zeta in *.
  destruct (fst (fst (persistPhoto ind o (q_photoExists q) (a_photo a) (a_state a))))
    as [e|].
  { destruct Hr as [Hr _]. rewrite Hr in Hs. by destruct Hs. }
  destruct Hr as (Hi & Hu & _). rewrite Hp. split; [|by split].
  destruct (q_photoExists q).
  - destruct Hw as [_ ->]. apply In_SavePhotoRow.
  - rewrite Hw. apply in_or_app. right. by left.
Qed.

(** X7. The photo of a primary file is never stored without a title: where the
    metadata, the location and the labels give none, the title is made from
    the time of day, or is "Unknown". *)
Theorem MediaFile_primary_has_title ind m o originalName st :
  let r := fst (MediaFile ind (Some m) o originalName st) in
  let s' := catalog (snd (MediaFile ind (Some m) o originalName st)) in
  elected m (catalog st) (lookup ind m (catalog st)) ->
  IndexResult.Status r = IndexUpdated \/ IndexResult.Status r = IndexAdded ->
  exists p',
    In p' (db.photos s') /\ entity.Photo.ID p' = IndexResult.PhotoID r
    /\ entity.Photo.PhotoTitle p' <> "".
Proof.
  cbn zeta. intros He Hs.
  destruct (MediaFile_stored_photo ind m o originalName st Hs)
    as (st0 & Hc & Hin & Hid & _).
  cbn zeta in *. eexists. split; [exact Hin|]. split; [exact Hid|].
  assert (elected m (catalog st0) (lookup ind m (catalog st))) as He0
    by (by rewrite Hc).
  destruct (analyse_primary_photo ind m o originalName _ st0 He0)
    as (labels & p & (Ht & _) & _).
  rewrite (proj1 (persistPhoto_face _ _ _ _ _)), Ht.
  apply synthTitle_nonempty.
Qed.

(** X8. When the location of a primary file is indexed, the stored photo has a
    place, and its country is the country of that place. *)
Theorem MediaFile_primary_country_of_place ind m o originalName st :
  let r := fst (MediaFile ind (Some m) o originalName st) in
  let s' := catalog (snd (MediaFile ind (Some m) o originalName st)) in
  let q := lookup ind m (catalog st) in
  elected m (catalog st) q ->
  locates o q = true ->
  IndexResult.Status r = IndexUpdated \/ IndexResult.Status r = IndexAdded ->
  exists p' place,
    In p' (db.photos s') /\ entity.Photo.ID p' = IndexResult.PhotoID r
    /\ entity.Photo.Place p' = Some place
    /\ entity.Photo.PhotoCountry p' = entity.Place.LocCountry place.
Proof.
  cbn zeta. intros He Hl Hs.
  destruct (MediaFile_stored_photo ind m o originalName st Hs)
    as (st0 & Hc & Hin & Hid & _).
  cbn zeta in *.
  assert (elected m (catalog st0) (lookup ind m (catalog st))) as He0
    by (by rewrite Hc).
  destruct (analyse_primary_photo ind m o originalName _ st0 He0)
    as (labels & p & Hf & Hp).
  assert (located (a_photo (analyse ind m o originalName (lookup ind m (catalog st)) st0)))
    as Ha.
  { eapply same_face_located; [exact Hf|]. apply located_synthTitle. by apply Hp. }
  apply (proj2 (persistPhoto_face ind o (q_photoExists (lookup ind m (catalog st))) _
                  (a_state (analyse ind m o originalName (lookup ind m (catalog st)) st0))))
    in Ha.
  destruct Ha as (place & Hpl & Hco).
  eexists _, place. split; [exact Hin|]. split; [exact Hid|]. by split.
Qed.

Lemma emits_refl names st : emits names st st.
Proof. exists []. by rewrite app_nil_r. Qed.

Lemma emits_trans names st1 st2 st3 :
  emits names st1 st2 -> emits names st2 st3 -> emits names st1 st3.
Proof.
  intros (e1 & H1 & F1) (e2 & H2 & F2). exists (e1 ++ e2).
  split; [by rewrite H2, H1, app_assoc | by apply Forall_app].
Qed.

Lemma emits_same_events names st st' : events st' = events st -> emits names st st'.
Proof. intros E. exists []. by rewrite app_nil_r. Qed.

Lemma emits_publish names name data st :
  In name names -> emits names st (publish name data st).
Proof.
  intros Hn. exists [event.mkMessage name data]. split; [reflexivity|].
  by repeat constructor.
Qed.

Lemma emits_entitiesCreated names name v st :
  In (String.append name ".created") names -> emits names st (entitiesCreated name v st).
Proof. intros Hn. eexists [_]. split; [reflexivity|]. by repeat constructor. Qed.

Lemma internLabel_emits ind label st :
  emits labelTopics st (snd (internLabel ind label st)).
Proof.
  unfold internLabel. destruct (Label_FirstOrCreate _ _ _ _) as [lm s1].
  set (st1 := if entity.Label.New lm then _ else _).
  assert (emits labelTopics st st1) as Hp.
  { subst st1. destruct (entity.Label.New lm); [|by apply emits_same_events].
    assert (emits labelTopics st
              (entitiesCreated "labels" (event.VLabels [lm]) (mkState s1 (events st))))
      as He.
    { eapply emits_trans.
      - apply (emits_same_events _ st (mkState s1 (events st))). reflexivity.
      - apply (emits_entitiesCreated _ "labels"). by left. }
    destruct (0 <=? _); [|exact He].
    eapply emits_trans; [exact He|]. apply emits_publish. right. by left. }
  destruct (negb _); [|exact Hp].
  destruct (db_Error ind db.SaveLabel); [exact Hp|]. cbn [snd].
  eapply emits_trans; [exact Hp|]. by apply emits_same_events.
Qed.

Lemma addLabel_emits ind photoId label st :
  emits labelTopics st (addLabel ind photoId label st).
Proof.
  unfold addLabel. pose proof (internLabel_emits ind label st) as Hp.
  destruct (internLabel ind label st) as [lm st1]. cbn [snd] in Hp.
  destruct Hp as (evs & E & F). by exists evs.
Qed.

Lemma addLabels_emits ind photoId labels st :
  emits labelTopics st (addLabels ind photoId labels st).
Proof.
  unfold addLabels. revert st.
  induction labels as [|label labels IH]; intros st; [apply emits_refl|].
  cbn [fold_left]. eapply emits_trans; [apply addLabel_emits|apply IH].
Qed.

Lemma readCamera_events m o fileChanged photo st :
  events (snd (readCamera m o fileChanged photo st)) = events st.
Proof.
  unfold readCamera. destruct (_ && _); [|reflexivity].
  by destruct (updateCamera m photo (catalog st)).
Qed.

Lemma indexLocation_emits ind m photo labels fileChanged o st :
  emits locationTopics st (snd (indexLocation ind m photo labels fileChanged o st)).
Proof.
  unfold indexLocation. destruct (MediaFile.Location m) as [location [e|]].
  { apply emits_refl. }
  destruct (Location_Find ind _ location _) as [location' [e|]].
  { apply emits_refl. }
  set (st1 := with_catalog (persistPlace location') st).
  set (st2 := if entity.Place.New _ then _ else st1).
  assert (emits locationTopics st st2) as F2.
  { subst st2. destruct (entity.Place.New _); [|by apply emits_same_events].
    eapply emits_trans; [apply (emits_same_events _ st st1); reflexivity|].
    apply emits_publish. by left. }
  destruct (Country_FirstOrCreate _ _ (catalog st2)) as [country s3]. cbn [snd].
  eapply emits_trans; [exact F2|].
  destruct (entity.Country.New country); [|by apply emits_same_events].
  eapply emits_trans;
    [apply (emits_same_events _ st2 (mkState s3 (events st2))); reflexivity|].
  apply emits_publish. right. by left.
Qed.

Lemma analyse_emits ind m o originalName q st :
  emits locationTopics st (a_state (analyse ind m o originalName q st)).
Proof.
  unfold analyse. cbn [a_state].
  destruct (entity.File.FilePrimary _);
    [|destruct (MediaFile.IsXMP m); apply emits_refl].
  unfold indexPrimary.
  destruct (classifyPrimary ind m o _ _) as [labels photo1].
  destruct (readMetaData m o _ photo1 _) as [photo2 file2].
  pose proof (readCamera_events m o (q_fileChanged q) photo2 st) as F1.
  destruct (readCamera m o _ photo2 st) as [photo3 st3]. cbn [snd] in F1.
  unfold readLocation. destruct (_ || _); [|by apply emits_same_events].
  pose proof (indexLocation_emits ind m photo3 labels (q_fileChanged q) o st3) as F2.
  destruct (indexLocation ind m photo3 labels _ o st3) as [[[kw ll] p] st'].
  cbn [snd a_state] in *. eapply emits_trans; [|exact F2]. by apply emits_same_events.
Qed.

(** The events of [persistPhoto]: none, or the two of the photo it created. *)
Lemma persistPhoto_events ind o photoExists p st :
  let pp := persistPhoto ind o photoExists p st in
  (events (snd pp) = events st
   /\ (fst (fst pp) <> None \/ photoExists = true))
  \/ (fst (fst pp) = None /\ photoExists = false
      /\ db.photos (catalog (snd pp)) = db.photos (catalog st) ++ [snd (fst pp)]
      /\ events (snd pp)
         = events st
           ++ [event.mkMessage "count.photos" [("count", event.VInt 1)];
               event.mkMessage "photos.created"
                 [("entities", event.VPhotos [snd (fst pp)])]]).
Proof.
  cbn zeta. unfold persistPhoto. destruct photoExists.
  - left. destruct (db_Error ind db.SavePhoto); (split; [reflexivity|by right]).
  - destruct (db_Error ind db.CreatePhoto).
    + left. split; [reflexivity|by left].
    + right. unfold db.CreatePhotoRow. cbn [fst snd].
      split; [reflexivity|]. split; [reflexivity|]. split; [reflexivity|].
      unfold entitiesCreated, publish, event.EntitiesCreated, event.Publish.
      cbn [events catalog with_catalog]. by rewrite <- app_assoc.
Qed.

Lemma persist_events ind m o originalName q a :
  let pp := persistPhoto ind o (q_photoExists q) (a_photo a) (a_state a) in
  emits labelTopics (snd pp) (snd (persist ind m o originalName q a)).
Proof.
  cbn zeta. unfold persist.
  destruct (persistPhoto ind o (q_photoExists q) (a_photo a) (a_state a))
    as [[[e|] p'] st1]; cbn [fst snd]; [apply emits_refl|].
  set (st2 := match a_labels a with [] => st1 | _ :: _ => _ end).
  assert (emits labelTopics st1 st2) as E2.
  { subst st2. destruct (a_labels a); [apply emits_refl|apply addLabels_emits]. }
  set (st3 := if _ && _ then _ else st2).
  assert (events st3 = events st2) as E3 by (subst st3; by destruct (_ && _)).
  clearbody st3 st2.
  eapply emits_trans; [exact E2|]. apply emits_same_events. rewrite <- E3.
  unfold persistFile. destruct (q_fileExists q).
  - by destruct (db_Error ind db.SaveFile).
  - destruct (db_Error ind db.CreateFile); [reflexivity|].
    unfold db.CreateFileRow. reflexivity.
Qed.

Lemma lookup_photo_In ind m s :
  q_photoExists (lookup ind m s) = true -> In (q_photo (lookup ind m s)) (db.photos s).
Proof.
  unfold lookup. destruct (MediaFile.Stat m) as [fileSize fileModified].
  destruct (lookupFile ind m s) as [[file fileHash] fileExists].
  destruct (if negb fileExists then _ else _) as [photo|] eqn:E; [|discriminate].
  intros _. cbn [q_photo]. destruct (negb fileExists).
  - unfold lookupPhoto in E.
    destruct (db.First _ (db.photos s)) as [photo'|] eqn:E1.
    + injection E as <-. exact (proj1 (find_some _ _ E1)).
    + destruct (MediaFile.HasTimeAndPlace m); [|discriminate].
      exact (proj1 (find_some _ _ E)).
  - exact (proj1 (find_some _ _ E)).
Qed.

Lemma length_SavePhotoRow p p' rows :
  In p rows -> entity.Photo.ID p' = entity.Photo.ID p ->
  length (db.SavePhotoRow p' rows) = length rows.
Proof.
  intros Hin Hid. unfold db.SavePhotoRow.
  destruct (existsb _ rows) eqn:E; [apply length_map|].
  exfalso. apply Bool.not_true_iff_false in E. apply E.
  apply existsb_exists. exists p. split; [exact Hin|]. rewrite Hid. apply Z.eqb_refl.
Qed.

(** X9. The events of a call are, in this order: "index.indexing"; the counters
    of a new place and a new country; "count.photos" and "photos.created",
    with the row as it was stored, when and only when the call created a
    photo; and, for the labels that are new, "labels.created" and
    "count.labels". A call that creates no photo leaves the number of photos
    as it was. *)
Theorem MediaFile_events ind m o originalName st :
  let st' := snd (MediaFile ind (Some m) o originalName st) in
  exists msg loc new lab,
    events st' = events st ++ msg :: loc ++ new ++ lab
    /\ event.Name msg = "index.indexing"
    /\ Forall (fun e => In (event.Name e) locationTopics) loc
    /\ Forall (fun e => In (event.Name e) labelTopics) lab
    /\ ((new = []
         /\ length (db.photos (catalog st')) = length (db.photos (catalog st)))
        \/ exists p',
             db.photos (catalog st') = db.photos (catalog st) ++ [p']
             /\ new = [event.mkMessage "count.photos" [("count", event.VInt 1)];
                       event.mkMessage "photos.created"
                         [("entities", event.VPhotos [p'])]]).
Proof.
  cbn zeta.
  destruct (MediaFile_Some ind m o originalName st) as (msg & Hn & _ & ->).
  cbn zeta. set (q := lookup ind m (catalog st)).
  destruct (skips o q).
  { exists msg, [], [], []. cbn [snd events catalog].
    split; [reflexivity|]. split; [exact Hn|].
    split; [constructor|]. split; [constructor|]. left. by split. }
  set (st0 := mkState (catalog st) (events st ++ [msg])).
  set (a := analyse ind m o originalName q st0).
  destruct (analyse_emits ind m o originalName q st0) as (loc & El & Fl).
  destruct (analyse_frame ind m o originalName q st0) as (Hph & _).
  fold a in El, Hph.
  destruct (persist_events ind m o originalName q a) as (lab & Eb & Fb).
  destruct (persist_spec ind m o originalName q a) as (Hp & _).
  destruct (persistPhoto_spec ind o (q_photoExists q) (a_photo a) (a_state a))
    as (_ & _ & _ & _ & Hw).
  cbn zeta in *.
  destruct (persistPhoto_events ind o (q_photoExists q) (a_photo a) (a_state a))
    as [[Ee Hc]|(Hnone & Hx & Hrows & Ee)]; cbn zeta in *.
  - exists msg, loc, [], lab. rewrite Eb, Ee, El. cbn [events st0 app].
    split; [by rewrite <- !app_assoc|]. split; [exact Hn|].
    split; [exact Fl|]. split; [exact Fb|]. left. split; [reflexivity|].
    rewrite Hp.
    destruct (fst (fst (persistPhoto ind o (q_photoExists q) (a_photo a) (a_state a))))
      as [e|].
    { by rewrite Hw, Hph. }
    destruct Hc as [Hc|Hc]; [done|].
    destruct (q_photoExists q) eqn:Hq; [|discriminate Hc].
    destruct Hw as [Hk ->].
    rewrite Hph. cbn [catalog st0].
    apply (length_SavePhotoRow (q_photo q)).
    + exact (lookup_photo_In ind m (catalog st) Hq).
    + destruct (kept_analyse ind m o originalName q st0) as (Hid & _).
      destruct Hk as (Hid' & _). fold a in Hid. by rewrite Hid', Hid.
  - exists msg, loc,
      [event.mkMessage "count.photos" [("count", event.VInt 1)];
       event.mkMessage "photos.created"
         [("entities",
           event.VPhotos
             [snd (fst (persistPhoto ind o (q_photoExists q) (a_photo a) (a_state a)))])]],
      lab.
    rewrite Eb, Ee, El. cbn [events st0].
    split; [by rewrite <- !app_assoc|]. split; [exact Hn|].
    split; [exact Fl|]. split; [exact Fb|]. right.
    eexists. split; [|reflexivity]. by rewrite Hp, Hrows, Hph.
Qed.

End Further.

(** ** The claims at concrete inputs *)

Section Inputs.
Import Index Examples.
#[local] Existing Instance packages.

(** C1, witness: scenario S3. The user has set the title "My Dog"; the file
    is indexed again after it changed, with [UpdateTitle] forced and a title
    in its metadata; the title remains. *)
Lemma C1_witness :
  q_photoExists (lookup (indexer true []) a_jpg_edited (catalog state2)) = true
  /\ (db.photos (catalog (snd (MediaFile (indexer true []) (Some a_jpg_edited)
                                 (options false false true) "" state2)))
      = db.photos (catalog state2)
      \/ exists p',
           db.photos (catalog (snd (MediaFile (indexer true []) (Some a_jpg_edited)
                                      (options false false true) "" state2)))
           = db.SavePhotoRow p' (db.photos (catalog state2))
           /\ entity.Photo.PhotoTitle p' = "My Dog").
Proof.
  split; [reflexivity|].
  destruct (C1_sticky_user_edits (indexer true []) a_jpg_edited
              (options false false true) "" state2 eq_refl)
    as [E|(p' & E & _ & KT & _)]; [left; exact E|right].
  exists p'. split; [exact E|]. apply KT; [reflexivity|discriminate].
Defined.

(** C1, counterexample: the user has cleared the title and set the date,
    without a local time; both flags are set. After the file changed, the
    indexer gives the photo the title of the metadata and the creation date of
    the file. *)
Lemma C1_counterexample :
  q_photo (lookup (indexer true []) a_jpg_edited (catalog state1)) = photo1
  /\ q_photoExists (lookup (indexer true []) a_jpg_edited (catalog state1)) = true
  /\ entity.Photo.ModifiedTitle photo1 = true
  /\ entity.Photo.ModifiedDate photo1 = true
  /\ entity.Photo.PhotoTitle photo1 = ""
  /\ entity.Photo.TakenAt photo1 = noon 2020 5 5
  /\ exists p',
       db.photos (catalog (snd (MediaFile (indexer true []) (Some a_jpg_edited)
                                  (options true false false) "" state1))) = [p']
       /\ entity.Photo.ID p' = entity.Photo.ID photo1
       /\ entity.Photo.PhotoTitle p' = "Beach"
       /\ entity.Photo.TakenAt p' = noon 2021 6 1.
Proof.
  repeat (split; [reflexivity|]). eexists. split; [vm_compute; reflexivity|].
  repeat split.
Qed.

(** C2, witness: scenario S6. *)
Lemma C2_witness :
  imageLabels (indexer false labelsS6) a_jpg
  = [classify.mkLabel "cat" "image" 20 0 []; classify.mkLabel "dog" "image" 90 0 []]
  /\ classifyImage (indexer false labelsS6) a_jpg
     = [classify.mkLabel "cat" "image" 20 0 []].
Proof.
  split; [reflexivity|].
  apply (proj2 (C2_classifyImage_retains (indexer false labelsS6) a_jpg)).
  reflexivity.
Defined.

(** C2, counterexample: the first label of the sorted list has the
    uncertainty 100. The code takes the threshold from "cat" and drops "dog";
    by the specification the threshold is 0 and "dog" is retained. *)
Lemma C2_counterexample :
  classify.Sort (imageLabels (indexer false labelsZeroFirst) a_jpg) = labelsZeroFirst
  /\ classifyImage (indexer false labelsZeroFirst) a_jpg = [label "cat" 10 0]
  /\ Spec.retained (classify.Sort (imageLabels (indexer false labelsZeroFirst) a_jpg))
     = [label "cat" 10 0; label "dog" 75 0].
Proof. repeat split. Qed.

(** C3, witness: [2021/a.jpg] was moved to [2022/a.jpg] and is indexed without
    [SkipUnchanged]: the result carries the UUID of its photo. *)
Lemma C3_witness :
  MediaFile.IsSidecar a_jpg_moved = false
  /\ db.First (fun r => bool_decide (entity.File.FileName r = "2022/a.jpg"))
              (db.files (catalog state1)) = None
  /\ db.First (fun r => bool_decide (entity.File.FileHash r = "h-a"))
              (db.files (catalog state1)) = Some file1
  /\ db.First (fun r => entity.Photo.ID r =? 1) (db.photos (catalog state1)) = Some photo1
  /\ SkipUnchanged (options false true false) = false
  /\ db_Error (indexer true []) db.SavePhoto = None
  /\ IndexResult.PhotoUUID
       (fst (MediaFile (indexer true []) (Some a_jpg_moved) (options false true false)
               "" state1)) = "p-1".
Proof.
  repeat (split; [reflexivity|]).
  exact (proj1 (C3_dedup_by_hash (indexer true []) a_jpg_moved (options false true false)
                  "" state1 file1 photo1 eq_refl eq_refl eq_refl eq_refl
                  (or_intror eq_refl) eq_refl)).
Defined.

(** C3, counterexample: the moved file has the size and the time of the row
    that its hash matches; with [SkipUnchanged] the call is skipped and the
    result carries no photo UUID. *)
Lemma C3_counterexample :
  MediaFile.IsSidecar a_jpg_moved = false
  /\ db.First (fun r => bool_decide
                          (entity.File.FileName r
                           = MediaFile.RelativeName a_jpg_moved
                               (originalsPath (indexer true []))))
              (db.files (catalog state1)) = None
  /\ db.First (fun r => bool_decide (entity.File.FileHash r = MediaFile.Hash a_jpg_moved))
              (db.files (catalog state1)) = Some file1
  /\ db.First (fun r => entity.Photo.ID r =? entity.File.PhotoID file1)
              (db.photos (catalog state1)) = Some photo1
  /\ entity.Photo.PhotoUUID photo1 = "p-1"
  /\ fst (MediaFile (indexer true []) (Some a_jpg_moved) (options true false false)
             "" state1)
     = IndexResult.mk "skipped" None 0 "" 0 "".
Proof. repeat split. Qed.

(** C4, witness: scenario S2. *)
Lemma C4_witness :
  (q_fileExists (lookup (indexer true []) a_jpg (catalog state1)) = true
   /\ entity.File.FileSize (q_file (lookup (indexer true []) a_jpg (catalog state1)))
      = fst (MediaFile.Stat a_jpg)
   /\ entity.File.FileModified (q_file (lookup (indexer true []) a_jpg (catalog state1)))
      = snd (MediaFile.Stat a_jpg)
   /\ q_photoExists (lookup (indexer true []) a_jpg (catalog state1)) = true
   /\ SkipUnchanged (options true false false) = true)
  /\ IndexResult.Status
       (fst (MediaFile (indexer true []) (Some a_jpg) (options true false false) ""
               state1)) = IndexSkipped
  /\ catalog (snd (MediaFile (indexer true []) (Some a_jpg) (options true false false)
                     "" state1)) = catalog state1.
Proof.
  split; [by repeat split|].
  destruct (C4_skip_unchanged (indexer true []) a_jpg (options true false false) ""
              state1 eq_refl eq_refl eq_refl eq_refl eq_refl) as (Hs & Hc & _).
  exact (conj Hs Hc).
Defined.

(** C6, witness: the edge between photo 1 and the label "Cat" has the
    uncertainty 50; a label "Cat" of uncertainty 20 from the location
    overwrites uncertainty and source. *)
Lemma C6_witness :
  db.photos_labels (catalog state3) !! (1, 1) = Some (50, "image")
  /\ (1, 1) = (1, labelId (indexer true []) (classify.mkLabel "Cat" "location" 20 0 [])
                    (catalog state3))
  /\ db_Error (indexer true []) db.SavePhotoLabel = None
  /\ db.photos_labels
       (catalog (addLabel (indexer true []) 1 (classify.mkLabel "Cat" "location" 20 0 [])
                   state3)) !! (1, 1)
     = Some (20, "location").
Proof.
  repeat (split; [reflexivity|]).
  apply (proj2 (proj1 (C6_confidence_wins (indexer true []) 1 state3)
                  (classify.mkLabel "Cat" "location" 20 0 []) (1, 1) 50 "image" eq_refl));
    [reflexivity|reflexivity|reflexivity].
Defined.



(** C8, witness: [2021/a.jpg] is indexed again after it changed; its photo
    is saved with the year and the month of its [TakenAt]. *)
Lemma C8_witness :
  skips (options true false false)
        (lookup (indexer true []) a_jpg_edited (catalog state1)) = false
  /\ db_Error (indexer true []) db.SavePhoto = None
  /\ exists p',
       db.photos (catalog (snd (MediaFile (indexer true []) (Some a_jpg_edited)
                                  (options true false false) "" state1)))
       = db.SavePhotoRow p' (db.photos (catalog state1))
       /\ entity.Photo.PhotoYear p' = time.Year (entity.Photo.TakenAt p')
       /\ entity.Photo.PhotoMonth p' = time.Month (entity.Photo.TakenAt p').
Proof.
  split; [reflexivity|]. split; [reflexivity|].
  destruct (C8_year_month_of_TakenAt (indexer true []) a_jpg_edited
              (options true false false) "" state1 eq_refl eq_refl)
    as (p' & E & Y & M & _).
  exists p'. exact (conj E (conj Y M)).
Defined.

(** C8, counterexample: scenario S4. The sidecar [2021/a.xmp], created on
    1 June 2021, is indexed into an empty catalog. It is not a primary file:
    the photo is created with the title of the sidecar and with [TakenAt] and
    [TakenAtLocal] unset, in the year 1 and the month 1; the creation date of
    the file is not adopted. *)
Lemma C8_counterexample :
  q_photoExists (lookup xmpIndexer a_xmp (catalog state0)) = false
  /\ MediaFile.DateCreated a_xmp = noon 2021 6 1
  /\ IndexResult.Status (fst (MediaFile xmpIndexer (Some a_xmp)
                                (options false false false) "" state0)) = IndexAdded
  /\ exists p',
       db.photos (catalog (snd (MediaFile xmpIndexer (Some a_xmp)
                                  (options false false false) "" state0))) = [p']
       /\ entity.Photo.PhotoTitle p' = "Beach"
       /\ entity.Photo.TakenAt p' = time.zero
       /\ entity.Photo.TakenAtLocal p' = time.zero
       /\ entity.Photo.PhotoYear p' = 1
       /\ entity.Photo.PhotoMonth p' = 1.
Proof.
  repeat (split; [reflexivity|]). eexists. split; [vm_compute; reflexivity|].
  repeat split.
Qed.

(** C10, witness: scenario S2. *)
Lemma C10_witness :
  IndexResult.Status
    (fst (MediaFile (indexer true []) (Some a_jpg) (options true false false) "" state1))
  = IndexSkipped
  /\ IndexResult.Success
       (fst (MediaFile (indexer true []) (Some a_jpg) (options true false false) ""
               state1)) = false.
Proof.
  split; [reflexivity|].
  apply (C10_skipped_result_is_empty (indexer true []) (Some a_jpg)
           (options true false false) "" state1 eq_refl).
Defined.
(** ** The further properties at concrete inputs *)

(** X2, witness: [2021/a.jpg] is indexed again after it changed. *)
Lemma MediaFile_result_names_rows_witness :
  IndexResult.Status (fst (MediaFile (indexer true []) (Some a_jpg_edited)
                             (options true false false) "" state1)) = IndexUpdated
  /\ exists f' p',
       In f' (db.files (catalog (snd (MediaFile (indexer true []) (Some a_jpg_edited)
                                        (options true false false) "" state1))))
       /\ In p' (db.photos (catalog (snd (MediaFile (indexer true []) (Some a_jpg_edited)
                                            (options true false false) "" state1))))
       /\ entity.File.FileName f' = "2021/a.jpg"
       /\ entity.File.FileSize f' = 200
       /\ entity.File.PhotoID f' = entity.Photo.ID p'.
Proof.
  split; [reflexivity|].
  destruct (MediaFile_result_names_rows (indexer true []) a_jpg_edited
              (options true false false) "" state1 (or_introl eq_refl))
    as (f' & p' & Hf & Hp & _ & _ & Hi & _ & Hj & _ & Hn & Hs & _).
  exists f', p'. split; [exact Hf|]. split; [exact Hp|]. split; [exact Hn|].
  split; [exact Hs|]. exact (eq_trans Hi (eq_sym Hj)).
Defined.

(** X3, witness: the changed [2021/a.jpg] is indexed twice. *)
Lemma MediaFile_again_is_skipped_witness :
  IndexResult.Status (fst (MediaFile (indexer true []) (Some a_jpg_edited)
                             (options true false false) "" state1)) = IndexUpdated
  /\ SkipUnchanged (options true false false) = true
  /\ IndexResult.Status
       (fst (MediaFile (indexer true []) (Some a_jpg_edited) (options true false false) ""
               (snd (MediaFile (indexer true []) (Some a_jpg_edited)
                       (options true false false) "" state1)))) = IndexSkipped.
Proof.
  split; [reflexivity|]. split; [reflexivity|].
  exact (proj1 (MediaFile_again_is_skipped (indexer true []) (indexer true [])
                  a_jpg_edited (options true false false) (options true false false)
                  "" "" state1 (or_introl eq_refl) eq_refl eq_refl)).
Defined.

(** X4, witness: the photo of the changed [2021/a.jpg] is saved, and the
    database refuses the file row. *)
Lemma MediaFile_failing_writes_witness :
  skips (options true false false)
        (lookup brokenIndexer a_jpg_edited (catalog state1)) = false
  /\ IndexResult.Status (fst (MediaFile brokenIndexer (Some a_jpg_edited)
                                (options true false false) "" state1)) = IndexFailed
  /\ IndexResult.Error (fst (MediaFile brokenIndexer (Some a_jpg_edited)
                               (options true false false) "" state1)) = Some "disk full"
  /\ IndexResult.FileID (fst (MediaFile brokenIndexer (Some a_jpg_edited)
                                (options true false false) "" state1)) = 0
  /\ db.files (catalog (snd (MediaFile brokenIndexer (Some a_jpg_edited)
                               (options true false false) "" state1)))
     = db.files (catalog state1).
Proof.
  split; [reflexivity|].
  destruct (proj2 (MediaFile_failing_writes brokenIndexer a_jpg_edited
                     (options true false false) "" state1 eq_refl)
              "disk full" eq_refl eq_refl)
    as (Hs & He & Hi & _ & Hf & _).
  exact (conj Hs (conj He (conj Hi Hf))).
Defined.

(** X5, witness: scenario S4, the sidecar [2021/a.xmp] in an empty catalog. *)
Lemma MediaFile_sidecar_gets_own_row_witness :
  MediaFile.IsSidecar a_xmp = true
  /\ db.First (fun r => bool_decide (entity.File.FileName r = "2021/a.xmp"))
              (db.files (catalog state0)) = None
  /\ IndexResult.Status (fst (MediaFile xmpIndexer (Some a_xmp)
                                (options true false false) "" state0)) = IndexAdded.
Proof.
  split; [reflexivity|]. split; [reflexivity|].
  exact (proj1 (proj2 (proj2 (proj2
           (MediaFile_sidecar_gets_own_row xmpIndexer a_xmp (options true false false)
              "" state0 eq_refl eq_refl))) eq_refl)).
Defined.

(** The sidecar is not elected: it is no JPEG, and it has no row yet. *)
Lemma a_xmp_not_elected :
  ~ elected a_xmp (catalog state0) (lookup xmpIndexer a_xmp (catalog state0)).
Proof. intros [[C _]|C]; discriminate C. Defined.

(** X6, witness: scenario S4. *)
Lemma MediaFile_not_primary_is_light_witness :
  ~ elected a_xmp (catalog state0) (lookup xmpIndexer a_xmp (catalog state0))
  /\ db.labels (catalog (snd (MediaFile xmpIndexer (Some a_xmp)
                                (options true false false) "" state0)))
     = db.labels (catalog state0)
  /\ db.photos_labels (catalog (snd (MediaFile xmpIndexer (Some a_xmp)
                                       (options true false false) "" state0)))
     = db.photos_labels (catalog state0).
Proof.
  split; [exact a_xmp_not_elected|].
  destruct (proj1 (MediaFile_not_primary_is_light xmpIndexer a_xmp
                     (options true false false) "" state0 a_xmp_not_elected))
    as (Hl & He & _).
  exact (conj Hl He).
Defined.

(** X7, witness: the photo of [2021/a.jpg], whose title was cleared, is
    stored with a title. *)
Lemma MediaFile_primary_has_title_witness :
  entity.File.FilePrimary
    (q_file (lookup (indexer true []) a_jpg_edited (catalog state1))) = true
  /\ IndexResult.Status (fst (MediaFile (indexer true []) (Some a_jpg_edited)
                                (options true false false) "" state1)) = IndexUpdated
  /\ exists p',
       In p' (db.photos (catalog (snd (MediaFile (indexer true []) (Some a_jpg_edited)
                                            (options true false false) "" state1))))
       /\ entity.Photo.PhotoTitle p' <> "".
Proof.
  split; [reflexivity|]. split; [reflexivity|].
  destruct (MediaFile_primary_has_title (indexer true []) a_jpg_edited
              (options true false false) "" state1 (or_intror eq_refl)
              (or_introl eq_refl))
    as (p' & Hin & _ & Ht).
  exists p'. exact (conj Hin Ht).
Defined.

(** X8, witness: the location of [2021/a.jpg] cannot be found, and its photo
    is stored with a place and the country of that place. *)
Lemma MediaFile_primary_country_of_place_witness :
  entity.File.FilePrimary
    (q_file (lookup (indexer true []) a_jpg_edited (catalog state1))) = true
  /\ locates (options true false false)
             (lookup (indexer true []) a_jpg_edited (catalog state1)) = true
  /\ IndexResult.Status (fst (MediaFile (indexer true []) (Some a_jpg_edited)
                                (options true false false) "" state1)) = IndexUpdated
  /\ exists p' place,
       In p' (db.photos (catalog (snd (MediaFile (indexer true []) (Some a_jpg_edited)
                                            (options true false false) "" state1))))
       /\ entity.Photo.Place p' = Some place
       /\ entity.Photo.PhotoCountry p' = entity.Place.LocCountry place.
Proof.
  split; [reflexivity|]. split; [reflexivity|]. split; [reflexivity|].
  destruct (MediaFile_primary_country_of_place (indexer true []) a_jpg_edited
              (options true false false) "" state1 (or_intror eq_refl) eq_refl
              (or_introl eq_refl))
    as (p' & place & Hin & _ & Hp & Hc).
  exists p', place. exact (conj Hin (conj Hp Hc)).
Defined.

End Inputs.
